(** * OS.js server handler: privilege checks and session lifecycle

    A shallow embedding of [src/server/node/core/handler.js].

    JavaScript values are an inductive type, the session store is a finite
    map, and the callback-passing methods of [DefaultHandler] are written in
    continuation-passing style inside a small state-and-exception monad, so
    that each definition can be read next to the method it embeds. *)

From Stdlib Require Import ZArith String Ascii List Bool Lia.
From stdpp Require Import base option strings gmap list pretty.

Set Warnings "-register-all".

Open Scope string_scope.
Open Scope Z_scope.

(** ** JavaScript values *)

(** Numbers are integers here; objects are association lists of their own
    string-keyed properties, in insertion order; [JError] stands for an
    [Error] object and [JBuffer] for the [Buffer] a file read delivers.
    Functions never appear as data in the paths modelled. *)
Inductive jsval :=
| JUndefined
| JNull
| JBool (b : bool)
| JNum (z : Z)
| JStr (s : string)
| JArr (items : list jsval)
| JObj (props : list (string * jsval))
| JError (message : string)
| JBuffer (content : string).

Definition JFalse := JBool false.
Definition JTrue := JBool true.

(** ToBoolean. *)
Definition truthy (v : jsval) : bool :=
  match v with
  | JUndefined | JNull => false
  | JBool b => b
  | JNum z => negb (z =? 0)
  | JStr s => negb (String.eqb s "")
  | JArr _ | JObj _ | JError _ | JBuffer _ => true
  end.

(** [a || b] *)
Definition js_or (a b : jsval) : jsval := if truthy a then a else b.

(** [typeof v] *)
Definition typeof (v : jsval) : string :=
  match v with
  | JUndefined => "undefined"
  | JBool _ => "boolean"
  | JNum _ => "number"
  | JStr _ => "string"
  | JNull | JArr _ | JObj _ | JError _ | JBuffer _ => "object"
  end.

(** [v instanceof Array] *)
Definition instanceof_Array (v : jsval) : bool :=
  match v with JArr _ => true | _ => false end.

(** Strict equality [a === b].  Arrays, objects and errors are compared by
    identity in JavaScript; the two sides compared in this module always
    come from different places (a freshly parsed session value against
    configuration data or a request string), so they are never identical. *)
Definition strict_eq (a b : jsval) : bool :=
  match a, b with
  | JUndefined, JUndefined => true
  | JNull, JNull => true
  | JBool x, JBool y => Bool.eqb x y
  | JNum x, JNum y => x =? y
  | JStr x, JStr y => String.eqb x y
  | _, _ => false
  end.

Definition join_with (sep : string) (parts : list string) : string :=
  match parts with
  | [] => ""
  | p :: ps => fold_left (fun acc q => acc +:+ sep +:+ q) ps p
  end.

(** ToString. *)
Fixpoint ToString (v : jsval) : string :=
  match v with
  | JUndefined => "undefined"
  | JNull => "null"
  | JBool true => "true"
  | JBool false => "false"
  | JNum z => pretty z
  | JStr s => s
  | JArr items =>
      join_with ","
        (map (fun x => match x with
                       | JUndefined | JNull => ""
                       | _ => ToString x
                       end) items)
  | JObj _ => "[object Object]"
  | JError m => "Error: " +:+ m
  | JBuffer content => content
  end.

(** Own-property lookup in an association list. *)
Fixpoint assoc_get (k : string) (props : list (string * jsval)) : option jsval :=
  match props with
  | [] => None
  | (k', v) :: rest => if String.eqb k k' then Some v else assoc_get k rest
  end.

(** [obj[k] = v] on an association list: replace in place or append. *)
Fixpoint assoc_set (k : string) (v : jsval) (props : list (string * jsval))
  : list (string * jsval) :=
  match props with
  | [] => [(k, v)]
  | (k', v') :: rest =>
      if String.eqb k k' then (k, v) :: rest
      else (k', v') :: assoc_set k v rest
  end.

(** The names of the members every plain object inherits from
    [Object.prototype].  Each of them is truthy: eleven functions, and
    under the last but one name the prototype itself. *)
Definition Object_prototype_names : list string :=
  ["constructor"; "__defineGetter__"; "__defineSetter__"; "hasOwnProperty";
   "__lookupGetter__"; "__lookupSetter__"; "isPrototypeOf"; "propertyIsEnumerable";
   "toString"; "valueOf"; "__proto__"; "toLocaleString"].

(** ** JSON

    [JSON.parse] and [JSON.stringify] are built-ins of the language; they
    are modelled for the values above.  Number literals are restricted to
    integers: a literal with a fraction or an exponent has no value in this
    model and is reported like malformed text. *)

Definition is_ws (c : ascii) : bool :=
  let n := nat_of_ascii c in
  ((n =? 32) || (n =? 9) || (n =? 10) || (n =? 13))%nat.

Fixpoint skip_ws (s : string) : string :=
  match s with
  | String c rest => if is_ws c then skip_ws rest else s
  | EmptyString => s
  end.

Fixpoint strip_prefix (p s : string) : option string :=
  match p, s with
  | EmptyString, _ => Some s
  | String a p', String b s' => if Ascii.eqb a b then strip_prefix p' s' else None
  | String _ _, EmptyString => None
  end.

Definition digit_val (c : ascii) : option Z :=
  let n := nat_of_ascii c in
  if ((48 <=? n) && (n <=? 57))%nat then Some (Z.of_nat n - 48) else None.

Definition hex_val (c : ascii) : option Z :=
  let n := nat_of_ascii c in
  if ((48 <=? n) && (n <=? 57))%nat then Some (Z.of_nat n - 48)
  else if ((97 <=? n) && (n <=? 102))%nat then Some (Z.of_nat n - 87)
  else if ((65 <=? n) && (n <=? 70))%nat then Some (Z.of_nat n - 55)
  else None.

Definition byte_of (z : Z) : ascii := ascii_of_nat (Z.to_nat z).

(** The bytes (UTF-8) of a code unit given by a four-digit hexadecimal
    escape. *)
Definition utf8_of_unit (n : Z) : string :=
  if n <? 128 then String (byte_of n) ""
  else if n <? 2048 then
    String (byte_of (192 + n / 64)) (String (byte_of (128 + n mod 64)) "")
  else
    String (byte_of (224 + n / 4096))
      (String (byte_of (128 + (n / 64) mod 64))
         (String (byte_of (128 + n mod 64)) "")).

Definition unescape (c : ascii) : option ascii :=
  let n := nat_of_ascii c in
  if (n =? 34)%nat then Some c
  else if (n =? 92)%nat then Some c
  else if (n =? 47)%nat then Some c
  else if (n =? 98)%nat then Some (ascii_of_nat 8)
  else if (n =? 102)%nat then Some (ascii_of_nat 12)
  else if (n =? 110)%nat then Some (ascii_of_nat 10)
  else if (n =? 114)%nat then Some (ascii_of_nat 13)
  else if (n =? 116)%nat then Some (ascii_of_nat 9)
  else None.

(** The characters of a string literal, after its opening quote. *)
Fixpoint parse_chars (s : string) : option (string * string) :=
  match s with
  | EmptyString => None
  | String c rest =>
      let n := nat_of_ascii c in
      if (n =? 34)%nat then Some ("", rest)
      else if (n =? 92)%nat then
        match rest with
        | String e rest1 =>
            if (nat_of_ascii e =? 117)%nat then
              match rest1 with
              | String a (String b (String c' (String d rest2))) =>
                  match hex_val a, hex_val b, hex_val c', hex_val d with
                  | Some x3, Some x2, Some x1, Some x0 =>
                      match parse_chars rest2 with
                      | Some (str, r) =>
                          Some (utf8_of_unit (((x3 * 16 + x2) * 16 + x1) * 16 + x0) +:+ str, r)
                      | None => None
                      end
                  | _, _, _, _ => None
                  end
              | _ => None
              end
            else
              match unescape e with
              | Some ch =>
                  match parse_chars rest1 with
                  | Some (str, r) => Some (String ch str, r)
                  | None => None
                  end
              | None => None
              end
        | EmptyString => None
        end
      else if (n <? 32)%nat then None
      else
        match parse_chars rest with
        | Some (str, r) => Some (String c str, r)
        | None => None
        end
  end.

Fixpoint take_digits (s : string) (acc : Z) : Z * string :=
  match s with
  | String c rest =>
      match digit_val c with
      | Some d => take_digits rest (acc * 10 + d)
      | None => (acc, s)
      end
  | EmptyString => (acc, s)
  end.

Definition starts_fraction (s : string) : bool :=
  match s with
  | String c _ =>
      let n := nat_of_ascii c in ((n =? 46) || (n =? 101) || (n =? 69))%nat
  | EmptyString => false
  end.

Definition parse_unsigned (s : string) : option (Z * string) :=
  match s with
  | String c rest =>
      match digit_val c with
      | Some 0 => if starts_fraction rest then None else Some (0, rest)
      | Some d =>
          let '(z, r) := take_digits rest d in
          if starts_fraction r then None else Some (z, r)
      | None => None
      end
  | EmptyString => None
  end.

Definition parse_number (s : string) : option (jsval * string) :=
  match s with
  | String c rest =>
      if (nat_of_ascii c =? 45)%nat then
        match parse_unsigned rest with
        | Some (z, r) => Some (JNum (- z), r)
        | None => None
        end
      else
        match parse_unsigned s with
        | Some (z, r) => Some (JNum z, r)
        | None => None
        end
  | EmptyString => None
  end.

Definition head_is (n : nat) (s : string) : option string :=
  match s with
  | String c rest => if (nat_of_ascii c =? n)%nat then Some rest else None
  | EmptyString => None
  end.

(** The items of an array after its opening bracket, and the members of
    an object after its opening brace, given the parser [value] of one
    value; [n] bounds the number of items. *)
Fixpoint parse_elements (value : string -> option (jsval * string)) (n : nat)
    (s : string) (acc : list jsval) : option (jsval * string) :=
  match n with
  | O => None
  | S n' =>
      match value s with
      | Some (v, s1) =>
          let s1 := skip_ws s1 in
          match head_is 44 s1 with
          | Some s2 => parse_elements value n' s2 (v :: acc)
          | None =>
              match head_is 93 s1 with
              | Some s2 => Some (JArr (rev (v :: acc)), s2)
              | None => None
              end
          end
      | None => None
      end
  end.

Fixpoint parse_members (value : string -> option (jsval * string)) (n : nat)
    (s : string) (acc : list (string * jsval)) : option (jsval * string) :=
  match n with
  | O => None
  | S n' =>
      match head_is 34 (skip_ws s) with
      | Some s0 =>
          match parse_chars s0 with
          | Some (key, s1) =>
              match head_is 58 (skip_ws s1) with
              | Some s2 =>
                  match value s2 with
                  | Some (v, s3) =>
                      let s3 := skip_ws s3 in
                      match head_is 44 s3 with
                      | Some s4 => parse_members value n' s4 (assoc_set key v acc)
                      | None =>
                          match head_is 125 s3 with
                          | Some s4 => Some (JObj (assoc_set key v acc), s4)
                          | None => None
                          end
                      end
                  | None => None
                  end
              | None => None
              end
          | None => None
          end
      | None => None
      end
  end.

(** One JSON value at the head of [s], and the text after it.  [fuel]
    bounds the nesting depth and the number of items of a container; both
    are at most the length of the text. *)
Fixpoint parse_value (fuel : nat) (s : string) : option (jsval * string) :=
  match fuel with
  | O => None
  | S fuel' =>
      let s := skip_ws s in
      match strip_prefix "null" s with
      | Some r => Some (JNull, r)
      | None =>
      match strip_prefix "true" s with
      | Some r => Some (JTrue, r)
      | None =>
      match strip_prefix "false" s with
      | Some r => Some (JFalse, r)
      | None =>
      match head_is 34 s with
      | Some r =>
          match parse_chars r with
          | Some (str, r') => Some (JStr str, r')
          | None => None
          end
      | None =>
      match head_is 91 s with
      | Some r =>
          match head_is 93 (skip_ws r) with
          | Some r' => Some (JArr [], r')
          | None => parse_elements (parse_value fuel') fuel' r []
          end
      | None =>
      match head_is 123 s with
      | Some r =>
          match head_is 125 (skip_ws r) with
          | Some r' => Some (JObj [], r')
          | None => parse_members (parse_value fuel') fuel' r []
          end
      | None => parse_number s
      end end end end end end
  end.

(** [JSON.parse(text)] for a string [text]; [None] is a [SyntaxError]. *)
Definition JSON_parse_text (text : string) : option jsval :=
  match parse_value (S (String.length text)) text with
  | Some (v, rest) =>
      match skip_ws rest with
      | EmptyString => Some v
      | String _ _ => None
      end
  | None => None
  end.

(** [JSON.parse(v)]: the argument is first converted with ToString, so
    [JSON.parse(null)] reads the text [null] and [JSON.parse(undefined)]
    reads the text [undefined]. *)
Definition JSON_parse (v : jsval) : option jsval := JSON_parse_text (ToString v).

Definition hex_digit (z : Z) : ascii :=
  if z <? 10 then byte_of (48 + z) else byte_of (87 + z).

Fixpoint quote_chars (s : string) : string :=
  match s with
  | EmptyString => EmptyString
  | String c rest =>
      let n := nat_of_ascii c in
      let bs := ascii_of_nat 92 in
      let tail := quote_chars rest in
      if ((n =? 34) || (n =? 92))%nat then String bs (String c tail)
      else if (n =? 8)%nat then String bs (String (ascii_of_nat 98) tail)
      else if (n =? 12)%nat then String bs (String (ascii_of_nat 102) tail)
      else if (n =? 10)%nat then String bs (String (ascii_of_nat 110) tail)
      else if (n =? 13)%nat then String bs (String (ascii_of_nat 114) tail)
      else if (n =? 9)%nat then String bs (String (ascii_of_nat 116) tail)
      else if (n <? 32)%nat then
        String bs (String (ascii_of_nat 117) (String (ascii_of_nat 48) (String (ascii_of_nat 48)
          (String (hex_digit (Z.of_nat n / 16)) (String (hex_digit (Z.of_nat n mod 16)) tail)))))
      else String c tail
  end.

Definition quote (s : string) : string :=
  String (ascii_of_nat 34) (quote_chars s +:+ String (ascii_of_nat 34) "").

(** The text of a value; [None] where [JSON.stringify] gives [undefined]. *)
Fixpoint stringify_value (v : jsval) : option string :=
  match v with
  | JUndefined => None
  | JNull => Some "null"
  | JBool true => Some "true"
  | JBool false => Some "false"
  | JNum z => Some (pretty z)
  | JStr s => Some (quote s)
  | JArr items =>
      Some ("[" +:+ join_with ","
              (map (fun x => match stringify_value x with
                             | Some t => t
                             | None => "null"
                             end) items) +:+ "]")
  | JObj props =>
      Some ("{" +:+ join_with ","
              (flat_map (fun kv => match stringify_value (snd kv) with
                                   | Some t => [quote (fst kv) +:+ ":" +:+ t]
                                   | None => []
                                   end) props) +:+ "}")
  | JError _ | JBuffer _ => Some "{}"
  end.

(** [JSON.stringify(v)] *)
Definition JSON_stringify (v : jsval) : jsval :=
  match stringify_value v with
  | Some t => JStr t
  | None => JUndefined
  end.

(** ** Strings *)

(** [s.indexOf(t)] on strings, [-1] when [t] does not occur. *)
Definition String_indexOf (s t : string) : Z :=
  match String.index 0 t s with
  | Some i => Z.of_nat i
  | None => -1
  end.

(** The replacement text of [String.prototype.replace] with a string
    pattern: in the replacement, a dollar sign followed by a dollar sign, an
    ampersand, a backquote or an apostrophe stands for a dollar sign, the
    matched text, the text before the match and the text after it. *)
Fixpoint GetSubstitution (matched before after replacement : string) : string :=
  match replacement with
  | EmptyString => EmptyString
  | String c rest =>
      if (nat_of_ascii c =? 36)%nat then
        match rest with
        | String d rest' =>
            let n := nat_of_ascii d in
            if (n =? 36)%nat then String c (GetSubstitution matched before after rest')
            else if (n =? 38)%nat then matched +:+ GetSubstitution matched before after rest'
            else if (n =? 96)%nat then before +:+ GetSubstitution matched before after rest'
            else if (n =? 39)%nat then after +:+ GetSubstitution matched before after rest'
            else String c (GetSubstitution matched before after rest)
        | EmptyString => String c EmptyString
        end
      else String c (GetSubstitution matched before after rest)
  end.

(** [s.replace(pattern, replacement)] for a string [pattern]: only the
    first occurrence is replaced. *)
Definition String_replace (s pattern replacement : string) : string :=
  match String.index 0 pattern s with
  | Some i =>
      let before := String.substring 0 i s in
      let after :=
        String.substring (i + String.length pattern)
          (String.length s - (i + String.length pattern)) s in
      before +:+ GetSubstitution pattern before after replacement +:+ after
  | None => s
  end.

(** [s.replace(/\:\/\/$/, '')]: drop a trailing colon-slash-slash. *)
Definition strip_protocol_suffix (s : string) : string :=
  let n := String.length s in
  if (3 <=? n)%nat && String.eqb (String.substring (n - 3) 3 s) "://"
  then String.substring 0 (n - 3) s
  else s.

(** ** The machine: session store, observable events, exceptions *)

Inductive event :=
| Callback (err res : jsval)            (* a call of the caller's callback *)
| Mkdir (path : string)                 (* _fs.mkdir(path, ...) *)
| WriteFile (path : string) (data : jsval)   (* _fs.writeFile(path, data, ...) *)
| Note (tag : string) (v : jsval).      (* a step of a collaborator *)

(** [request.session] is a key-value store; the events are what an
    operation did towards its caller and the file system, in order. *)
Record world := World {
  session : gmap string jsval;
  trace : list event
}.

Inductive outcome (A : Type) :=
| Ret (a : A) (w : world)
| Throw (e : jsval) (w : world).
Arguments Ret {A} a w.
Arguments Throw {A} e w.

Definition M (A : Type) : Type := world -> outcome A.

#[global] Instance M_ret : MRet M := fun A a w => Ret a w.
#[global] Instance M_bind : MBind M := fun A B f m w =>
  match m w with
  | Ret a w' => f a w'
  | Throw e w' => Throw e w'
  end.

Definition throw {A} (e : jsval) : M A := fun w => Throw e w.

(** [try { body } catch (e) { handler(e) }] *)
Definition try_catch {A} (body : M A) (handler : jsval -> M A) : M A := fun w =>
  match body w with
  | Ret a w' => Ret a w'
  | Throw e w' => handler e w'
  end.

Definition TypeError : jsval := JError "TypeError".
Definition SyntaxError : jsval := JError "SyntaxError".

Definition emit (e : event) : M unit := fun w =>
  Ret tt (World (session w) (trace w ++ [e])).

(** [request.session.get(key)] and [request.session.set(key, value)] *)
Definition session_get (key : string) : M jsval := fun w =>
  Ret (default JUndefined (session w !! key)) w.

Definition session_set (key : string) (value : jsval) : M unit := fun w =>
  Ret tt (World (<[key := value]> (session w)) (trace w)).

(** A Node-style callback [function(err, res)]; a call with one argument
    leaves [res] undefined. *)
Definition callback := jsval -> jsval -> M unit.

(** The callback of an observer: it records what it is called with. *)
Definition record : callback := fun err res => emit (Callback err res).

(** [o[k]]: reading a property of [undefined] or [null] throws; plain
    objects answer from their own properties; nothing else in this model
    carries properties.  What a value inherits from a prototype is not in
    the model.  The definition is exact for the fixed names this file
    reads (username, groups, userData, userSettings, blacklistedPackages,
    path, src, protocol: no built-in prototype has a member of such a
    name).  For a computed name it is exact where [o] is a plain object,
    [undefined] or [null] and [k] is none of [Object_prototype_names];
    the properties that read a table by a computed name assume as much. *)
Definition get_prop (o : jsval) (k : string) : M jsval :=
  match o with
  | JUndefined | JNull => throw TypeError
  | JObj props => mret (default JUndefined (assoc_get k props))
  | _ => mret JUndefined
  end.

(** [o[k] = v] in strict mode, giving the updated object. *)
Definition set_prop (o : jsval) (k : string) (v : jsval) : M jsval :=
  match o with
  | JObj props => mret (JObj (assoc_set k v props))
  | JArr _ | JError _ | JBuffer _ => mret o
  | _ => throw TypeError
  end.

Fixpoint Array_indexOf (items : list jsval) (x : jsval) (i : Z) : Z :=
  match items with
  | [] => -1
  | y :: rest => if strict_eq y x then i else Array_indexOf rest x (i + 1)
  end.

(** [c.indexOf(x)]: arrays and strings have the method, a call on anything
    else is a [TypeError]. *)
Definition indexOf (c x : jsval) : M Z :=
  match c with
  | JArr items => mret (Array_indexOf items x 0)
  | JStr s => mret (String_indexOf s (ToString x))
  | _ => throw TypeError
  end.

(** [JSON.parse(v)] as a step that may throw. *)
Definition JSON_parse_M (v : jsval) : M jsval :=
  match JSON_parse v with
  | Some x => mret x
  | None => throw SyntaxError
  end.

(** ** The server instance and the handler object *)

(** What the handler reads from the server instance: [instance.setup.nw],
    [instance.config.api.groups], [instance.config.vfs.groups],
    [instance.metadata] and the path resolver [instance.vfs.getRealPath],
    an external collaborator that may do anything, throwing included. *)
Record Instance := {
  setup_nw : bool;
  config_api_groups : jsval;
  config_vfs_groups : jsval;
  metadata : jsval;
  vfs_getRealPath : jsval -> M jsval
}.

(** The handler object [this]: the instance it was built for and the one
    method of the default class that exists to be replaced by a backend.
    The other methods reached through [this] are the definitions below.
    Their [request] and [response] parameters are left out: all the
    handler reads of a request is [request.session], the session of the
    machine. *)
Record Handler := {
  instance : Instance;
  getUserBlacklistedPackages : callback -> M unit
}.

(** [DefaultHandler.prototype.getUserBlacklistedPackages] and the object
    [new DefaultHandler(instance)]. *)
Definition DefaultHandler_getUserBlacklistedPackages : callback -> M unit :=
  fun callback => callback JFalse (JArr []).

Definition DefaultHandler (inst : Instance) : Handler :=
  {| instance := inst;
     getUserBlacklistedPackages := DefaultHandler_getUserBlacklistedPackages |}.

Definition ignorePrivilegesAPI : list string := ["login"].
Definition ignorePrivilegesVFS : list string := ["getMime"; "getRealPath"].

(** The configuration object [cfg] of the system-login backends: the
    settings path template and the paths of the two registry files. *)
Record SystemConfig := {
  cfg_settings : string;
  cfg_groups : string;
  cfg_blacklist : string
}.

Definition getSettingsPath (cfg : SystemConfig) (username : jsval) : string :=
  if strict_eq username (JStr "root") then "/root"
  else String_replace (cfg_settings cfg) "%USERNAME%" (ToString username).

Definition getUserName (this : Handler) : M jsval :=
  session_get "username".

Definition getUserGroups (this : Handler) : M jsval :=
  try_catch
    (raw ← session_get "groups"; JSON_parse_M raw)
    (fun _ => mret (JArr [])).

Definition setUserData (this : Handler) (data : jsval) (callback : callback) : M unit :=
  (if strict_eq data JNull then
     session_set "username" JNull;;
     session_set "groups" JNull
   else
     username ← get_prop data "username";
     session_set "username" username;;
     groups ← get_prop data "groups";
     session_set "groups" (JSON_stringify groups));;
  callback JFalse JTrue.

(** [groupnames.forEach(function(p) { if ( groups.indexOf(p) < 0 ) allowed
    = false; })], threading the captured variable [allowed]. *)
Fixpoint forEach_missing (groups : jsval) (groupnames : list jsval) (allowed : bool)
  : M bool :=
  match groupnames with
  | [] => mret allowed
  | p :: rest =>
      i ← indexOf groups p;
      forEach_missing groups rest (if i <? 0 then false else allowed)
  end.

Definition _checkHasGroup (this : Handler) (groupnames : jsval) (callback : callback)
  : M unit :=
  let groupnames := js_or groupnames (JArr []) in
  let groupnames :=
    if negb (instanceof_Array groupnames) && truthy groupnames
    then JArr [groupnames] else groupnames in
  allowed ←
    (if negb (String.eqb (typeof groupnames) "boolean") then
       groups ← getUserGroups this;
       i ← indexOf groups (JStr "admin");
       if i <? 0 then
         match groupnames with
         | JArr items => forEach_missing groups items true
         | _ => throw TypeError
         end
       else mret true
     else mret true);
  callback JFalse (JBool allowed).

Definition _checkHasSession (this : Handler) (callback : callback) : M unit :=
  if setup_nw (instance this) then callback JFalse JTrue
  else
    username ← getUserName this;
    if negb (truthy username)
    then callback (JStr "You have no OS.js Session, please log in!") JUndefined
    else callback JFalse JTrue.

Definition _checkHasBlacklistedPackage (this : Handler) (packageName : jsval)
    (callback : callback) : M unit :=
  getUserBlacklistedPackages this (fun error list =>
    if truthy error then callback error JFalse
    else
      i ← indexOf (js_or list (JArr [])) packageName;
      callback JFalse (JBool (0 <=? i))).

Definition _checkHasAPIPrivilege (this : Handler) (privilege : jsval)
    (callback : callback) : M unit :=
  let map := config_api_groups (instance this) in
  required ←
    (if truthy map then
       if truthy privilege then get_prop map (ToString privilege) else mret privilege
     else mret map);
  if truthy required then
    _checkHasGroup this privilege (fun err res =>
      let err :=
        if negb (truthy res) && negb (truthy err)
        then JStr "You are not allowed to use this API function!" else err in
      callback err res)
  else callback JFalse JTrue.

Definition _checkHasVFSPrivilege (this : Handler) (method : string) (args : jsval)
    (callback : callback) : M unit :=
  path ← get_prop args "path";
  target ← (if truthy path then mret path else get_prop args "src");
  mount ← vfs_getRealPath (instance this) target;
  let cfg := config_vfs_groups (instance this) in
  against ←
    try_catch
      (protocol ← get_prop mount "protocol";
       match protocol with
       | JStr p => get_prop cfg (strip_protocol_suffix p)
       | _ => throw TypeError
       end)
      (fun _ => mret JUndefined);
  if truthy against then
    _checkHasGroup this against (fun err res =>
      let err :=
        if negb (truthy res) && negb (truthy err)
        then JStr "You are not allowed to use this VFS function!" else err in
      callback err res)
  else callback JFalse JTrue.

Definition _checkHasPackagePrivilege (this : Handler) (packageName : jsval)
    (callback : callback) : M unit :=
  let packages := metadata (instance this) in
  let notallowed (err : jsval) : M unit :=
    callback (js_or err (JStr "You are not allowed to load this Package")) JUndefined in
  groups ←
    (if truthy packages then
       package ← get_prop packages (ToString packageName);
       if truthy package then get_prop package "groups" else mret package
     else mret packages);
  if truthy groups then
    _checkHasGroup this groups (fun err res =>
      if truthy err then notallowed err
      else if truthy res then
        _checkHasBlacklistedPackage this packageName (fun err res =>
          if truthy err || negb (truthy res) then notallowed err
          else callback JFalse JTrue)
      else notallowed JUndefined)
  else callback JFalse JTrue.

Definition checkAPIPrivilege (this : Handler) (privilege : jsval) (callback : callback)
  : M unit :=
  _checkHasSession this (fun err _ =>
    if truthy err then callback err JUndefined
    else _checkHasAPIPrivilege this privilege callback).

Definition checkVFSPrivilege (this : Handler) (method : string) (args : jsval)
    (callback : callback) : M unit :=
  _checkHasSession this (fun err _ =>
    if truthy err then callback err JUndefined
    else _checkHasVFSPrivilege this method args callback).

Definition checkPackagePrivilege (this : Handler) (packageName : jsval)
    (callback : callback) : M unit :=
  _checkHasSession this (fun err _ =>
    if truthy err then callback err JUndefined
    else _checkHasPackagePrivilege this packageName callback).

Definition onLogin (this : Handler) (data : jsval) (callback : callback) : M unit :=
  userSettings ← get_prop data "userSettings";
  data ← set_prop data "userSettings" (js_or userSettings (JObj []));
  userData ← get_prop data "userData";
  setUserData this userData (fun _ _ =>
    blacklisted ← get_prop data "blacklistedPackages";
    if truthy blacklisted then callback JFalse data
    else
      getUserBlacklistedPackages this (fun error blacklist =>
        data ←
          (if truthy error then callback error JUndefined;; mret data
           else set_prop data "blacklistedPackages" (js_or blacklist (JArr [])));
        callback JFalse data)).

Definition onLogout (this : Handler) (callback : callback) : M unit :=
  setUserData this JNull (fun _ _ => callback JFalse JTrue).

(** ** The modules the file is applied to: [_path] and [_fs] *)

(** What a read delivers to its callback: an error, or the content. *)
Inductive read_result :=
| ReadError (message : string)
| ReadData (content : string).

(** The file system as the handler meets it: the answer to each call.
    An answer [None] of [mkdir] or [writeFile] is success. *)
Record FileSystem := {
  readFile_result : string -> read_result;
  mkdir_result : string -> option string;
  writeFile_result : string -> jsval -> option string
}.

Definition error_of (r : option string) : jsval :=
  match r with
  | Some message => JError message
  | None => JNull
  end.

Definition readFile (_fs : FileSystem) (path : string) (cb : callback) : M unit :=
  match readFile_result _fs path with
  | ReadError message => cb (JError message) JUndefined
  | ReadData content => cb JNull (JBuffer content)
  end.

Definition mkdir (_fs : FileSystem) (path : string) (cb : jsval -> M unit) : M unit :=
  emit (Mkdir path);;
  cb (error_of (mkdir_result _fs path)).

Definition writeFile (_fs : FileSystem) (path : string) (data : jsval)
    (cb : jsval -> M unit) : M unit :=
  emit (WriteFile path data);;
  cb (error_of (writeFile_result _fs path data)).

(** [v.toString()] *)
Definition call_toString (v : jsval) : M jsval :=
  match v with
  | JUndefined | JNull => throw TypeError
  | _ => mret (JStr (ToString v))
  end.

(** The inner functions of [onSystemLogin], with the variables they
    close over as parameters. *)
Definition onSystemLogin_getUserGroups (_fs : FileSystem) (cfg : SystemConfig)
    (login_username : string) (cb : jsval -> M unit) : M unit :=
  readFile _fs (cfg_groups cfg) (fun err gdata =>
    list ←
      (if negb (truthy err) then
         try_catch (text ← call_toString gdata; JSON_parse_M text)
                   (fun _ => mret (JObj []))
       else mret (JObj []));
    entry ← get_prop list login_username;
    cb (js_or entry (JArr []))).

Definition onSystemLogin_getUserSettings (_fs : FileSystem) (cfg : SystemConfig)
    (login_username : string) (cb : jsval -> M unit) : M unit :=
  readFile _fs (getSettingsPath cfg (JStr login_username)) (fun err sdata =>
    settings ←
      (if negb (truthy err) && truthy sdata then
         try_catch (text ← call_toString sdata; JSON_parse_M text)
                   (fun _ => mret (JObj []))
       else mret (JObj []));
    cb settings).

Definition onSystemLogin_getUserBlacklist (_fs : FileSystem) (cfg : SystemConfig)
    (login_username : string) (cb : jsval -> M unit) : M unit :=
  readFile _fs (cfg_blacklist cfg) (fun err bdata =>
    blacklist ←
      (if negb (truthy err) && truthy bdata then
         try_catch (parsed ← JSON_parse_M bdata;
                    entry ← get_prop parsed login_username;
                    mret (js_or entry (JArr [])))
                   (fun _ => mret (JArr []))
       else mret (JArr []));
    cb blacklist).

Definition onSystemLogin_done (this : Handler) (login_username : string)
    (callback : callback) (id groups name settings blacklist : jsval) : M unit :=
  onLogin this
    (JObj [("userData",
            JObj [("id", id); ("username", JStr login_username);
                  ("name", name); ("groups", groups)]);
           ("userSettings", settings);
           ("blacklistedPackages", blacklist)])
    callback.

Definition onSystemLogin (_fs : FileSystem) (this : Handler) (cfg : SystemConfig)
    (login_username : string) (getUserId : (jsval -> M unit) -> M unit)
    (callback : callback) : M unit :=
  onSystemLogin_getUserSettings _fs cfg login_username (fun settings =>
    onSystemLogin_getUserGroups _fs cfg login_username (fun groups =>
      onSystemLogin_getUserBlacklist _fs cfg login_username (fun blacklist =>
        getUserId (fun uid =>
          onSystemLogin_done this login_username callback
            uid groups (JStr login_username) settings blacklist)))).

Definition onSystemSettings (_path_dirname : string -> string) (_fs : FileSystem)
    (this : Handler) (cfg : SystemConfig) (settings : jsval) (callback : callback)
  : M unit :=
  uname ← getUserName this;
  let data := JSON_stringify settings in
  let spath := getSettingsPath cfg uname in
  mkdir _fs (_path_dirname spath) (fun _ =>
    writeFile _fs spath data (fun err =>
      callback (js_or err JFalse) (JBool (truthy err)))).

(** ** Method registration *)

(** A registered method, called with its arguments and the caller's
    callback; request, response and configuration are the machine. *)
Abbreviation method := (jsval -> callback -> M unit).

(** The two entry points a wrapper calls on the handler object. *)
Record PrivilegeChecks := {
  call_checkAPIPrivilege : jsval -> callback -> M unit;
  call_checkVFSPrivilege : string -> jsval -> callback -> M unit
}.

Definition checks_of (this : Handler) : PrivilegeChecks :=
  {| call_checkAPIPrivilege := checkAPIPrivilege this;
     call_checkVFSPrivilege := checkVFSPrivilege this |}.

(** The method tables [instance.api] and [instance.vfs]. *)
Record Tables := {
  api : gmap string method;
  vfs : gmap string method
}.

Fixpoint list_indexOf (l : list string) (x : string) (i : Z) : Z :=
  match l with
  | [] => -1
  | y :: rest => if String.eqb y x then i else list_indexOf rest x (i + 1)
  end.

Definition wrap_api (handler : PrivilegeChecks) (fn : string) (fref : method) : method :=
  fun args callback =>
    call_checkAPIPrivilege handler (JStr fn) (fun err _ =>
      if truthy err then callback err JUndefined
      else fref args callback).

Definition wrap_vfs (handler : PrivilegeChecks) (fn : string) (fref : method) : method :=
  fun args callback =>
    call_checkAPIPrivilege handler (JStr "fs") (fun err _ =>
      if truthy err then callback err JUndefined
      else
        call_checkVFSPrivilege handler fn args (fun err _ =>
          if truthy err then callback err JUndefined
          else fref args callback)).

(** The truthiness of [table[fn]] for a method table, a plain object
    whose own properties are methods: it holds a method under [fn], or
    [fn] names a member it inherits from [Object.prototype]. *)
Definition member_truthy (table : gmap string method) (fn : string) : bool :=
  match table !! fn with
  | Some _ => true
  | None => bool_decide (fn ∈ Object_prototype_names)
  end.

Definition registerAPIMethod (handler : PrivilegeChecks) (instance : Tables)
    (fn : string) (fref : method) : Tables :=
  if negb (member_truthy (api instance) fn) then
    if list_indexOf ignorePrivilegesAPI fn 0 <? 0
    then {| api := <[fn := wrap_api handler fn fref]> (api instance);
            vfs := vfs instance |}
    else {| api := <[fn := fref]> (api instance); vfs := vfs instance |}
  else instance.

Definition registerVFSMethod (handler : PrivilegeChecks) (instance : Tables)
    (fn : string) (fref : method) : Tables :=
  if negb (member_truthy (vfs instance) fn) then
    if list_indexOf ignorePrivilegesVFS fn 0 <? 0
    then {| api := api instance;
            vfs := <[fn := wrap_vfs handler fn fref]> (vfs instance) |}
    else {| api := api instance; vfs := <[fn := fref]> (vfs instance) |}
  else instance.

(** [registerMethods]: the methods of [vfs], then those of [api], each in
    the order of [Object.keys]. *)
Definition registerMethods (handler : PrivilegeChecks) (instance : Tables)
    (api_methods vfs_methods : list (string * method)) : Tables :=
  let instance :=
    fold_left (fun inst kv => registerVFSMethod handler inst (fst kv) (snd kv))
              vfs_methods instance in
  fold_left (fun inst kv => registerAPIMethod handler inst (fst kv) (snd kv))
            api_methods instance.

(** Calling a registered method by name: the name of an entry of the
    table. *)
Definition invoke (table : gmap string method) (fn : string) (args : jsval)
    (callback : callback) : M unit :=
  match table !! fn with
  | Some f => f args callback
  | None => throw TypeError
  end.

(** ** Notions for stating the properties *)

(** The session entry under [key] as [session.get] returns it. *)
Definition stored (w : world) (key : string) : jsval :=
  default JUndefined (session w !! key).

(** The session holds the group list [gs]: its [groups] entry is a text
    that parses to the array of these names, as [setUserData] stores it. *)
Definition user_groups (w : world) (gs : list string) : Prop :=
  JSON_parse (stored w "groups") = Some (JArr (map JStr gs)).

(** The request passes the session gate. *)
Definition has_session (this : Handler) (w : world) : Prop :=
  setup_nw (instance this) = true \/ truthy (stored w "username") = true.

(** [p] is one of the user's groups. *)
Definition has_group (userGroups : list string) (p : jsval) : bool :=
  match p with
  | JStr s => bool_decide (s ∈ userGroups)
  | _ => false
  end.

(** The decision of [_checkHasGroup] on a session holding [userGroups]:
    no effective requirement, or the group admin, or every required group
    present. *)
Definition GroupEvaluator (userGroups : list string) (required : jsval) : bool :=
  negb (truthy required)
  || bool_decide ("admin" ∈ userGroups)
  || match required with
     | JArr items => forallb (has_group userGroups) items
     | single => has_group userGroups single
     end.

(** The decision as the specification words it: allow exactly when the
    requirement is the boolean false or absent, or the user is in admin, or
    the user's groups include the required set, a single string counting as
    a one-element set; deny in all other cases. *)
Definition GroupEvaluator_spec (userGroups : list string) (required : jsval) : bool :=
  match required with
  | JBool false | JUndefined | JNull => true
  | _ =>
      bool_decide ("admin" ∈ userGroups)
      || match required with
         | JStr s => bool_decide (s ∈ userGroups)
         | JArr items => forallb (has_group userGroups) items
         | _ => false
         end
  end.

(** The list [_checkHasGroup] iterates over, after its first two
    statements. *)
Definition required_items (required : jsval) : list jsval :=
  if truthy required then
    match required with
    | JArr items => items
    | single => [single]
    end
  else [].

(** The set a requirement stands for: an array as it is, anything else as
    a one-element set. *)
Definition required_set (required : jsval) : list jsval :=
  match required with
  | JArr items => items
  | single => [single]
  end.

(** A server instance: the mode flag, the two privilege tables, the
    package metadata, and a resolver that answers [mount] for every path. *)
Definition server (nw : bool) (api_groups vfs_groups packages mount : jsval)
  : Instance :=
  {| setup_nw := nw;
     config_api_groups := api_groups;
     config_vfs_groups := vfs_groups;
     metadata := packages;
     vfs_getRealPath := fun _ => mret mount |}.

(** A session holding [username] and the group list [groups], as
    [setUserData] leaves them. *)
Definition logged_in (username : string) (groups : list string) : world :=
  World {[ "username" := JStr username;
           "groups" := JSON_stringify (JArr (map JStr groups)) ]} [].

Definition no_session : string := "You have no OS.js Session, please log in!".

(** Sample inputs: a server with nothing configured that is not in
    trusted mode, and the same in trusted mode. *)
Definition plain_server : Instance :=
  server false JUndefined JUndefined JUndefined JUndefined.

Definition trusted_server : Instance :=
  server true JUndefined JUndefined JUndefined JUndefined.

(** A server in trusted mode whose API table asks for the group fs on the
    method fs. *)
Definition trusted_fs_server : Instance :=
  server true (JObj [("fs", JArr [JStr "fs"])]) JUndefined JUndefined JUndefined.

(** The session store after [onLogout]: both entries hold [null]. *)
Definition logged_out : gmap string jsval :=
  {[ "username" := JNull; "groups" := JNull ]}.

(** [o[k]] where [o] is known not to be [undefined] or [null]. *)
Definition lookup_prop (o : jsval) (k : string) : jsval :=
  match o with
  | JObj props => default JUndefined (assoc_get k props)
  | _ => JUndefined
  end.

(** The value of [map && privilege && map[privilege]]. *)
Definition api_requirement (map privilege : jsval) : jsval :=
  if truthy map then
    if truthy privilege then lookup_prop map (ToString privilege) else privilege
  else map.

(** The value of [packages && packages[packageName] &&
    packages[packageName].groups]. *)
Definition package_requirement (packages packageName : jsval) : jsval :=
  if truthy packages then
    if truthy (lookup_prop packages (ToString packageName))
    then lookup_prop (lookup_prop packages (ToString packageName)) "groups"
    else lookup_prop packages (ToString packageName)
  else packages.

(** The value of [args.path || args.src]. *)
Definition vfs_target (args : jsval) : jsval :=
  js_or (lookup_prop args "path") (lookup_prop args "src").

(** The value of [against] after the [try] of [_checkHasVFSPrivilege]:
    the table entry of the mount's protocol, and [undefined] where reading
    it throws (no mount, a protocol that is not a string, no table). *)
Definition vfs_requirement (cfg mount : jsval) : jsval :=
  match mount with
  | JObj props =>
      match default JUndefined (assoc_get "protocol" props) with
      | JStr p =>
          match cfg with
          | JUndefined | JNull => JUndefined
          | _ => lookup_prop cfg (strip_protocol_suffix p)
          end
      | _ => JUndefined
      end
  | _ => JUndefined
  end.

(** A server outside trusted mode whose path resolver throws, and one
    whose table reserves the protocol home for the group trusted. *)
Definition failing_resolver_server : Instance :=
  {| setup_nw := false;
     config_api_groups := JUndefined;
     config_vfs_groups := JObj [("home", JArr [JStr "trusted"])];
     metadata := JUndefined;
     vfs_getRealPath := fun _ => throw (JError "ENOENT") |}.

Definition home_for_trusted_server : Instance :=
  server false JUndefined (JObj [("home", JArr [JStr "trusted"])]) JUndefined
    (JObj [("protocol", JStr "home://")]).

(** [undefined] or [null]: the value of an entry that is absent or
    cleared. *)
Definition nullish (v : jsval) : Prop := v = JUndefined \/ v = JNull.

(** A session with no user: neither a username nor groups. *)
Definition anonymous (w : world) : Prop :=
  nullish (stored w "username") /\ nullish (stored w "groups").

(** The session store after [setUserData] with the user record [userData]. *)
Definition with_user (userData : jsval) (s : gmap string jsval) : gmap string jsval :=
  <["groups" := JSON_stringify (lookup_prop userData "groups")]>
    (<["username" := lookup_prop userData "username"]> s).

(** The login data after [data.userSettings = data.userSettings || {}]. *)
Definition with_settings (props : list (string * jsval)) : list (string * jsval) :=
  assoc_set "userSettings"
    (js_or (default JUndefined (assoc_get "userSettings" props)) (JObj [])) props.

(** The login data of the trusted backend's login method. *)
Definition nw_login_data : list (string * jsval) :=
  [("userData",
    JObj [("id", JNum 0); ("username", JStr "nw"); ("name", JStr "NW.js User");
          ("groups", JArr [JStr "admin"])])].

(** A file that cannot be used: the read fails, or the content is not
    JSON. *)
Definition unreadable (r : read_result) : Prop :=
  match r with
  | ReadError _ => True
  | ReadData content => JSON_parse_text content = None
  end.

(** The parsed content of a file, and [fallback] where it is unreadable. *)
Definition parsed_or (fallback : jsval) (r : read_result) : jsval :=
  match r with
  | ReadError _ => fallback
  | ReadData content => default fallback (JSON_parse_text content)
  end.

(** What [onSystemLogin] takes from the three files for [username]. *)
Definition system_settings (_fs : FileSystem) (cfg : SystemConfig) (username : string)
  : jsval :=
  parsed_or (JObj []) (readFile_result _fs (getSettingsPath cfg (JStr username))).

Definition system_groups (_fs : FileSystem) (cfg : SystemConfig) (username : string)
  : jsval :=
  js_or (lookup_prop (parsed_or (JObj []) (readFile_result _fs (cfg_groups cfg)))
           username)
        (JArr []).

Definition system_blacklist (_fs : FileSystem) (cfg : SystemConfig) (username : string)
  : jsval :=
  js_or (lookup_prop (parsed_or (JObj []) (readFile_result _fs (cfg_blacklist cfg)))
           username)
        (JArr []).

(** The user record [{id, username, name, groups}] of a system login. *)
Definition system_user (uid : jsval) (username : string) (groups : jsval) : jsval :=
  JObj [("id", uid); ("username", JStr username); ("name", JStr username);
        ("groups", groups)].

(** A file system with no files, and the configuration of a system-login
    backend. *)
Definition empty_disk : FileSystem :=
  {| readFile_result := fun _ => ReadError "ENOENT";
     mkdir_result := fun _ => None;
     writeFile_result := fun _ _ => None |}.

(** A disk with no settings file and no blacklist file, whose groups
    registry holds the JSON text null. *)
Definition null_registry_disk : FileSystem :=
  {| readFile_result := fun path =>
       if String.eqb path "/etc/osjs/groups.json" then ReadData "null"
       else ReadError "ENOENT";
     mkdir_result := fun _ => None;
     writeFile_result := fun _ _ => None |}.

Definition home_config : SystemConfig :=
  {| cfg_settings := "/home/%USERNAME%/.osjs/settings.json";
     cfg_groups := "/etc/osjs/groups.json";
     cfg_blacklist := "/etc/osjs/blacklist.json" |}.

(** The template [s] with its first occurrence of [pattern] replaced by
    the text [replacement], letter for letter. *)
Definition replace_first (s pattern replacement : string) : string :=
  match String.index 0 pattern s with
  | Some i =>
      String.substring 0 i s +:+ replacement
      +:+ String.substring (i + String.length pattern)
            (String.length s - (i + String.length pattern)) s
  | None => s
  end.

(** No dollar sign occurs in [s]. *)
Fixpoint dollar_free (s : string) : bool :=
  match s with
  | EmptyString => true
  | String c rest => negb (nat_of_ascii c =? 36)%nat && dollar_free rest
  end.

(** What [onSystemSettings] reports for the answer [r] of the write. *)
Definition write_report (r : option string) : event :=
  match r with
  | Some message => Callback (JError message) JTrue
  | None => Callback JFalse JFalse
  end.

(** A disk where directories cannot be created and writes fail. *)
Definition full_disk : FileSystem :=
  {| readFile_result := fun _ => ReadError "ENOENT";
     mkdir_result := fun _ => Some "EEXIST";
     writeFile_result := fun _ _ => Some "ENOSPC" |}.

(** A stand-in for [_path.dirname] on the absolute path of a file in a
    directory below the root: the text before the last slash. *)
Fixpoint dirname_of (s : string) : string :=
  match s with
  | EmptyString => EmptyString
  | String c rest =>
      if 0 <=? String_indexOf rest "/" then String c (dirname_of rest)
      else EmptyString
  end.

(** A handler object that notes each privilege check it is asked for and
    grants it. *)
Definition probe : PrivilegeChecks :=
  {| call_checkAPIPrivilege := fun privilege callback =>
       emit (Note "checkAPIPrivilege" privilege);; callback JFalse JTrue;
     call_checkVFSPrivilege := fun fn args callback =>
       emit (Note "checkVFSPrivilege" (JStr fn));; callback JFalse JTrue |}.

(** The number of privilege checks noted in a trace. *)
Fixpoint checks (events : list event) : nat :=
  match events with
  | [] => O
  | Note _ _ :: rest => S (checks rest)
  | _ :: rest => checks rest
  end.

(** A raw method that answers its arguments, and empty method tables. *)
Definition echo : method := fun args callback => callback JFalse args.

Definition no_methods : Tables := {| api := ∅; vfs := ∅ |}.

Definition api_denied : string := "You are not allowed to use this API function!".
Definition vfs_denied : string := "You are not allowed to use this VFS function!".
Definition package_denied : string := "You are not allowed to load this Package".

(** A server outside trusted mode with the API table [{fs: [users]}]. *)
Definition fs_for_users_server : Instance :=
  server false (JObj [("fs", JArr [JStr "users"])]) JUndefined JUndefined JUndefined.

(** A server outside trusted mode whose API table asks for admin on a
    method that is itself called users. *)
Definition users_for_admin_server : Instance :=
  server false (JObj [("users", JArr [JStr "admin"])]) JUndefined JUndefined JUndefined.

(** A server outside trusted mode whose package foo/bar asks for the
    group editors. *)
Definition editors_package_server : Instance :=
  server false JUndefined JUndefined
    (JObj [("foo/bar", JObj [("groups", JArr [JStr "editors"])])]) JUndefined.

(** [phrase] occurs in [message]. *)
Definition contains (message phrase : string) : bool :=
  0 <=? String_indexOf message phrase.

(** The operation [op], run with an observer's callback, did nothing but
    call it back once: with success, or with an error message. *)
Definition allows (op : callback -> M unit) (w : world) : Prop :=
  op record w = Ret tt (World (session w) (trace w ++ [Callback JFalse JTrue])).

Definition denies (op : callback -> M unit) (w : world) (message : string) : Prop :=
  exists res,
    op record w = Ret tt (World (session w) (trace w ++ [Callback (JStr message) res])).

(** A handler object whose blacklist lookup answers [(error, list)]. *)
Definition answering (error blacklist : jsval) : callback -> M unit :=
  fun callback => callback error blacklist.

Definition Backend (inst : Instance) (error blacklist : jsval) : Handler :=
  {| instance := inst; getUserBlacklistedPackages := answering error blacklist |}.

(** ** The trusted backend and the start-up *)

(** [DefaultHandler.prototype.onServerStart] and [onServerEnd]: both call
    [cb] and do nothing else. *)
Definition onServerStart (this : Handler) (cb : M unit) : M unit := cb.

Definition onServerEnd (this : Handler) (cb : M unit) : M unit := cb.

(** The two API methods the constructor of [NWHandler] applies.  The
    server calls an API method with the handler object as its last
    argument: the parameter [handler]. *)
Definition NWHandler_login (handler : Handler) : method :=
  fun args callback => onLogin handler (JObj nw_login_data) callback.

Definition NWHandler_logout (handler : Handler) : method :=
  fun args callback => onLogout handler callback.

(** [new DefaultHandler(instance, applyAPI, applyVFS)]: the constructor
    registers the methods it is given, with the new object as the one the
    wrappers ask; the object and the method tables are the result. *)
Definition DefaultHandler_new (inst : Instance) (tables : Tables)
    (applyAPI applyVFS : list (string * method)) : Handler * Tables :=
  (DefaultHandler inst,
   registerMethods (checks_of (DefaultHandler inst)) tables applyAPI applyVFS).

(** [new NWHandler(instance)]: a default handler that applies the two API
    methods above and no VFS method.  The handler object the server hands
    to a method when it calls it is the one [init] returned, this object. *)
Definition NWHandler (inst : Instance) (tables : Tables) : Handler * Tables :=
  DefaultHandler_new inst tables
    [("login", NWHandler_login (DefaultHandler inst));
     ("logout", NWHandler_logout (DefaultHandler inst))]
    [].

(** [module.exports.init]: in trusted mode the handler is a new
    [NWHandler]; otherwise the module of the configured backend builds it,
    here [register], an external collaborator that is handed the tables and
    answers with the privilege checks of its handler object and the tables
    as it leaves them.  After that the server's own methods [_api] and
    [_vfs] are registered. *)
Definition init (inst : Instance) (tables : Tables)
    (register : Tables -> PrivilegeChecks * Tables)
    (_api _vfs : list (string * method)) : PrivilegeChecks * Tables :=
  let built :=
    if setup_nw inst
    then (checks_of (fst (NWHandler inst tables)), snd (NWHandler inst tables))
    else register tables in
  (fst built, registerMethods (fst built) (snd built) _api _vfs).

(** The decision of [_checkHasGroup] on a session whose groups entry holds
    one string [g] instead of a list: [indexOf] is then the search for a
    substring. *)
Definition string_groups_decision (g : string) (required : jsval) : bool :=
  contains g "admin"
  || forallb (fun p => contains g (ToString p)) (required_items required).

(** The session store after [setUserData] with [null]. *)
Definition cleared (s : gmap string jsval) : gmap string jsval :=
  <["groups" := JNull]> (<["username" := JNull]> s).

(** The user record of the trusted backend's login. *)
Definition nw_user : jsval :=
  JObj [("id", JNum 0); ("username", JStr "nw"); ("name", JStr "NW.js User");
        ("groups", JArr [JStr "admin"])].

(** The record the trusted backend's login hands to its caller. *)
Definition nw_login_record : jsval :=
  JObj [("userData", nw_user); ("userSettings", JObj []);
        ("blacklistedPackages", JArr [])].

(** A disk whose groups registry gives alice the group users, and that
    holds no other file. *)
Definition users_registry_disk : FileSystem :=
  {| readFile_result := fun path =>
       if String.eqb path "/etc/osjs/groups.json"
       then ReadData ("{" +:+ quote "alice" +:+ ":[" +:+ quote "users" +:+ "]}")
       else ReadError "ENOENT";
     mkdir_result := fun _ => None;
     writeFile_result := fun _ _ => None |}.

(** The operation [op] does nothing but call its callback, once, with
    values that do not depend on the callback; or it throws [e] and does
    nothing else. *)
Definition answers_once (op : callback -> M unit) (w : world) : Prop :=
  exists err res, forall callback, op callback w = callback err res w.

Definition throws (op : callback -> M unit) (e : jsval) (w : world) : Prop :=
  forall callback, op callback w = Throw e w.

(** A table that is read by a computed name is a plain object, or is
    missing. *)
Definition plain_table (v : jsval) : Prop :=
  match v with
  | JObj _ | JUndefined | JNull => True
  | _ => False
  end.

(** The protocol of [mount], if it has one, names no inherited member
    once its suffix is stripped. *)
Definition own_protocol (mount : jsval) : Prop :=
  forall p, lookup_prop mount "protocol" = JStr p ->
            strip_protocol_suffix p ∉ Object_prototype_names.

(** A plain text: every byte is ASCII; there is no escape by code unit
    (a backslash directly followed by the letter u); every number is an
    integer of at most fifteen digits (no digit is directly followed by a
    period or by the letter e, and no more than fifteen digits stand in a
    row); and no string starts with a digit (no quote is directly followed
    by one).  On such a text the parser of this file is [JSON.parse]: its
    strings are the strings of the language byte for byte, it meets no
    literal with a fraction or an exponent, every number it reads is
    exact, and no object has a key that the language would move to the
    front.  [previous] is the code of the byte before, [run] the number of
    digits that directly precede. *)
Fixpoint plain_text_from (run previous : nat) (s : string) : bool :=
  match s with
  | EmptyString => true
  | String c rest =>
      let n := nat_of_ascii c in
      (n <? 128)%nat
      && negb ((previous =? 92) && (n =? 117))%nat
      && match digit_val c with
         | Some _ =>
             negb (previous =? 34)%nat
             && (run <? 15)%nat && negb (starts_fraction rest)
             && plain_text_from (S run) n rest
         | None => plain_text_from 0 n rest
         end
  end.

Definition plain_text (s : string) : bool := plain_text_from 0 0 s.

(** A file within the model: it cannot be read, or it holds a plain
    text. *)
Definition within_model (r : read_result) : Prop :=
  match r with
  | ReadError _ => True
  | ReadData content => plain_text content = true
  end.

(** A registry file within the model: it cannot be read, or is not JSON,
    or holds a JSON object. *)
Definition object_registry (r : read_result) : Prop :=
  within_model r
  /\ match r with
     | ReadError _ => True
     | ReadData content =>
         forall v, JSON_parse_text content = Some v -> exists props, v = JObj props
     end.

(** The three files a system login of [username] reads are within the
    model. *)
Definition system_files (_fs : FileSystem) (cfg : SystemConfig) (username : string)
  : Prop :=
  within_model (readFile_result _fs (getSettingsPath cfg (JStr username)))
  /\ object_registry (readFile_result _fs (cfg_groups cfg))
  /\ object_registry (readFile_result _fs (cfg_blacklist cfg)).

(** Unfolds the monad and lets the machine take its steps. *)
Ltac run :=
  unfold mbind, M_bind, mret, M_ret, throw, try_catch, session_get, emit, record;
  simpl.

(** ** Lemmas on the machine *)

Lemma bind_ret {A B} (a : A) (f : A -> M B) (w : world) :
  (mret a ≫= f) w = f a w.
Proof. reflexivity. Qed.

Lemma bind_throw {A B} (e : jsval) (f : A -> M B) (w : world) :
  (throw e ≫= f) w = Throw e w.
Proof. reflexivity. Qed.

Lemma bind_assoc {A B C} (m : M A) (f : A -> M B) (g : B -> M C) (w : world) :
  ((m ≫= f) ≫= g) w = (m ≫= (fun a => f a ≫= g)) w.
Proof. unfold mbind, M_bind. destruct (m w); reflexivity. Qed.

Lemma bind_run {A B} (m : M A) (f : A -> M B) (w w' : world) (a : A) :
  m w = Ret a w' -> (m ≫= f) w = f a w'.
Proof. intros H. unfold mbind, M_bind. rewrite H. reflexivity. Qed.

(** ** JSON on examples *)

Example JSON_parse_groups :
  JSON_parse (JStr ("[" +:+ quote "users" +:+ ", " +:+ quote "editors" +:+ "]"))
  = Some (JArr [JStr "users"; JStr "editors"]).
Proof. vm_compute. reflexivity. Qed.

Example JSON_parse_registry :
  JSON_parse (JStr ("{" +:+ quote "alice" +:+ ": [" +:+ quote "admin" +:+ "], "
                        +:+ quote "n" +:+ ": -12, "
                        +:+ quote "alice" +:+ ": [true, null]}"))
  = Some (JObj [("alice", JArr [JTrue; JNull]); ("n", JNum (-12))]).
Proof. vm_compute. reflexivity. Qed.

Example JSON_parse_null : JSON_parse JNull = Some JNull.
Proof. vm_compute. reflexivity. Qed.

Example JSON_parse_undefined : JSON_parse JUndefined = None.
Proof. vm_compute. reflexivity. Qed.

Example JSON_parse_garbage : JSON_parse (JStr ("[" +:+ quote "users" +:+ ",")) = None.
Proof. vm_compute. reflexivity. Qed.

Example JSON_stringify_groups :
  JSON_stringify (JArr [JStr "users"; JUndefined; JNum 42])
  = JStr ("[" +:+ quote "users" +:+ ",null,42]").
Proof. vm_compute. reflexivity. Qed.

Example JSON_roundtrip_groups :
  JSON_parse (JSON_stringify (JArr [JStr "users"; JStr "a\b"; JNum (-7); JObj [("k", JNull)]]))
  = Some (JArr [JStr "users"; JStr "a\b"; JNum (-7); JObj [("k", JNull)]]).
Proof. vm_compute. reflexivity. Qed.

Example String_replace_first :
  String_replace "/home/%USERNAME%/%USERNAME%.json" "%USERNAME%" "alice"
  = "/home/alice/%USERNAME%.json".
Proof. vm_compute. reflexivity. Qed.

Example strip_protocol_suffix_home : strip_protocol_suffix "home://" = "home".
Proof. vm_compute. reflexivity. Qed.

Example strip_protocol_suffix_inner : strip_protocol_suffix "a://b" = "a://b".
Proof. vm_compute. reflexivity. Qed.

(** ** Group evaluation *)

Lemma getUserGroups_run (this : Handler) (w : world) :
  getUserGroups this w
  = Ret (match JSON_parse (stored w "groups") with
         | Some v => v
         | None => JArr []
         end) w.
Proof.
  unfold getUserGroups, JSON_parse_M, stored. run.
  destruct (JSON_parse _); reflexivity.
Qed.

Lemma getUserGroups_of (this : Handler) (w : world) (gs : list string) :
  user_groups w gs -> getUserGroups this w = Ret (JArr (map JStr gs)) w.
Proof. intros H. rewrite getUserGroups_run. unfold user_groups in H. rewrite H. reflexivity. Qed.

Lemma Array_indexOf_lower (items : list jsval) (x : jsval) (i : Z) :
  0 <= i -> Array_indexOf items x i = -1 \/ i <= Array_indexOf items x i.
Proof.
  revert i. induction items as [|y rest IH]; intros i Hi; simpl.
  - left; reflexivity.
  - destruct (strict_eq y x).
    + right; lia.
    + destruct (IH (i + 1)) as [H|H]; [lia | left; exact H | right; lia].
Qed.

Lemma Array_indexOf_name (gs : list string) (s : string) (i : Z) :
  0 <= i ->
  (Array_indexOf (map JStr gs) (JStr s) i <? 0) = negb (bool_decide (s ∈ gs)).
Proof.
  revert i. induction gs as [|g gs IH]; intros i Hi.
  - reflexivity.
  - cbn [map Array_indexOf strict_eq].
    destruct (String.eqb g s) eqn:E.
    + apply String.eqb_eq in E. subst g.
      rewrite bool_decide_eq_true_2 by apply list_elem_of_here.
      apply Z.ltb_ge. exact Hi.
    + apply String.eqb_neq in E. rewrite IH by lia.
      f_equal. apply bool_decide_ext. rewrite elem_of_cons.
      split; [intros H; right; exact H | intros [H|H]; [congruence | exact H]].
Qed.

Lemma Array_indexOf_other (gs : list string) (p : jsval) (i : Z) :
  (forall s, p <> JStr s) -> Array_indexOf (map JStr gs) p i = -1.
Proof.
  intros Hp. revert i. induction gs as [|g gs IH]; intros i.
  - reflexivity.
  - cbn [map Array_indexOf].
    replace (strict_eq (JStr g) p) with false; [apply IH |].
    destruct p; try reflexivity. exfalso. eapply Hp. reflexivity.
Qed.

Lemma Array_indexOf_groups (gs : list string) (p : jsval) (i : Z) :
  0 <= i ->
  (Array_indexOf (map JStr gs) p i <? 0) = negb (has_group gs p).
Proof.
  intros Hi. destruct p;
    try (rewrite Array_indexOf_other by (intros s; discriminate); reflexivity).
  apply Array_indexOf_name. exact Hi.
Qed.

Lemma forEach_missing_run (gs : list string) (items : list jsval) (allowed : bool)
    (w : world) :
  forEach_missing (JArr (map JStr gs)) items allowed w
  = Ret (allowed && forallb (has_group gs) items) w.
Proof.
  revert allowed. induction items as [|p rest IH]; intros allowed; simpl.
  - rewrite andb_true_r. reflexivity.
  - run. rewrite IH. rewrite Array_indexOf_groups by lia.
    destruct (has_group gs p), allowed; reflexivity.
Qed.

Lemma groupnames_normal (required : jsval) :
  (let groupnames := js_or required (JArr []) in
   if negb (instanceof_Array groupnames) && truthy groupnames
   then JArr [groupnames] else groupnames)
  = JArr (required_items required).
Proof.
  unfold required_items, js_or.
  destruct required as [ | | [|] | z | s | items | props | m | c]; simpl;
    try reflexivity.
  - destruct (z =? 0) eqn:E; simpl; rewrite ?E; reflexivity.
  - destruct (String.eqb s "") eqn:E; simpl; rewrite ?E; reflexivity.
Qed.

Lemma GroupEvaluator_items (gs : list string) (required : jsval) :
  bool_decide ("admin" ∈ gs) || forallb (has_group gs) (required_items required)
  = GroupEvaluator gs required.
Proof.
  unfold GroupEvaluator, required_items.
  destruct (bool_decide ("admin" ∈ gs)); [rewrite orb_true_r; reflexivity |].
  rewrite orb_false_r. simpl.
  destruct required as [ | | [|] | z | s | items | props | m | c]; simpl;
    try reflexivity.
  - destruct (z =? 0); reflexivity.
  - destruct (String.eqb s ""); simpl; [reflexivity | apply andb_true_r].
Qed.

Lemma _checkHasGroup_run (this : Handler) (w : world) (gs : list string)
    (required : jsval) (callback : callback) :
  user_groups w gs ->
  _checkHasGroup this required callback w
  = callback JFalse (JBool (GroupEvaluator gs required)) w.
Proof.
  intros Hg. unfold _checkHasGroup.
  rewrite groupnames_normal.
  change (negb (String.eqb (typeof (JArr (required_items required))) "boolean"))
    with true.
  cbv iota. rewrite bind_assoc.
  rewrite (bind_run _ _ _ _ _ (getUserGroups_of this w gs Hg)).
  rewrite bind_assoc. unfold indexOf at 1. rewrite bind_ret.
  rewrite (Array_indexOf_groups gs (JStr "admin") 0) by lia.
  rewrite <- GroupEvaluator_items.
  cbn [has_group]. destruct (bool_decide ("admin" ∈ gs)); cbn [negb orb].
  - reflexivity.
  - unfold mbind, M_bind. rewrite forEach_missing_run. reflexivity.
Qed.

Lemma has_group_true (gs : list string) (p : jsval) :
  has_group gs p = true <-> exists s, p = JStr s /\ s ∈ gs.
Proof.
  destruct p; simpl; try (split; [discriminate | intros (s0 & H & _); discriminate]).
  rewrite bool_decide_eq_true. split.
  - intros H. exists s. split; [reflexivity | exact H].
  - intros (s0 & H & Hin). injection H as ->. exact Hin.
Qed.

Lemma GroupEvaluator_true (gs : list string) (required : jsval) :
  GroupEvaluator gs required = true <->
  truthy required = false \/ "admin" ∈ gs \/
  (forall p, p ∈ required_set required -> exists s, p = JStr s /\ s ∈ gs).
Proof.
  unfold GroupEvaluator.
  rewrite !orb_true_iff, negb_true_iff, bool_decide_eq_true.
  assert (Hset : match required with
                 | JArr items => forallb (has_group gs) items
                 | single => has_group gs single
                 end = true <->
                 (forall p, p ∈ required_set required -> exists s, p = JStr s /\ s ∈ gs)).
  { assert (Hone : forall q, has_group gs q = true <->
               (forall p, p ∈ [q] -> exists s, p = JStr s /\ s ∈ gs)).
    { intros q. rewrite has_group_true. split.
      - intros H p Hp. apply list_elem_of_singleton in Hp. subst p. exact H.
      - intros H. apply H. apply list_elem_of_here. }
    destruct required; try apply Hone.
    simpl. rewrite forallb_forall. split.
    - intros H p Hp. apply has_group_true. apply H. apply list_elem_of_In. exact Hp.
    - intros H p Hp. apply has_group_true. apply H. apply list_elem_of_In. exact Hp. }
  rewrite Hset. tauto.
Qed.

Lemma GroupEvaluator_spec_agrees (gs : list string) (required : jsval) :
  required <> JStr "" -> required <> JNum 0 ->
  GroupEvaluator_spec gs required = GroupEvaluator gs required.
Proof.
  intros Hs Hz. unfold GroupEvaluator, GroupEvaluator_spec.
  destruct required as [ | | [|] | z | s | items | props | m | c];
    try reflexivity;
    try (cbn [truthy negb orb has_group]; rewrite orb_false_r; reflexivity).
  - cbn [truthy has_group]. destruct (z =? 0) eqn:E.
    + apply Z.eqb_eq in E. subst z. congruence.
    + cbn [negb orb]. rewrite orb_false_r. reflexivity.
  - cbn [truthy has_group]. destruct (String.eqb s "") eqn:E.
    + apply String.eqb_eq in E. subst s. congruence.
    + reflexivity.
Qed.

(** C4, as amended.  On a session holding the group list [gs],
    [_checkHasGroup] calls back without error and with the decision
    [GroupEvaluator gs required]: it allows exactly when the requirement is
    falsy (the boolean false, absent, and also the empty string or zero), or
    the groups contain admin, or every member of the required set is one of
    the user's groups, a requirement that is not an array counting as a
    one-element set.  Away from the empty string and zero this is the
    decision in the words of the specification. *)
Theorem checkHasGroup_decision (this : Handler) (w : world) (gs : list string)
    (required : jsval) :
  user_groups w gs ->
  (forall callback,
      _checkHasGroup this required callback w
      = callback JFalse (JBool (GroupEvaluator gs required)) w)
  /\ (GroupEvaluator gs required = true <->
      truthy required = false \/ "admin" ∈ gs \/
      (forall p, p ∈ required_set required -> exists s, p = JStr s /\ s ∈ gs))
  /\ (required <> JStr "" -> required <> JNum 0 ->
      GroupEvaluator_spec gs required = GroupEvaluator gs required).
Proof.
  intros Hg. split; [| split].
  - intros callback. apply _checkHasGroup_run. exact Hg.
  - apply GroupEvaluator_true.
  - apply GroupEvaluator_spec_agrees.
Qed.

Lemma checkHasGroup_decision_witness :
  user_groups (logged_in "alice" ["users"; "editors"]) ["users"; "editors"]
  /\ (forall callback,
         _checkHasGroup (DefaultHandler plain_server) (JArr [JStr "editors"]) callback
           (logged_in "alice" ["users"; "editors"])
         = callback JFalse JTrue (logged_in "alice" ["users"; "editors"])).
Proof.
  assert (Hg : user_groups (logged_in "alice" ["users"; "editors"]) ["users"; "editors"])
    by (vm_compute; reflexivity).
  split; [exact Hg |].
  destruct (checkHasGroup_decision (DefaultHandler plain_server)
              (logged_in "alice" ["users"; "editors"]) ["users"; "editors"]
              (JArr [JStr "editors"]) Hg) as (Hrun & _ & _).
  exact Hrun.
Defined.

(** C4, counterexample.  The requirement is the empty string and the user
    has no groups: the specification's wording treats the string as the
    one-element set of the empty name and denies, while [_checkHasGroup]
    replaces the falsy requirement by the empty list and allows. *)
Lemma checkHasGroup_empty_string_allows :
  user_groups (logged_in "alice" []) []
  /\ GroupEvaluator_spec [] (JStr "") = false
  /\ _checkHasGroup (DefaultHandler plain_server) (JStr "") record (logged_in "alice" [])
     = Ret tt (World (session (logged_in "alice" [])) [Callback JFalse JTrue]).
Proof. vm_compute. repeat split; reflexivity. Qed.

(** ** The session gate *)

Lemma _checkHasSession_trusted (this : Handler) (callback : callback) (w : world) :
  setup_nw (instance this) = true ->
  _checkHasSession this callback w = callback JFalse JTrue w.
Proof. intros H. unfold _checkHasSession. rewrite H. reflexivity. Qed.

Lemma _checkHasSession_run (this : Handler) (callback : callback) (w : world) :
  setup_nw (instance this) = false ->
  _checkHasSession this callback w
  = if truthy (stored w "username") then callback JFalse JTrue w
    else callback (JStr no_session) JUndefined w.
Proof.
  intros H. unfold _checkHasSession, getUserName, stored. rewrite H. run.
  destruct (truthy _); reflexivity.
Qed.

Lemma _checkHasSession_passes (this : Handler) (callback : callback) (w : world) :
  has_session this w ->
  _checkHasSession this callback w = callback JFalse JTrue w.
Proof.
  intros [H|H].
  - apply _checkHasSession_trusted. exact H.
  - destruct (setup_nw (instance this)) eqn:E.
    + apply _checkHasSession_trusted. exact E.
    + rewrite _checkHasSession_run by exact E. rewrite H. reflexivity.
Qed.

(** C5.  Outside trusted mode, with a session whose username is empty or
    absent (any falsy value), each of the three operations does nothing
    but call the callback with the session error: the equation holds for
    every callback, every instance (whatever its tables, metadata and
    resolver do) and every blacklist lookup, so no group, mount or package
    logic has run.  In trusted mode the session check calls back with
    success whatever the session holds, and each operation is its
    privilege resolution alone. *)
Theorem session_gate (this : Handler) (w : world) (callback : callback) :
  (setup_nw (instance this) = false ->
   truthy (stored w "username") = false ->
   (forall privilege,
       checkAPIPrivilege this privilege callback w
       = callback (JStr no_session) JUndefined w)
   /\ (forall method args,
          checkVFSPrivilege this method args callback w
          = callback (JStr no_session) JUndefined w)
   /\ (forall packageName,
          checkPackagePrivilege this packageName callback w
          = callback (JStr no_session) JUndefined w))
  /\ (setup_nw (instance this) = true ->
      _checkHasSession this callback w = callback JFalse JTrue w
      /\ (forall privilege,
             checkAPIPrivilege this privilege callback w
             = _checkHasAPIPrivilege this privilege callback w)
      /\ (forall method args,
             checkVFSPrivilege this method args callback w
             = _checkHasVFSPrivilege this method args callback w)
      /\ (forall packageName,
             checkPackagePrivilege this packageName callback w
             = _checkHasPackagePrivilege this packageName callback w)).
Proof.
  split.
  - intros Hnw Hu.
    unfold checkAPIPrivilege, checkVFSPrivilege, checkPackagePrivilege.
    repeat split; intros; rewrite _checkHasSession_run by exact Hnw;
      rewrite Hu; reflexivity.
  - intros Hnw.
    unfold checkAPIPrivilege, checkVFSPrivilege, checkPackagePrivilege.
    repeat split; intros; rewrite _checkHasSession_trusted by exact Hnw;
      reflexivity.
Qed.

Lemma session_gate_witness :
  (setup_nw (instance (DefaultHandler plain_server)) = false
   /\ truthy (stored (World ∅ []) "username") = false
   /\ checkVFSPrivilege (DefaultHandler plain_server) "write" JNull record (World ∅ [])
      = Ret tt (World ∅ [Callback (JStr no_session) JUndefined]))
  /\ (setup_nw (instance (DefaultHandler trusted_server)) = true
      /\ _checkHasSession (DefaultHandler trusted_server) record (World ∅ [])
         = Ret tt (World ∅ [Callback JFalse JTrue])).
Proof.
  split.
  - split; [reflexivity | split; [reflexivity |]].
    destruct (session_gate (DefaultHandler plain_server) (World ∅ []) record)
      as [Hgate _].
    destruct (Hgate eq_refl eq_refl) as (_ & Hvfs & _).
    rewrite Hvfs. reflexivity.
  - split; [reflexivity |].
    destruct (session_gate (DefaultHandler trusted_server) (World ∅ []) record)
      as [_ Htrusted].
    destruct (Htrusted eq_refl) as (Hs & _).
    rewrite Hs. reflexivity.
Defined.

(** ** The groups of the session *)

Lemma getUserGroups_total (this : Handler) (w : world) :
  exists v, getUserGroups this w = Ret v w.
Proof. eexists. apply getUserGroups_run. Qed.

Lemma getUserGroups_absent (this : Handler) (w : world) :
  session w !! "groups" = None -> getUserGroups this w = Ret (JArr []) w.
Proof.
  intros H. rewrite getUserGroups_run. unfold stored. rewrite H. reflexivity.
Qed.

Lemma getUserGroups_malformed (this : Handler) (w : world) :
  JSON_parse (stored w "groups") = None -> getUserGroups this w = Ret (JArr []) w.
Proof. intros H. rewrite getUserGroups_run. rewrite H. reflexivity. Qed.

Lemma getUserGroups_null (this : Handler) (w : world) :
  session w !! "groups" = Some JNull -> getUserGroups this w = Ret JNull w.
Proof.
  intros H. rewrite getUserGroups_run. unfold stored. rewrite H. reflexivity.
Qed.

(** C10, at the failing input.  [onLogout] stores [null] under groups;
    [JSON.parse(null)] reads the text null and returns [null] without
    throwing, so [getUserGroups] returns [null] and not the empty list, and
    the next group check, here of a trusted-mode server whose API table
    guards fs, throws a [TypeError] at [groups.indexOf].  The rest of the
    claim holds on every session: [getUserGroups] returns and never
    throws, and an absent entry or a text that is not JSON gives the empty
    list. *)
Theorem getUserGroups_null_after_logout :
  (onLogout (DefaultHandler trusted_fs_server) record (World ∅ [])
   = Ret tt (World logged_out [Callback JFalse JTrue])
   /\ getUserGroups (DefaultHandler trusted_fs_server) (World logged_out [])
      = Ret JNull (World logged_out [])
   /\ checkAPIPrivilege (DefaultHandler trusted_fs_server) (JStr "fs") record
        (World logged_out [])
      = Throw TypeError (World logged_out []))
  /\ (forall this w,
         session w !! "groups" = Some JNull -> getUserGroups this w = Ret JNull w)
  /\ (forall this w, exists v, getUserGroups this w = Ret v w)
  /\ (forall this w,
         session w !! "groups" = None -> getUserGroups this w = Ret (JArr []) w)
  /\ (forall this w,
         JSON_parse (stored w "groups") = None ->
         getUserGroups this w = Ret (JArr []) w).
Proof.
  split; [vm_compute; repeat split; reflexivity |].
  split; [exact getUserGroups_null |].
  split; [exact getUserGroups_total |].
  split; [exact getUserGroups_absent | exact getUserGroups_malformed].
Qed.

Lemma getUserGroups_null_after_logout_witness :
  session (World logged_out []) !! "groups" = Some JNull
  /\ getUserGroups (DefaultHandler plain_server) (World logged_out [])
     = Ret JNull (World logged_out []).
Proof.
  assert (H : session (World logged_out []) !! "groups" = Some JNull)
    by (vm_compute; reflexivity).
  split; [exact H |].
  destruct getUserGroups_null_after_logout as (_ & Hnull & _).
  exact (Hnull (DefaultHandler plain_server) (World logged_out []) H).
Defined.

(** ** Privilege resolution *)

Lemma get_prop_truthy (o : jsval) (k : string) (w : world) :
  truthy o = true -> get_prop o k w = Ret (lookup_prop o k) w.
Proof. destruct o; simpl; try discriminate; reflexivity. Qed.

Lemma _checkHasAPIPrivilege_run (this : Handler) (w : world) (gs : list string)
    (privilege : jsval) (callback : callback) :
  user_groups w gs ->
  _checkHasAPIPrivilege this privilege callback w
  = if truthy (api_requirement (config_api_groups (instance this)) privilege)
    then
      if GroupEvaluator gs privilege then callback JFalse JTrue w
      else callback (JStr api_denied) JFalse w
    else callback JFalse JTrue w.
Proof.
  intros Hg. unfold _checkHasAPIPrivilege, api_requirement.
  set (map := config_api_groups (instance this)).
  assert (Hreq :
    (if truthy map
     then if truthy privilege then get_prop map (ToString privilege) else mret privilege
     else mret map) w
    = Ret (if truthy map
           then if truthy privilege then lookup_prop map (ToString privilege)
                else privilege
           else map) w).
  { destruct (truthy map) eqn:Em; [| reflexivity].
    destruct (truthy privilege); [| reflexivity].
    apply get_prop_truthy. exact Em. }
  rewrite (bind_run _ _ _ _ _ Hreq).
  destruct (truthy (if truthy map then _ else _)); [| reflexivity].
  rewrite (_checkHasGroup_run this w gs) by exact Hg.
  destruct (GroupEvaluator gs privilege); reflexivity.
Qed.

Lemma _checkHasBlacklistedPackage_run (inst : Instance) (bl : list string)
    (name : string) (callback : callback) (w : world) :
  _checkHasBlacklistedPackage (Backend inst JFalse (JArr (map JStr bl))) (JStr name)
    callback w
  = callback JFalse (JBool (bool_decide (name ∈ bl))) w.
Proof.
  unfold _checkHasBlacklistedPackage, Backend, answering. simpl.
  unfold js_or. simpl. run.
  assert (H : (0 <=? Array_indexOf (map JStr bl) (JStr name) 0)
              = bool_decide (name ∈ bl)).
  { pose proof (Array_indexOf_name bl name 0 ltac:(lia)) as Hn.
    rewrite Z.leb_antisym. rewrite Hn. apply negb_involutive. }
  rewrite H. reflexivity.
Qed.

Lemma _checkHasPackagePrivilege_run (inst : Instance) (bl : list string)
    (w : world) (gs : list string) (name : string) (callback : callback) :
  user_groups w gs ->
  _checkHasPackagePrivilege (Backend inst JFalse (JArr (map JStr bl))) (JStr name)
    callback w
  = if truthy (package_requirement (metadata inst) (JStr name))
    then
      if GroupEvaluator gs (package_requirement (metadata inst) (JStr name))
         && bool_decide (name ∈ bl)
      then callback JFalse JTrue w
      else callback (JStr package_denied) JUndefined w
    else callback JFalse JTrue w.
Proof.
  intros Hg. unfold _checkHasPackagePrivilege, package_requirement.
  cbn [instance Backend ToString].
  set (packages := metadata inst).
  assert (Hreq :
    (if truthy packages
     then package ← get_prop packages name;
          if truthy package then get_prop package "groups" else mret package
     else mret packages) w
    = Ret (if truthy packages
           then if truthy (lookup_prop packages name)
                then lookup_prop (lookup_prop packages name) "groups"
                else lookup_prop packages name
           else packages) w).
  { destruct (truthy packages) eqn:Ep; [| reflexivity].
    rewrite (bind_run _ _ _ _ _ (get_prop_truthy packages name w Ep)).
    destruct (truthy (lookup_prop packages name)) eqn:El; [| reflexivity].
    apply get_prop_truthy. exact El. }
  rewrite (bind_run _ _ _ _ _ Hreq).
  destruct (truthy (if truthy packages then _ else _)); [| reflexivity].
  rewrite (_checkHasGroup_run _ w gs) by exact Hg.
  cbn [truthy JFalse].
  destruct (GroupEvaluator gs _); cbn [truthy andb].
  - rewrite _checkHasBlacklistedPackage_run.
    destruct (bool_decide (name ∈ bl)); reflexivity.
  - reflexivity.
Qed.

Lemma record_inj (err res err' res' : jsval) (w : world) :
  record err res w = record err' res' w -> err = err' /\ res = res'.
Proof.
  unfold record, emit. intros H. injection H as H.
  apply app_inv_head in H. injection H as -> ->. split; reflexivity.
Qed.

Lemma allows_iff (op : callback -> M unit) (w : world) (b : bool) (err res : jsval) :
  err <> JFalse ->
  (forall callback,
      op callback w = if b then callback JFalse JTrue w else callback err res w) ->
  allows op w <-> b = true.
Proof.
  intros Herr Hop. unfold allows. rewrite Hop. split.
  - destruct b; [reflexivity |]. intros H.
    change (record err res w = record JFalse JTrue w) in H.
    apply record_inj in H. destruct H as [H _]. congruence.
  - intros ->. reflexivity.
Qed.

(** C1, at the failing input.  The package foo/bar asks for the group
    editors, the user is in editors and the blacklist is empty: the
    operation denies, where the claim has it allow.  With foo/bar on the
    blacklist the operation allows.  [_checkHasBlacklistedPackage] answers
    true for a blacklisted package and [_checkHasPackagePrivilege] takes
    that answer as permission: in general, once the session gate and the
    group requirement of the package are passed, the operation allows
    exactly when the package is on the blacklist. *)
Theorem checkPackagePrivilege_blacklist_inverted :
  (checkPackagePrivilege (DefaultHandler editors_package_server) (JStr "foo/bar") record
     (logged_in "alice" ["editors"])
   = Ret tt (World (session (logged_in "alice" ["editors"]))
               [Callback (JStr package_denied) JUndefined])
   /\ checkPackagePrivilege
        (Backend editors_package_server JFalse (JArr [JStr "foo/bar"]))
        (JStr "foo/bar") record (logged_in "alice" ["editors"])
      = Ret tt (World (session (logged_in "alice" ["editors"]))
                  [Callback JFalse JTrue]))
  /\ (forall inst bl w gs name,
         has_session (Backend inst JFalse (JArr (map JStr bl))) w ->
         user_groups w gs ->
         truthy (package_requirement (metadata inst) (JStr name)) = true ->
         GroupEvaluator gs (package_requirement (metadata inst) (JStr name)) = true ->
         (allows (checkPackagePrivilege (Backend inst JFalse (JArr (map JStr bl)))
                    (JStr name)) w
          <-> name ∈ bl)).
Proof.
  split; [vm_compute; split; reflexivity |].
  intros inst bl w gs name Hs Hg Hreq Hok.
  rewrite <- (bool_decide_eq_true (name ∈ bl)).
  apply (allows_iff _ w _ (JStr package_denied) JUndefined); [discriminate |].
  intros callback. unfold checkPackagePrivilege.
  rewrite _checkHasSession_passes by exact Hs. cbn [truthy JFalse].
  rewrite (_checkHasPackagePrivilege_run inst bl w gs) by exact Hg.
  rewrite Hreq, Hok. reflexivity.
Qed.

Lemma checkPackagePrivilege_blacklist_inverted_witness :
  has_session (Backend editors_package_server JFalse (JArr (map JStr ["foo/bar"])))
    (logged_in "alice" ["editors"])
  /\ user_groups (logged_in "alice" ["editors"]) ["editors"]
  /\ (allows (checkPackagePrivilege
                (Backend editors_package_server JFalse (JArr (map JStr ["foo/bar"])))
                (JStr "foo/bar")) (logged_in "alice" ["editors"])
      <-> "foo/bar" ∈ ["foo/bar"]).
Proof.
  assert (Hs : has_session
                 (Backend editors_package_server JFalse (JArr (map JStr ["foo/bar"])))
                 (logged_in "alice" ["editors"])) by (right; vm_compute; reflexivity).
  assert (Hg : user_groups (logged_in "alice" ["editors"]) ["editors"])
    by (vm_compute; reflexivity).
  split; [exact Hs | split; [exact Hg |]].
  destruct checkPackagePrivilege_blacklist_inverted as (_ & Hlaw).
  apply (Hlaw editors_package_server ["foo/bar"] (logged_in "alice" ["editors"])
           ["editors"] "foo/bar" Hs Hg); vm_compute; reflexivity.
Defined.

(** C2, at the failing inputs.  The API table asks for the group users on
    the method fs and the user is in users: the operation denies, because
    [_checkHasAPIPrivilege] hands the method name, not the table entry, to
    [_checkHasGroup], which then looks for a group called fs.  And a user
    in users alone may call a method named users that the table reserves
    for admin.  In general, once the session gate is passed and the table
    has a truthy entry for the method, the operation allows exactly when
    the group check against the method name passes. *)
Theorem checkAPIPrivilege_checks_method_name :
  (checkAPIPrivilege (DefaultHandler fs_for_users_server) (JStr "fs") record
     (logged_in "alice" ["users"])
   = Ret tt (World (session (logged_in "alice" ["users"]))
               [Callback (JStr api_denied) JFalse])
   /\ checkAPIPrivilege (DefaultHandler users_for_admin_server) (JStr "users") record
        (logged_in "alice" ["users"])
      = Ret tt (World (session (logged_in "alice" ["users"]))
                  [Callback JFalse JTrue]))
  /\ (forall this w gs fn,
         has_session this w ->
         user_groups w gs ->
         truthy (api_requirement (config_api_groups (instance this)) (JStr fn)) = true ->
         (allows (checkAPIPrivilege this (JStr fn)) w
          <-> GroupEvaluator gs (JStr fn) = true)).
Proof.
  split; [vm_compute; split; reflexivity |].
  intros this w gs fn Hs Hg Hreq.
  apply (allows_iff _ w _ (JStr api_denied) JFalse); [discriminate |].
  intros callback. unfold checkAPIPrivilege.
  rewrite _checkHasSession_passes by exact Hs. cbn [truthy JFalse].
  rewrite (_checkHasAPIPrivilege_run this w gs) by exact Hg.
  rewrite Hreq. reflexivity.
Qed.

Lemma checkAPIPrivilege_checks_method_name_witness :
  has_session (DefaultHandler fs_for_users_server) (logged_in "alice" ["users"])
  /\ user_groups (logged_in "alice" ["users"]) ["users"]
  /\ (allows (checkAPIPrivilege (DefaultHandler fs_for_users_server) (JStr "fs"))
         (logged_in "alice" ["users"])
      <-> GroupEvaluator ["users"] (JStr "fs") = true).
Proof.
  assert (Hs : has_session (DefaultHandler fs_for_users_server)
                 (logged_in "alice" ["users"])) by (right; vm_compute; reflexivity).
  assert (Hg : user_groups (logged_in "alice" ["users"]) ["users"])
    by (vm_compute; reflexivity).
  split; [exact Hs | split; [exact Hg |]].
  destruct checkAPIPrivilege_checks_method_name as (_ & Hlaw).
  apply (Hlaw (DefaultHandler fs_for_users_server) (logged_in "alice" ["users"])
           ["users"] "fs" Hs Hg). vm_compute. reflexivity.
Defined.

(** ** The VFS privilege *)

Lemma get_prop_defined (o : jsval) (k : string) (w : world) :
  o <> JUndefined -> o <> JNull -> get_prop o k w = Ret (lookup_prop o k) w.
Proof. destruct o; simpl; intros; try congruence; reflexivity. Qed.

Lemma vfs_against_run (cfg mount : jsval) (w : world) :
  try_catch
    (protocol ← get_prop mount "protocol";
     match protocol with
     | JStr p => get_prop cfg (strip_protocol_suffix p)
     | _ => throw TypeError
     end)
    (fun _ => mret JUndefined) w
  = Ret (vfs_requirement cfg mount) w.
Proof.
  unfold vfs_requirement.
  destruct mount; try reflexivity.
  run. destruct (default JUndefined (assoc_get "protocol" props)); try reflexivity.
  destruct cfg; reflexivity.
Qed.

Lemma _checkHasVFSPrivilege_run (this : Handler) (w : world) (method : string)
    (args mount : jsval) (callback : callback) :
  args <> JUndefined -> args <> JNull ->
  vfs_getRealPath (instance this) (vfs_target args) w = Ret mount w ->
  _checkHasVFSPrivilege this method args callback w
  = if truthy (vfs_requirement (config_vfs_groups (instance this)) mount)
    then
      _checkHasGroup this (vfs_requirement (config_vfs_groups (instance this)) mount)
        (fun err res =>
           callback (if negb (truthy res) && negb (truthy err)
                     then JStr vfs_denied else err) res) w
    else callback JFalse JTrue w.
Proof.
  intros Hu Hn Hmount. unfold _checkHasVFSPrivilege.
  rewrite (bind_run _ _ _ _ _ (get_prop_defined args "path" w Hu Hn)).
  assert (Htarget :
    (if truthy (lookup_prop args "path") then mret (lookup_prop args "path")
     else get_prop args "src") w = Ret (vfs_target args) w).
  { unfold vfs_target, js_or. destruct (truthy (lookup_prop args "path")).
    - reflexivity.
    - apply get_prop_defined; assumption. }
  rewrite (bind_run _ _ _ _ _ Htarget).
  rewrite (bind_run _ _ _ _ _ Hmount).
  rewrite (bind_run _ _ _ _ _ (vfs_against_run _ mount w)).
  destruct (truthy (vfs_requirement _ mount)); reflexivity.
Qed.

Lemma _checkHasVFSPrivilege_throws (this : Handler) (w w' : world) (method : string)
    (args e : jsval) (callback : callback) :
  args <> JUndefined -> args <> JNull ->
  vfs_getRealPath (instance this) (vfs_target args) w = Throw e w' ->
  _checkHasVFSPrivilege this method args callback w = Throw e w'.
Proof.
  intros Hu Hn Hmount. unfold _checkHasVFSPrivilege.
  rewrite (bind_run _ _ _ _ _ (get_prop_defined args "path" w Hu Hn)).
  assert (Htarget :
    (if truthy (lookup_prop args "path") then mret (lookup_prop args "path")
     else get_prop args "src") w = Ret (vfs_target args) w).
  { unfold vfs_target, js_or. destruct (truthy (lookup_prop args "path")).
    - reflexivity.
    - apply get_prop_defined; assumption. }
  rewrite (bind_run _ _ _ _ _ Htarget).
  unfold mbind at 1, M_bind. rewrite Hmount. reflexivity.
Qed.

(** C3, as amended.  On a request that passes the session gate, with an
    argument object, the table [vfs.groups] being a plain object or
    missing: when the resolver returns a mount whose protocol, stripped of
    its suffix, is not the name of a member every object inherits,
    [checkVFSPrivilege] allows if reading the mount's protocol entry
    throws or finds no entry or a falsy one ([vfs_requirement] is then
    falsy), whatever the groups entry of the session holds; otherwise, on
    a session holding a list of group names, it runs the group check
    against the configured requirement, allows when it passes and denies
    with the VFS message when it fails.  When the resolver itself throws,
    the call sits before the [try] and the exception reaches the caller. *)
Theorem checkVFSPrivilege_resolution (this : Handler) (w : world)
    (method : string) (args : jsval) :
  has_session this w ->
  args <> JUndefined -> args <> JNull ->
  plain_table (config_vfs_groups (instance this)) ->
  (forall mount,
      vfs_getRealPath (instance this) (vfs_target args) w = Ret mount w ->
      own_protocol mount ->
      let against := vfs_requirement (config_vfs_groups (instance this)) mount in
      (truthy against = false -> allows (checkVFSPrivilege this method args) w)
      /\ (forall gs,
             user_groups w gs ->
             truthy against = true -> GroupEvaluator gs against = true ->
             allows (checkVFSPrivilege this method args) w)
      /\ (forall gs,
             user_groups w gs ->
             truthy against = true -> GroupEvaluator gs against = false ->
             denies (checkVFSPrivilege this method args) w vfs_denied))
  /\ (forall e w',
         vfs_getRealPath (instance this) (vfs_target args) w = Throw e w' ->
         forall callback, checkVFSPrivilege this method args callback w = Throw e w')
  /\ contains vfs_denied "not allowed to use this VFS function" = true.
Proof.
  intros Hs Hu Hn _. split; [| split].
  - intros mount Hmount _ against.
    assert (Hgate : forall callback,
      checkVFSPrivilege this method args callback w
      = if truthy against
        then _checkHasGroup this against
               (fun err res =>
                  callback (if negb (truthy res) && negb (truthy err)
                            then JStr vfs_denied else err) res) w
        else callback JFalse JTrue w).
    { intros callback. unfold checkVFSPrivilege.
      rewrite _checkHasSession_passes by exact Hs. cbn [truthy JFalse].
      rewrite (_checkHasVFSPrivilege_run this w method args mount) by assumption.
      reflexivity. }
    unfold allows, denies. split; [| split].
    + intros Ha. rewrite Hgate, Ha. reflexivity.
    + intros gs Hg Ha Hok. rewrite Hgate, Ha.
      rewrite (_checkHasGroup_run this w gs) by exact Hg. rewrite Hok. reflexivity.
    + intros gs Hg Ha Hno. exists JFalse. rewrite Hgate, Ha.
      rewrite (_checkHasGroup_run this w gs) by exact Hg. rewrite Hno. reflexivity.
  - intros e w' Hthrow callback. unfold checkVFSPrivilege.
    rewrite _checkHasSession_passes by exact Hs. cbn [truthy JFalse].
    apply _checkHasVFSPrivilege_throws; assumption.
  - vm_compute. reflexivity.
Qed.

Lemma checkVFSPrivilege_resolution_witness :
  has_session (DefaultHandler home_for_trusted_server) (logged_in "alice" ["users"])
  /\ plain_table (config_vfs_groups (instance (DefaultHandler home_for_trusted_server)))
  /\ user_groups (logged_in "alice" ["users"]) ["users"]
  /\ vfs_getRealPath home_for_trusted_server
       (vfs_target (JObj [("path", JStr "home:///notes.txt")]))
       (logged_in "alice" ["users"])
     = Ret (JObj [("protocol", JStr "home://")]) (logged_in "alice" ["users"])
  /\ own_protocol (JObj [("protocol", JStr "home://")])
  /\ denies (checkVFSPrivilege (DefaultHandler home_for_trusted_server) "read"
               (JObj [("path", JStr "home:///notes.txt")]))
       (logged_in "alice" ["users"]) vfs_denied.
Proof.
  assert (Hs : has_session (DefaultHandler home_for_trusted_server)
                 (logged_in "alice" ["users"])) by (right; vm_compute; reflexivity).
  assert (Hg : user_groups (logged_in "alice" ["users"]) ["users"])
    by (vm_compute; reflexivity).
  assert (Hp : own_protocol (JObj [("protocol", JStr "home://")])).
  { intros p Hprotocol. injection Hprotocol as <-.
    apply (bool_decide_unpack _). vm_compute. exact I. }
  split; [exact Hs | split; [exact I | split; [exact Hg | split; [reflexivity |]]]].
  split; [exact Hp |].
  destruct (checkVFSPrivilege_resolution (DefaultHandler home_for_trusted_server)
              (logged_in "alice" ["users"]) "read"
              (JObj [("path", JStr "home:///notes.txt")]) Hs
              ltac:(discriminate) ltac:(discriminate) I) as (Hret & _ & _).
  destruct (Hret (JObj [("protocol", JStr "home://")]) eq_refl Hp) as (_ & _ & Hdeny).
  apply (Hdeny ["users"] Hg); vm_compute; reflexivity.
Defined.

Example checkVFSPrivilege_admin_allowed :
  checkVFSPrivilege (DefaultHandler home_for_trusted_server) "write"
    (JObj [("src", JStr "home:///notes.txt")]) record (logged_in "root" ["admin"])
  = Ret tt (World (session (logged_in "root" ["admin"])) [Callback JFalse JTrue]).
Proof. vm_compute. reflexivity. Qed.

(** C3, counterexample.  The user is logged in and the resolver throws:
    the exception leaves [checkVFSPrivilege], which does not allow. *)
Lemma checkVFSPrivilege_resolver_throws :
  has_session (DefaultHandler failing_resolver_server) (logged_in "alice" ["users"])
  /\ checkVFSPrivilege (DefaultHandler failing_resolver_server) "read"
       (JObj [("path", JStr "home:///notes.txt")]) record (logged_in "alice" ["users"])
     = Throw (JError "ENOENT") (logged_in "alice" ["users"])
  /\ ~ allows (checkVFSPrivilege (DefaultHandler failing_resolver_server) "read"
                 (JObj [("path", JStr "home:///notes.txt")]))
         (logged_in "alice" ["users"]).
Proof.
  split; [right; vm_compute; reflexivity |].
  assert (H : checkVFSPrivilege (DefaultHandler failing_resolver_server) "read"
                (JObj [("path", JStr "home:///notes.txt")]) record
                (logged_in "alice" ["users"])
              = Throw (JError "ENOENT") (logged_in "alice" ["users"]))
    by (vm_compute; reflexivity).
  split; [exact H |].
  unfold allows. rewrite H. discriminate.
Qed.

(** ** Login and logout *)

Lemma assoc_get_set (k k' : string) (v : jsval) (props : list (string * jsval)) :
  assoc_get k (assoc_set k' v props)
  = if String.eqb k k' then Some v else assoc_get k props.
Proof.
  induction props as [|[k0 v0] rest IH]; simpl.
  - destruct (String.eqb k k'); reflexivity.
  - destruct (String.eqb k' k0) eqn:E0; simpl.
    + apply String.eqb_eq in E0. subst k0.
      destruct (String.eqb k k'); reflexivity.
    + destruct (String.eqb k k0) eqn:E1.
      * apply String.eqb_eq in E1. subst k0.
        rewrite String.eqb_sym in E0. rewrite E0. reflexivity.
      * exact IH.
Qed.

Lemma setUserData_record (this : Handler) (userData : jsval) (k : callback)
    (w : world) :
  userData <> JUndefined -> userData <> JNull ->
  setUserData this userData k w
  = k JFalse JTrue (World (with_user userData (session w)) (trace w)).
Proof.
  intros Hu Hn. unfold setUserData, with_user.
  replace (strict_eq userData JNull) with false
    by (destruct userData; try reflexivity; congruence).
  cbv iota. unfold mbind, M_bind.
  rewrite (get_prop_defined userData "username" w Hu Hn).
  unfold session_set at 1.
  rewrite (get_prop_defined userData "groups" _ Hu Hn).
  reflexivity.
Qed.

Lemma setUserData_null (this : Handler) (k : callback) (w : world) :
  setUserData this JNull k w
  = k JFalse JTrue
      (World (<["groups" := JNull]> (<["username" := JNull]> (session w))) (trace w)).
Proof. reflexivity. Qed.

Lemma assoc_get_with_settings (k : string) (props : list (string * jsval)) :
  String.eqb k "userSettings" = false ->
  assoc_get k (with_settings props) = assoc_get k props.
Proof. intros H. unfold with_settings. rewrite assoc_get_set, H. reflexivity. Qed.

Lemma onLogin_run (inst : Instance) (error blacklist : jsval) (callback : callback)
    (props : list (string * jsval)) (userData : jsval) (w : world) :
  assoc_get "userData" props = Some userData ->
  userData <> JUndefined -> userData <> JNull ->
  onLogin (Backend inst error blacklist) (JObj props) callback w
  = let w1 := World (with_user userData (session w)) (trace w) in
    if truthy (default JUndefined (assoc_get "blacklistedPackages" props))
    then callback JFalse (JObj (with_settings props)) w1
    else if truthy error
    then (callback error JUndefined;; callback JFalse (JObj (with_settings props))) w1
    else callback JFalse
           (JObj (assoc_set "blacklistedPackages" (js_or blacklist (JArr []))
                    (with_settings props))) w1.
Proof.
  intros Hdata Hu Hn. unfold onLogin. cbn [get_prop set_prop].
  rewrite !bind_ret. fold (with_settings props).
  cbn [get_prop]. rewrite bind_ret.
  rewrite assoc_get_with_settings by reflexivity.
  rewrite Hdata. cbn [default].
  rewrite setUserData_record by assumption.
  cbv zeta. rewrite bind_ret.
  rewrite assoc_get_with_settings by reflexivity.
  destruct (truthy (default JUndefined (assoc_get "blacklistedPackages" props)));
    [reflexivity |].
  cbn [getUserBlacklistedPackages Backend]. unfold answering.
  destruct (truthy error); [| reflexivity].
  unfold mbind, M_bind. destruct (callback error JUndefined _); reflexivity.
Qed.

Lemma onLogin_returns (inst : Instance) (error blacklist : jsval)
    (props : list (string * jsval)) (userData : jsval) (w : world) :
  assoc_get "userData" props = Some userData ->
  userData <> JUndefined -> userData <> JNull ->
  exists calls,
    onLogin (Backend inst error blacklist) (JObj props) record w
    = Ret tt (World (with_user userData (session w)) (trace w ++ calls)).
Proof.
  intros Hdata Hu Hn. rewrite (onLogin_run _ _ _ _ _ userData) by assumption.
  cbv zeta.
  destruct (truthy (default JUndefined (assoc_get "blacklistedPackages" props))).
  - eexists. reflexivity.
  - destruct (truthy error).
    + exists [Callback error JUndefined; Callback JFalse (JObj (with_settings props))].
      run. unfold emit. simpl. rewrite <- app_assoc. reflexivity.
    + eexists. reflexivity.
Qed.

(** C7.  On a session that starts anonymous, a login with a user record
    stores the username and the serialized groups, and the logout that
    follows reports success, once, and leaves both entries [null]: the
    session is anonymous again, and every other entry is as before the
    login. *)
Theorem login_then_logout (inst : Instance) (error blacklist : jsval) (w : world)
    (props : list (string * jsval)) (userData : jsval) :
  anonymous w ->
  assoc_get "userData" props = Some userData ->
  userData <> JUndefined -> userData <> JNull ->
  exists w1 w2,
    onLogin (Backend inst error blacklist) (JObj props) record w = Ret tt w1
    /\ stored w1 "username" = lookup_prop userData "username"
    /\ stored w1 "groups" = JSON_stringify (lookup_prop userData "groups")
    /\ onLogout (Backend inst error blacklist) record w1 = Ret tt w2
    /\ trace w2 = (trace w1 ++ [Callback JFalse JTrue])%list
    /\ stored w2 "username" = JNull
    /\ stored w2 "groups" = JNull
    /\ anonymous w2
    /\ (forall k, k <> "username" -> k <> "groups" ->
                  session w2 !! k = session w !! k).
Proof.
  intros _ Hdata Hu Hn.
  destruct (onLogin_returns inst error blacklist props userData w Hdata Hu Hn)
    as [calls Hlogin].
  set (w1 := World (with_user userData (session w)) (trace w ++ calls)) in *.
  exists w1.
  exists (World (<["groups" := JNull]> (<["username" := JNull]> (session w1)))
            (trace w1 ++ [Callback JFalse JTrue])).
  assert (Hname : forall s : gmap string jsval,
             default JUndefined
               ((<["groups" := JNull]> (<["username" := JNull]> s)) !! "username")
             = JNull).
  { intros s. rewrite lookup_insert_ne by discriminate.
    rewrite lookup_insert_eq. reflexivity. }
  assert (Hgroups : forall s : gmap string jsval,
             default JUndefined
               ((<["groups" := JNull]> (<["username" := JNull]> s)) !! "groups")
             = JNull).
  { intros s. rewrite lookup_insert_eq. reflexivity. }
  split; [exact Hlogin |].
  split.
  { unfold stored, w1, with_user. cbn [session].
    rewrite lookup_insert_ne by discriminate. rewrite lookup_insert_eq. reflexivity. }
  split.
  { unfold stored, w1, with_user. cbn [session].
    rewrite lookup_insert_eq. reflexivity. }
  split; [reflexivity |].
  split; [reflexivity |].
  split; [apply Hname |].
  split; [apply Hgroups |].
  split.
  { split; right; [apply Hname | apply Hgroups]. }
  intros k Hk1 Hk2. unfold w1, with_user. cbn [session].
  rewrite !lookup_insert_ne by congruence. reflexivity.
Qed.

Lemma login_then_logout_witness :
  anonymous (World ∅ [])
  /\ exists w1 w2,
      onLogin (DefaultHandler trusted_server) (JObj nw_login_data) record (World ∅ [])
      = Ret tt w1
      /\ stored w1 "username" = JStr "nw"
      /\ onLogout (DefaultHandler trusted_server) record w1 = Ret tt w2
      /\ stored w2 "username" = JNull
      /\ stored w2 "groups" = JNull.
Proof.
  assert (Ha : anonymous (World ∅ [])) by (split; left; reflexivity).
  split; [exact Ha |].
  destruct (login_then_logout trusted_server JFalse (JArr []) (World ∅ [])
              nw_login_data
              (JObj [("id", JNum 0); ("username", JStr "nw");
                     ("name", JStr "NW.js User"); ("groups", JArr [JStr "admin"])])
              Ha eq_refl ltac:(discriminate) ltac:(discriminate))
    as (w1 & w2 & H1 & H2 & _ & H3 & _ & H4 & H5 & _).
  exists w1, w2. repeat split; assumption.
Defined.

(** ** System login *)

Lemma parse_buffer_run (content : string) (w : world) :
  try_catch (text ← call_toString (JBuffer content); JSON_parse_M text)
            (fun _ => mret (JObj [])) w
  = Ret (default (JObj []) (JSON_parse_text content)) w.
Proof.
  unfold JSON_parse_M, JSON_parse. run. destruct (JSON_parse_text content); reflexivity.
Qed.

Lemma onSystemLogin_getUserSettings_run (_fs : FileSystem) (cfg : SystemConfig)
    (username : string) (cb : jsval -> M unit) (w : world) :
  onSystemLogin_getUserSettings _fs cfg username cb w
  = cb (system_settings _fs cfg username) w.
Proof.
  unfold onSystemLogin_getUserSettings, system_settings, readFile.
  destruct (readFile_result _fs _) as [message | content]; [reflexivity |].
  cbn [truthy negb andb parsed_or].
  rewrite (bind_run _ _ _ _ _ (parse_buffer_run content w)). reflexivity.
Qed.

Lemma parse_elements_array (value : string -> option (jsval * string)) (n : nat)
    (s : string) (acc : list jsval) (v : jsval) (r : string) :
  parse_elements value n s acc = Some (v, r) -> exists items, v = JArr items.
Proof.
  revert s acc. induction n as [|n IH]; intros s acc; simpl; [discriminate |].
  destruct (value s) as [[x s1]|]; [| discriminate].
  destruct (head_is 44 (skip_ws s1)); [apply IH |].
  destruct (head_is 93 (skip_ws s1)); [| discriminate].
  intros H. injection H as <- _. eexists. reflexivity.
Qed.

Lemma parse_members_object (value : string -> option (jsval * string)) (n : nat)
    (s : string) (acc : list (string * jsval)) (v : jsval) (r : string) :
  parse_members value n s acc = Some (v, r) -> exists props, v = JObj props.
Proof.
  revert s acc. induction n as [|n IH]; intros s acc; simpl; [discriminate |].
  destruct (head_is 34 (skip_ws s)); [| discriminate].
  destruct (parse_chars s0) as [[key s1]|]; [| discriminate].
  destruct (head_is 58 (skip_ws s1)); [| discriminate].
  destruct (value s2) as [[x s3]|]; [| discriminate].
  destruct (head_is 44 (skip_ws s3)); [apply IH |].
  destruct (head_is 125 (skip_ws s3)); [| discriminate].
  intros H. injection H as <- _. eexists. reflexivity.
Qed.

(** [JSON.parse] never returns [undefined]. *)
Lemma parse_value_defined (fuel : nat) (s : string) (v : jsval) (r : string) :
  parse_value fuel s = Some (v, r) -> v <> JUndefined.
Proof.
  destruct fuel as [|fuel]; [discriminate |].
  cbn [parse_value]. cbv zeta.
  destruct (strip_prefix "null" (skip_ws s)); [intros H; injection H as <- _; discriminate |].
  destruct (strip_prefix "true" (skip_ws s)); [intros H; injection H as <- _; discriminate |].
  destruct (strip_prefix "false" (skip_ws s)); [intros H; injection H as <- _; discriminate |].
  destruct (head_is 34 (skip_ws s)).
  { destruct (parse_chars s0) as [[str r']|]; [| discriminate].
    intros H; injection H as <- _; discriminate. }
  destruct (head_is 91 (skip_ws s)).
  { destruct (head_is 93 (skip_ws s0)).
    - intros H; injection H as <- _; discriminate.
    - intros H. apply parse_elements_array in H. destruct H as [items ->]. discriminate. }
  destruct (head_is 123 (skip_ws s)).
  { destruct (head_is 125 (skip_ws s0)).
    - intros H; injection H as <- _; discriminate.
    - intros H. apply parse_members_object in H. destruct H as [props ->]. discriminate. }
  unfold parse_number.
  destruct (skip_ws s) as [|c rest]; [discriminate |].
  destruct (nat_of_ascii c =? 45)%nat.
  - destruct (parse_unsigned rest) as [[z r0]|]; [| discriminate].
    intros H; injection H as <- _; discriminate.
  - destruct (parse_unsigned (String c rest)) as [[z r0]|]; [| discriminate].
    intros H; injection H as <- _; discriminate.
Qed.

Lemma JSON_parse_text_defined (text : string) (v : jsval) :
  JSON_parse_text text = Some v -> v <> JUndefined.
Proof.
  unfold JSON_parse_text.
  destruct (parse_value _ text) as [[x rest]|] eqn:E; [| discriminate].
  destruct (skip_ws rest); [| discriminate].
  intros H. injection H as <-. eapply parse_value_defined. exact E.
Qed.

Lemma onSystemLogin_getUserGroups_run (_fs : FileSystem) (cfg : SystemConfig)
    (username : string) (cb : jsval -> M unit) (w : world) :
  (forall content, readFile_result _fs (cfg_groups cfg) = ReadData content ->
                   JSON_parse_text content <> Some JNull) ->
  onSystemLogin_getUserGroups _fs cfg username cb w
  = cb (system_groups _fs cfg username) w.
Proof.
  intros Hnull.
  unfold onSystemLogin_getUserGroups, system_groups, readFile.
  destruct (readFile_result _fs _) as [message | content]; [reflexivity |].
  cbn [truthy negb parsed_or].
  rewrite (bind_run _ _ _ _ _ (parse_buffer_run content w)).
  specialize (Hnull content eq_refl).
  erewrite bind_run; [reflexivity |].
  apply get_prop_defined.
  - destruct (JSON_parse_text content) as [v|] eqn:E; [| discriminate].
    eapply JSON_parse_text_defined. exact E.
  - destruct (JSON_parse_text content) as [v|] eqn:E; [| discriminate].
    simpl. congruence.
Qed.

Lemma onSystemLogin_getUserBlacklist_run (_fs : FileSystem) (cfg : SystemConfig)
    (username : string) (cb : jsval -> M unit) (w : world) :
  onSystemLogin_getUserBlacklist _fs cfg username cb w
  = cb (system_blacklist _fs cfg username) w.
Proof.
  unfold onSystemLogin_getUserBlacklist, system_blacklist, readFile.
  destruct (readFile_result _fs _) as [message | content]; [reflexivity |].
  cbn [truthy negb andb parsed_or].
  erewrite bind_run; [reflexivity |].
  unfold JSON_parse_M, JSON_parse. cbn [ToString]. run.
  destruct (JSON_parse_text content) as [v|]; [| reflexivity].
  destruct v; reflexivity.
Qed.

Lemma js_or_array_truthy (v : jsval) : truthy (js_or v (JArr [])) = true.
Proof. unfold js_or. destruct (truthy v) eqn:E; [exact E | reflexivity]. Qed.

Lemma parsed_or_unreadable (fallback : jsval) (r : read_result) :
  unreadable r -> parsed_or fallback r = fallback.
Proof.
  destruct r as [message | content]; simpl; [reflexivity |].
  intros H. rewrite H. reflexivity.
Qed.

Lemma onLogin_precomputed (this : Handler) (callback : callback)
    (props : list (string * jsval)) (userData : jsval) (w : world) :
  assoc_get "userData" props = Some userData ->
  userData <> JUndefined -> userData <> JNull ->
  truthy (default JUndefined (assoc_get "blacklistedPackages" props)) = true ->
  onLogin this (JObj props) callback w
  = callback JFalse (JObj (with_settings props))
      (World (with_user userData (session w)) (trace w)).
Proof.
  intros Hdata Hu Hn Hbl. unfold onLogin. cbn [get_prop set_prop].
  rewrite !bind_ret. fold (with_settings props).
  cbn [get_prop]. rewrite bind_ret.
  rewrite assoc_get_with_settings by reflexivity.
  rewrite Hdata. cbn [default].
  rewrite setUserData_record by assumption.
  rewrite bind_ret.
  rewrite assoc_get_with_settings by reflexivity.
  rewrite Hbl. reflexivity.
Qed.

Lemma onSystemLogin_run (_fs : FileSystem) (this : Handler)
    (cfg : SystemConfig) (username : string) (uid : jsval) (callback : callback)
    (w : world) :
  (forall content, readFile_result _fs (cfg_groups cfg) = ReadData content ->
                   JSON_parse_text content <> Some JNull) ->
  onSystemLogin _fs this cfg username (fun cb => cb uid) callback w
  = callback JFalse
      (JObj [("userData", system_user uid username (system_groups _fs cfg username));
             ("userSettings", js_or (system_settings _fs cfg username) (JObj []));
             ("blacklistedPackages", system_blacklist _fs cfg username)])
      (World (with_user (system_user uid username (system_groups _fs cfg username))
                (session w))
         (trace w)).
Proof.
  intros Hnull. unfold onSystemLogin.
  rewrite onSystemLogin_getUserSettings_run.
  rewrite onSystemLogin_getUserGroups_run by exact Hnull.
  rewrite onSystemLogin_getUserBlacklist_run.
  unfold onSystemLogin_done.
  rewrite (onLogin_precomputed _ _ _
             (system_user uid username (system_groups _fs cfg username)));
    [reflexivity | reflexivity | discriminate | discriminate |].
  cbn [assoc_get String.eqb Ascii.eqb Bool.eqb default id].
  unfold system_blacklist. apply js_or_array_truthy.
Qed.

Lemma system_files_groups (_fs : FileSystem) (cfg : SystemConfig) (username : string) :
  system_files _fs cfg username ->
  forall content, readFile_result _fs (cfg_groups cfg) = ReadData content ->
                  JSON_parse_text content <> Some JNull.
Proof.
  intros (_ & (_ & Hobject) & _) content Hfile Hnull.
  rewrite Hfile in Hobject. destruct (Hobject JNull Hnull) as [props Hprops].
  discriminate Hprops.
Qed.

(** C8, with the failing input.  On a disk without settings file whose
    groups file holds the JSON text null, [list[login.username]] throws
    outside any [try] and no login takes place, where the claim has a
    login with the groups [[]]; the blacklist path has the same access
    inside its [try].  Away from it the claim holds, for every handler,
    every username that is not the name of a member every object
    inherits, and every disk whose three files are within the model (each
    of them missing or a plain text; the two registries, where they are
    JSON, holding an object): a read failure or a parse failure of a file
    is not reported, the empty settings object, the empty group list and
    the empty blacklist stand in for the settings file, the groups file
    and the blacklist file, and a system login whose user id resolves to
    [uid] stores the username and the serialized groups in the session and
    calls back once, without error, with the record assembled from
    [{id, username, name = username, groups}], the settings and the
    blacklist. *)
Theorem system_login_defaults :
  onSystemLogin null_registry_disk (DefaultHandler plain_server) home_config "alice"
    (fun cb => cb (JNum 1000)) record (World ∅ [])
  = Throw TypeError (World ∅ [])
  /\ forall (_fs : FileSystem) (this : Handler) (cfg : SystemConfig)
       (username : string) (uid : jsval) (w : world),
  username ∉ Object_prototype_names ->
  system_files _fs cfg username ->
  onSystemLogin _fs this cfg username (fun cb => cb uid) record w
  = Ret tt
      (World
         (<["groups" := JSON_stringify (system_groups _fs cfg username)]>
            (<["username" := JStr username]> (session w)))
         (trace w ++
          [Callback JFalse
             (JObj [("userData",
                     system_user uid username (system_groups _fs cfg username));
                    ("userSettings",
                     js_or (system_settings _fs cfg username) (JObj []));
                    ("blacklistedPackages",
                     system_blacklist _fs cfg username)])]))
  /\ (unreadable (readFile_result _fs (getSettingsPath cfg (JStr username))) ->
      system_settings _fs cfg username = JObj [])
  /\ (unreadable (readFile_result _fs (cfg_groups cfg)) ->
      system_groups _fs cfg username = JArr [])
  /\ (unreadable (readFile_result _fs (cfg_blacklist cfg)) ->
      system_blacklist _fs cfg username = JArr []).
Proof.
  split; [vm_compute; reflexivity |].
  intros _fs this cfg username uid w _ Hfiles.
  split; [| split; [| split]].
  - rewrite onSystemLogin_run by (apply (system_files_groups _fs cfg username Hfiles)).
    reflexivity.
  - intros H. unfold system_settings. apply parsed_or_unreadable. exact H.
  - intros H. unfold system_groups. rewrite parsed_or_unreadable by exact H.
    reflexivity.
  - intros H. unfold system_blacklist. rewrite parsed_or_unreadable by exact H.
    reflexivity.
Qed.

Lemma system_login_defaults_witness :
  ("alice" ∉ Object_prototype_names)
  /\ system_files empty_disk home_config "alice"
  /\ onSystemLogin empty_disk (DefaultHandler plain_server) home_config "alice"
       (fun cb => cb (JNum 1000)) record (World ∅ [])
     = Ret tt
         (World {[ "username" := JStr "alice"; "groups" := JStr "[]" ]}
            [Callback JFalse
               (JObj [("userData", system_user (JNum 1000) "alice" (JArr []));
                      ("userSettings", JObj []);
                      ("blacklistedPackages", JArr [])])]).
Proof.
  assert (Hown : "alice" ∉ Object_prototype_names)
    by (apply (bool_decide_unpack _); vm_compute; exact I).
  assert (Hfiles : system_files empty_disk home_config "alice")
    by (repeat split).
  split; [exact Hown | split; [exact Hfiles |]].
  destruct system_login_defaults as (_ & Hlaw).
  destruct (Hlaw empty_disk (DefaultHandler plain_server) home_config "alice"
              (JNum 1000) (World ∅ []) Hown Hfiles) as (Hrun & _).
  etransitivity; [exact Hrun |].
  vm_compute. reflexivity.
Defined.

(** ** Persisting the settings *)

Lemma GetSubstitution_dollar_free (matched before after replacement : string) :
  dollar_free replacement = true ->
  GetSubstitution matched before after replacement = replacement.
Proof.
  induction replacement as [|c rest IH]; simpl; [reflexivity |].
  destruct (nat_of_ascii c =? 36)%nat; simpl; [discriminate |].
  intros H. rewrite IH by exact H. reflexivity.
Qed.

Lemma String_replace_dollar_free (s pattern replacement : string) :
  dollar_free replacement = true ->
  String_replace s pattern replacement = replace_first s pattern replacement.
Proof.
  intros H. unfold String_replace, replace_first.
  destruct (String.index 0 pattern s); [| reflexivity].
  rewrite GetSubstitution_dollar_free by exact H. reflexivity.
Qed.

Example getSettingsPath_alice :
  getSettingsPath home_config (JStr "alice") = "/home/alice/.osjs/settings.json".
Proof. vm_compute. reflexivity. Qed.

(** C9, with the failing input.  [onSystemSettings] creates the directory
    of the settings path, then writes the JSON text of the settings to
    that path whatever the directory creation answered, and calls back
    once: with [(error, true)] when the write failed and with
    [(false, false)] when it succeeded; the session is untouched.  The
    path is [/root] for the user root and otherwise the result of
    [String.prototype.replace] on the template.  For a username without a
    dollar sign that is the template with its first [%USERNAME%] replaced
    by the username, as the claim has it.  A username such as [$&] is read
    by [replace] as a replacement pattern: the placeholder is replaced by
    itself and the path is the template, not the template with the
    username in it. *)
Theorem persist_settings :
  (onSystemSettings dirname_of empty_disk (DefaultHandler plain_server) home_config
     (JObj [("theme", JStr "dark")]) record (logged_in "$&" [])
   = Ret tt
       (World (session (logged_in "$&" []))
          [Mkdir "/home/%USERNAME%/.osjs";
           WriteFile "/home/%USERNAME%/.osjs/settings.json"
             (JStr ("{" +:+ quote "theme" +:+ ":" +:+ quote "dark" +:+ "}"));
           Callback JFalse JFalse])
   /\ replace_first (cfg_settings home_config) "%USERNAME%" "$&"
      = "/home/$&/.osjs/settings.json")
  /\ forall (_path_dirname : string -> string) (_fs : FileSystem) (this : Handler)
       (cfg : SystemConfig) (settings : jsval) (w : world),
  onSystemSettings _path_dirname _fs this cfg settings record w
  = Ret tt
      (World (session w)
         (trace w ++
          [Mkdir (_path_dirname (getSettingsPath cfg (stored w "username")));
           WriteFile (getSettingsPath cfg (stored w "username"))
             (JSON_stringify settings);
           write_report
             (writeFile_result _fs (getSettingsPath cfg (stored w "username"))
                (JSON_stringify settings))]))
  /\ getSettingsPath cfg (JStr "root") = "/root"
  /\ (forall username,
         username <> "root" ->
         getSettingsPath cfg (JStr username)
         = String_replace (cfg_settings cfg) "%USERNAME%" username)
  /\ (forall username,
         username <> "root" -> dollar_free username = true ->
         getSettingsPath cfg (JStr username)
         = replace_first (cfg_settings cfg) "%USERNAME%" username).
Proof.
  split; [vm_compute; split; reflexivity |].
  intros _path_dirname _fs this cfg settings w.
  assert (Hpath : forall username, username <> "root" ->
            getSettingsPath cfg (JStr username)
            = String_replace (cfg_settings cfg) "%USERNAME%" username).
  { intros username Hne. unfold getSettingsPath. cbn [strict_eq ToString].
    destruct (String.eqb username "root") eqn:E; [| reflexivity].
    apply String.eqb_eq in E. congruence. }
  split; [| split; [reflexivity | split; [exact Hpath |]]].
  - unfold onSystemSettings, getUserName, mkdir, writeFile, write_report. run.
    fold (stored w "username").
    destruct (writeFile_result _fs _ _); unfold emit; simpl;
      rewrite <- !app_assoc; reflexivity.
  - intros username Hne Hfree. rewrite Hpath by exact Hne.
    apply String_replace_dollar_free. exact Hfree.
Qed.

Lemma persist_settings_witness :
  "alice" <> "root"
  /\ dollar_free "alice" = true
  /\ getSettingsPath home_config (JStr "alice")
     = replace_first (cfg_settings home_config) "%USERNAME%" "alice"
  /\ onSystemSettings dirname_of full_disk (DefaultHandler plain_server) home_config
       (JObj [("theme", JStr "dark")]) record (logged_in "alice" [])
     = Ret tt
         (World (session (logged_in "alice" []))
            [Mkdir "/home/alice/.osjs";
             WriteFile "/home/alice/.osjs/settings.json"
               (JStr ("{" +:+ quote "theme" +:+ ":" +:+ quote "dark" +:+ "}"));
             Callback (JError "ENOSPC") JTrue]).
Proof.
  destruct persist_settings as (_ & Hlaw).
  destruct (Hlaw dirname_of full_disk (DefaultHandler plain_server)
              home_config (JObj [("theme", JStr "dark")]) (logged_in "alice" []))
    as (Hrun & _ & _ & Hliteral).
  split; [discriminate |].
  split; [reflexivity |].
  split; [apply Hliteral; [discriminate | reflexivity] |].
  etransitivity; [exact Hrun |].
  vm_compute. reflexivity.
Defined.

(** ** Method registration *)

Lemma list_indexOf_member (l : list string) (x : string) (i : Z) :
  0 <= i -> (list_indexOf l x i <? 0) = negb (bool_decide (x ∈ l)).
Proof.
  revert i. induction l as [|y l IH]; intros i Hi; simpl.
  - reflexivity.
  - destruct (String.eqb y x) eqn:E.
    + apply String.eqb_eq in E. subst y.
      rewrite bool_decide_eq_true_2 by apply list_elem_of_here.
      apply Z.ltb_ge. exact Hi.
    + apply String.eqb_neq in E. rewrite IH by lia.
      f_equal. apply bool_decide_ext. rewrite elem_of_cons.
      split; [intros H; right; exact H | intros [H|H]; [congruence | exact H]].
Qed.

Lemma registerAPIMethod_cases (handler : PrivilegeChecks) (instance : Tables)
    (fn : string) (fref : method) :
  registerAPIMethod handler instance fn fref
  = match api instance !! fn with
    | Some _ => instance
    | None =>
        if bool_decide (fn ∈ Object_prototype_names) then instance
        else if list_indexOf ignorePrivilegesAPI fn 0 <? 0
        then {| api := <[fn := wrap_api handler fn fref]> (api instance);
                vfs := vfs instance |}
        else {| api := <[fn := fref]> (api instance); vfs := vfs instance |}
    end.
Proof.
  unfold registerAPIMethod, member_truthy.
  destruct (api instance !! fn); [reflexivity |].
  destruct (bool_decide (fn ∈ Object_prototype_names)); reflexivity.
Qed.

Lemma registerVFSMethod_cases (handler : PrivilegeChecks) (instance : Tables)
    (fn : string) (fref : method) :
  registerVFSMethod handler instance fn fref
  = match vfs instance !! fn with
    | Some _ => instance
    | None =>
        if bool_decide (fn ∈ Object_prototype_names) then instance
        else if list_indexOf ignorePrivilegesVFS fn 0 <? 0
        then {| api := api instance;
                vfs := <[fn := wrap_vfs handler fn fref]> (vfs instance) |}
        else {| api := api instance; vfs := <[fn := fref]> (vfs instance) |}
    end.
Proof.
  unfold registerVFSMethod, member_truthy.
  destruct (vfs instance !! fn); [reflexivity |].
  destruct (bool_decide (fn ∈ Object_prototype_names)); reflexivity.
Qed.

Lemma registerAPIMethod_present (handler : PrivilegeChecks) (instance : Tables)
    (fn : string) (fref : method) :
  is_Some (api instance !! fn) -> registerAPIMethod handler instance fn fref = instance.
Proof. intros [m H]. rewrite registerAPIMethod_cases. rewrite H. reflexivity. Qed.

Lemma registerVFSMethod_present (handler : PrivilegeChecks) (instance : Tables)
    (fn : string) (fref : method) :
  is_Some (vfs instance !! fn) -> registerVFSMethod handler instance fn fref = instance.
Proof. intros [m H]. rewrite registerVFSMethod_cases. rewrite H. reflexivity. Qed.

Lemma registerAPIMethod_inherited (handler : PrivilegeChecks) (instance : Tables)
    (fn : string) (fref : method) :
  fn ∈ Object_prototype_names -> registerAPIMethod handler instance fn fref = instance.
Proof.
  intros H. rewrite registerAPIMethod_cases.
  destruct (api instance !! fn); [reflexivity |].
  rewrite bool_decide_eq_true_2 by exact H. reflexivity.
Qed.

Lemma registerVFSMethod_inherited (handler : PrivilegeChecks) (instance : Tables)
    (fn : string) (fref : method) :
  fn ∈ Object_prototype_names -> registerVFSMethod handler instance fn fref = instance.
Proof.
  intros H. rewrite registerVFSMethod_cases.
  destruct (vfs instance !! fn); [reflexivity |].
  rewrite bool_decide_eq_true_2 by exact H. reflexivity.
Qed.

Lemma registerAPIMethod_entry (handler : PrivilegeChecks) (instance : Tables)
    (fn : string) (fref : method) :
  api instance !! fn = None ->
  fn ∉ Object_prototype_names ->
  api (registerAPIMethod handler instance fn fref) !! fn
  = Some (if bool_decide (fn ∈ ignorePrivilegesAPI) then fref
          else wrap_api handler fn fref).
Proof.
  intros H Hown. rewrite registerAPIMethod_cases. rewrite H.
  rewrite bool_decide_eq_false_2 by exact Hown.
  rewrite list_indexOf_member by lia.
  destruct (bool_decide (fn ∈ ignorePrivilegesAPI)); simpl;
    rewrite lookup_insert_eq; reflexivity.
Qed.

Lemma registerVFSMethod_entry (handler : PrivilegeChecks) (instance : Tables)
    (fn : string) (fref : method) :
  vfs instance !! fn = None ->
  fn ∉ Object_prototype_names ->
  vfs (registerVFSMethod handler instance fn fref) !! fn
  = Some (if bool_decide (fn ∈ ignorePrivilegesVFS) then fref
          else wrap_vfs handler fn fref).
Proof.
  intros H Hown. rewrite registerVFSMethod_cases. rewrite H.
  rewrite bool_decide_eq_false_2 by exact Hown.
  rewrite list_indexOf_member by lia.
  destruct (bool_decide (fn ∈ ignorePrivilegesVFS)); simpl;
    rewrite lookup_insert_eq; reflexivity.
Qed.

Lemma registerAPIMethod_twice (handler : PrivilegeChecks) (instance : Tables)
    (fn : string) (fref other : method) :
  registerAPIMethod handler (registerAPIMethod handler instance fn fref) fn other
  = registerAPIMethod handler instance fn fref.
Proof.
  destruct (decide (fn ∈ Object_prototype_names)) as [Hin | Hown].
  - rewrite !registerAPIMethod_inherited by exact Hin. reflexivity.
  - apply registerAPIMethod_present.
    destruct (api instance !! fn) as [m|] eqn:E.
    + rewrite registerAPIMethod_present by (rewrite E; eexists; reflexivity).
      rewrite E. eexists; reflexivity.
    + rewrite registerAPIMethod_entry by assumption. eexists; reflexivity.
Qed.

Lemma registerVFSMethod_twice (handler : PrivilegeChecks) (instance : Tables)
    (fn : string) (fref other : method) :
  registerVFSMethod handler (registerVFSMethod handler instance fn fref) fn other
  = registerVFSMethod handler instance fn fref.
Proof.
  destruct (decide (fn ∈ Object_prototype_names)) as [Hin | Hown].
  - rewrite !registerVFSMethod_inherited by exact Hin. reflexivity.
  - apply registerVFSMethod_present.
    destruct (vfs instance !! fn) as [m|] eqn:E.
    + rewrite registerVFSMethod_present by (rewrite E; eexists; reflexivity).
      rewrite E. eexists; reflexivity.
    + rewrite registerVFSMethod_entry by assumption. eexists; reflexivity.
Qed.

(** C6, as amended.  A name is taken in a method table when the table
    holds a method under it, and also when it names a member that every
    object inherits (toString, constructor and the like).  Registering
    under a taken name leaves the tables unchanged, so registering twice is
    registering once: the first handler stays.  For a name that was not
    taken, the entry after two registrations is the first handler under
    exactly one wrapping layer, or, for a name on the ignore list, the
    first handler itself with no layer.  One layer asks the handler object
    for each check once per invocation: the API check for an API method;
    the API check for fs and then the VFS check for a VFS method. *)
Theorem registration_idempotent (handler : PrivilegeChecks) (instance : Tables)
    (fn : string) (fref other : method) :
  (is_Some (api instance !! fn) ->
   registerAPIMethod handler instance fn other = instance)
  /\ (is_Some (vfs instance !! fn) ->
      registerVFSMethod handler instance fn other = instance)
  /\ (fn ∈ Object_prototype_names ->
      registerAPIMethod handler instance fn other = instance
      /\ registerVFSMethod handler instance fn other = instance)
  /\ registerAPIMethod handler (registerAPIMethod handler instance fn fref) fn other
     = registerAPIMethod handler instance fn fref
  /\ registerVFSMethod handler (registerVFSMethod handler instance fn fref) fn other
     = registerVFSMethod handler instance fn fref
  /\ (api instance !! fn = None -> fn ∉ Object_prototype_names ->
      api (registerAPIMethod handler
             (registerAPIMethod handler instance fn fref) fn other) !! fn
      = Some (if bool_decide (fn ∈ ignorePrivilegesAPI) then fref
              else wrap_api handler fn fref))
  /\ (vfs instance !! fn = None -> fn ∉ Object_prototype_names ->
      vfs (registerVFSMethod handler
             (registerVFSMethod handler instance fn fref) fn other) !! fn
      = Some (if bool_decide (fn ∈ ignorePrivilegesVFS) then fref
              else wrap_vfs handler fn fref))
  /\ (forall args callback w,
         wrap_api probe fn fref args callback w
         = fref args callback
             (World (session w) (trace w ++ [Note "checkAPIPrivilege" (JStr fn)])))
  /\ (forall args callback w,
         wrap_vfs probe fn fref args callback w
         = fref args callback
             (World (session w)
                (trace w ++ [Note "checkAPIPrivilege" (JStr "fs");
                             Note "checkVFSPrivilege" (JStr fn)]))).
Proof.
  split; [apply registerAPIMethod_present |].
  split; [apply registerVFSMethod_present |].
  split.
  { intros H. split;
      [apply registerAPIMethod_inherited | apply registerVFSMethod_inherited];
      exact H. }
  split; [apply registerAPIMethod_twice |].
  split; [apply registerVFSMethod_twice |].
  split.
  { intros H Hown. rewrite registerAPIMethod_twice.
    apply registerAPIMethod_entry; assumption. }
  split.
  { intros H Hown. rewrite registerVFSMethod_twice.
    apply registerVFSMethod_entry; assumption. }
  split.
  - intros args callback w. reflexivity.
  - intros args callback w. unfold wrap_vfs, probe, emit. run.
    rewrite <- app_assoc. reflexivity.
Qed.

Lemma invoke_entry (table : gmap string method) (fn : string) (f : method)
    (args : jsval) (callback : callback) (w : world) :
  table !! fn = Some f -> invoke table fn args callback w = f args callback w.
Proof. intros H. unfold invoke. rewrite H. reflexivity. Qed.

Lemma registration_idempotent_witness :
  api no_methods !! "logout" = None
  /\ ("logout" ∉ Object_prototype_names)
  /\ invoke (api (registerAPIMethod probe
                    (registerAPIMethod probe no_methods "logout" echo) "logout"
                    (fun _ callback => callback (JStr "second") JUndefined)))
       "logout" (JStr "bye") record (World ∅ [])
     = Ret tt (World ∅ [Note "checkAPIPrivilege" (JStr "logout");
                        Callback JFalse (JStr "bye")]).
Proof.
  assert (Hown : "logout" ∉ Object_prototype_names)
    by (apply (bool_decide_unpack _); vm_compute; exact I).
  split; [reflexivity | split; [exact Hown |]].
  destruct (registration_idempotent probe no_methods "logout" echo
              (fun _ callback => callback (JStr "second") JUndefined))
    as (_ & _ & _ & _ & _ & Hentry & _).
  rewrite (invoke_entry _ _ _ _ _ _ (Hentry eq_refl Hown)).
  vm_compute. reflexivity.
Defined.

(** C6, counterexample.  The name login is on the ignore list: registered
    twice it has no wrapping layer, and invoking it runs no privilege
    check, where the claim has exactly one of each. *)
Lemma login_registered_unwrapped :
  api (registerAPIMethod probe (registerAPIMethod probe no_methods "login" echo)
         "login" echo) !! "login" = Some echo
  /\ invoke (api (registerAPIMethod probe
                    (registerAPIMethod probe no_methods "login" echo) "login" echo))
       "login" (JStr "hello") record (World ∅ [])
     = Ret tt (World ∅ [Callback JFalse (JStr "hello")])
  /\ checks [Callback JFalse (JStr "hello")] = 0%nat.
Proof. vm_compute. repeat split; reflexivity. Qed.

(** ** What login stores, the checks read back *)

Lemma parse_chars_quote_chars (s rest : string) :
  parse_chars (quote_chars s +:+ String (ascii_of_nat 34) rest) = Some (s, rest).
Proof.
  induction s as [|c s IH].
  - reflexivity.
  - destruct c as [[] [] [] [] [] [] [] []];
      cbn -[parse_chars quote_chars];
      cbn [quote_chars nat_of_ascii];
      simpl; rewrite IH; reflexivity.
Qed.

Lemma append_assoc (a b c : string) : (a +:+ b) +:+ c = a +:+ (b +:+ c).
Proof.
  induction a as [|x a IH]; [reflexivity |].
  change (String x ((a +:+ b) +:+ c) = String x (a +:+ (b +:+ c))).
  rewrite IH. reflexivity.
Qed.

Lemma append_length (a b : string) :
  String.length (a +:+ b) = (String.length a + String.length b)%nat.
Proof.
  induction a as [|x a IH]; [reflexivity |].
  change (S (String.length (a +:+ b)) = S (String.length a + String.length b)).
  rewrite IH. reflexivity.
Qed.

Lemma fold_join_prefix (sep a b : string) (ps : list string) :
  fold_left (fun acc q => acc +:+ sep +:+ q) ps (a +:+ b)
  = a +:+ fold_left (fun acc q => acc +:+ sep +:+ q) ps b.
Proof.
  revert b. induction ps as [|r ps IH]; intros b; [reflexivity |].
  cbn [fold_left]. rewrite append_assoc. apply IH.
Qed.

Lemma join_with_cons (sep p q : string) (ps : list string) :
  join_with sep (p :: q :: ps) = p +:+ sep +:+ join_with sep (q :: ps).
Proof.
  unfold join_with. cbn [fold_left]. rewrite !fold_join_prefix. reflexivity.
Qed.

Lemma parse_value_string (fuel : nat) (body : string) :
  parse_value (S fuel) (String (ascii_of_nat 34) body)
  = match parse_chars body with
    | Some (str, r) => Some (JStr str, r)
    | None => None
    end.
Proof.
  cbn [parse_value]. cbv zeta.
  change (skip_ws (String (ascii_of_nat 34) body)) with (String (ascii_of_nat 34) body).
  change (strip_prefix "null" (String (ascii_of_nat 34) body)) with (@None string).
  change (strip_prefix "true" (String (ascii_of_nat 34) body)) with (@None string).
  change (strip_prefix "false" (String (ascii_of_nat 34) body)) with (@None string).
  change (head_is 34 (String (ascii_of_nat 34) body)) with (Some body).
  reflexivity.
Qed.

Lemma parse_value_quote (fuel : nat) (g rest : string) :
  parse_value (S fuel) (quote g +:+ rest) = Some (JStr g, rest).
Proof.
  unfold quote.
  change (String (ascii_of_nat 34) (quote_chars g +:+ String (ascii_of_nat 34) "")
          +:+ rest)
    with (String (ascii_of_nat 34)
            ((quote_chars g +:+ String (ascii_of_nat 34) "") +:+ rest)).
  rewrite append_assoc.
  change (String (ascii_of_nat 34) "" +:+ rest) with (String (ascii_of_nat 34) rest).
  rewrite parse_value_string, parse_chars_quote_chars. reflexivity.
Qed.

Lemma parse_elements_names (value : string -> option (jsval * string)) (n : nat)
    (g : string) (gs : list string) (acc : list jsval) (rest : string) :
  (forall x r, value (quote x +:+ r) = Some (JStr x, r)) ->
  (length gs < n)%nat ->
  parse_elements value n (join_with "," (map quote (g :: gs)) +:+ String "]" rest) acc
  = Some (JArr (rev acc ++ map JStr (g :: gs)), rest).
Proof.
  intros Hvalue. revert n g acc. induction gs as [|g' gs IH]; intros n g acc Hn.
  - destruct n as [|n]; [lia |].
    cbn [map join_with fold_left parse_elements]. rewrite Hvalue.
    cbn. reflexivity.
  - destruct n as [|n]; [simpl in Hn; lia |].
    cbn [map]. rewrite join_with_cons. rewrite !append_assoc.
    cbn [parse_elements]. rewrite Hvalue.
    change (skip_ws ("," +:+ ?x)) with ("," +:+ x).
    change (head_is 44 ("," +:+ ?x)) with (Some x).
    cbv iota zeta.
    change (quote g' :: map quote gs) with (map quote (g' :: gs)).
    rewrite IH by (simpl in Hn; lia).
    cbn [rev map]. rewrite <- app_assoc. reflexivity.
Qed.

Lemma join_quote_length (gs : list string) :
  (length gs <= String.length (join_with "," (map quote gs)))%nat.
Proof.
  induction gs as [|g gs IH]; [simpl; lia |].
  destruct gs as [|g' gs].
  - cbn [map join_with fold_left length]. unfold quote.
    cbn [String.length]. apply le_n_S, Nat.le_0_l.
  - cbn [map]. rewrite join_with_cons. rewrite !append_length.
    cbn [map length] in *. change (String.length ",") with 1%nat.
    assert (Hq : (1 <= String.length (quote g))%nat)
      by (unfold quote; cbn [String.length]; apply le_n_S, Nat.le_0_l).
    lia.
Qed.

Lemma join_quote_head (g : string) (gs : list string) (rest : string) :
  exists body,
    join_with "," (map quote (g :: gs)) +:+ rest = String (ascii_of_nat 34) body.
Proof.
  destruct gs as [|g' gs].
  - cbn [map join_with fold_left]. unfold quote. eexists. reflexivity.
  - cbn [map]. rewrite join_with_cons. unfold quote at 1. eexists. reflexivity.
Qed.

Lemma stringify_names (gs : list string) :
  JSON_stringify (JArr (map JStr gs))
  = JStr ("[" +:+ join_with "," (map quote gs) +:+ "]").
Proof.
  unfold JSON_stringify. cbn [stringify_value]. rewrite map_map. reflexivity.
Qed.

Lemma parse_value_array (fuel : nat) (rest : string) :
  parse_value (S fuel) (String "[" rest)
  = match head_is 93 (skip_ws rest) with
    | Some r => Some (JArr [], r)
    | None => parse_elements (parse_value fuel) fuel rest []
    end.
Proof.
  cbn [parse_value]. cbv zeta.
  change (skip_ws (String "[" rest)) with (String "[" rest).
  change (strip_prefix "null" (String "[" rest)) with (@None string).
  change (strip_prefix "true" (String "[" rest)) with (@None string).
  change (strip_prefix "false" (String "[" rest)) with (@None string).
  change (head_is 34 (String "[" rest)) with (@None string).
  change (head_is 91 (String "[" rest)) with (Some rest).
  reflexivity.
Qed.

(** A list of names survives [JSON.stringify] followed by [JSON.parse]. *)
Lemma JSON_parse_stringify_names (gs : list string) :
  JSON_parse (JSON_stringify (JArr (map JStr gs))) = Some (JArr (map JStr gs)).
Proof.
  rewrite stringify_names. unfold JSON_parse. cbn [ToString].
  unfold JSON_parse_text.
  set (body := join_with "," (map quote gs)).
  change ("[" +:+ body +:+ "]") with (String "[" (body +:+ "]")).
  cbn [String.length]. rewrite append_length. cbn [String.length].
  replace (S (String.length body + 1)) with (S (S (String.length body))) by lia.
  rewrite parse_value_array.
  destruct gs as [|g gs].
  - reflexivity.
  - destruct (join_quote_head g gs "]") as [inner Hinner].
    fold body in Hinner. rewrite Hinner.
    change (skip_ws (String (ascii_of_nat 34) inner))
      with (String (ascii_of_nat 34) inner).
    change (head_is 93 (String (ascii_of_nat 34) inner)) with (@None string).
    cbv iota. rewrite <- Hinner. unfold body.
    rewrite (parse_elements_names _ _ g gs [] "").
    + reflexivity.
    + intros x r. apply parse_value_quote.
    + pose proof (join_quote_length (g :: gs)) as Hlen. fold body in Hlen.
      cbn [length] in Hlen. fold body. lia.
Qed.

Lemma user_groups_logged_in (username : string) (gs : list string) :
  user_groups (logged_in username gs) gs.
Proof.
  unfold user_groups, stored, logged_in. cbn [session].
  rewrite lookup_insert_ne by discriminate. rewrite lookup_singleton_eq.
  apply JSON_parse_stringify_names.
Qed.

Lemma user_groups_with_user (s : gmap string jsval) (events : list event)
    (userData : jsval) (gs : list string) :
  lookup_prop userData "groups" = JArr (map JStr gs) ->
  user_groups (World (with_user userData s) events) gs.
Proof.
  intros H. unfold user_groups, stored, with_user. cbn [session].
  rewrite lookup_insert_eq. cbn [default]. rewrite H.
  apply JSON_parse_stringify_names.
Qed.

(** ** Further properties *)

(** X1.  What [setUserData] stores for a user record whose groups are a
    list of names, [getUserGroups] reads back as that list. *)
Theorem groups_read_back (this : Handler) (userData : jsval) (gs : list string)
    (w : world) :
  userData <> JUndefined -> userData <> JNull ->
  lookup_prop userData "groups" = JArr (map JStr gs) ->
  exists w',
    setUserData this userData record w = Ret tt w'
    /\ getUserGroups this w' = Ret (JArr (map JStr gs)) w'.
Proof.
  intros Hu Hn Hgroups. eexists. split.
  - rewrite setUserData_record by assumption. reflexivity.
  - apply getUserGroups_of. apply user_groups_with_user. exact Hgroups.
Qed.

Lemma groups_read_back_witness :
  exists w',
    setUserData (DefaultHandler plain_server)
      (JObj [("username", JStr "alice"); ("groups", JArr [JStr "users"; JStr "a b"])])
      record (World ∅ []) = Ret tt w'
    /\ getUserGroups (DefaultHandler plain_server) w'
       = Ret (JArr [JStr "users"; JStr "a b"]) w'.
Proof.
  exact (groups_read_back (DefaultHandler plain_server)
           (JObj [("username", JStr "alice"); ("groups", JArr [JStr "users"; JStr "a b"])])
           ["users"; "a b"] (World ∅ [])
           ltac:(discriminate) ltac:(discriminate) eq_refl).
Defined.

(** X2.  On a request that passes the session gate, the table
    [api.groups] being a plain object or missing: an API method whose name
    is not that of a member every object inherits, and that the table does
    not list or lists with a falsy requirement, is allowed, whatever the
    session's groups hold. *)
Theorem checkAPIPrivilege_unlisted (this : Handler) (w : world) (fn : string) :
  has_session this w ->
  plain_table (config_api_groups (instance this)) ->
  fn ∉ Object_prototype_names ->
  truthy (api_requirement (config_api_groups (instance this)) (JStr fn)) = false ->
  allows (checkAPIPrivilege this (JStr fn)) w.
Proof.
  intros Hs _ _ Hreq. unfold allows, checkAPIPrivilege.
  rewrite _checkHasSession_passes by exact Hs. cbn [truthy JFalse].
  unfold _checkHasAPIPrivilege. unfold api_requirement in Hreq.
  destruct (truthy (config_api_groups (instance this))) eqn:Em.
  - destruct (truthy (JStr fn)) eqn:Ep.
    + rewrite (bind_run _ _ _ _ _ (get_prop_truthy _ _ w Em)).
      rewrite Hreq. reflexivity.
    + rewrite bind_ret, Ep. reflexivity.
  - rewrite bind_ret, Em. reflexivity.
Qed.

Lemma checkAPIPrivilege_unlisted_witness :
  has_session (DefaultHandler fs_for_users_server) (logged_in "alice" [])
  /\ plain_table (config_api_groups (instance (DefaultHandler fs_for_users_server)))
  /\ ("curl" ∉ Object_prototype_names)
  /\ allows (checkAPIPrivilege (DefaultHandler fs_for_users_server) (JStr "curl"))
       (logged_in "alice" []).
Proof.
  assert (Hs : has_session (DefaultHandler fs_for_users_server) (logged_in "alice" []))
    by (right; vm_compute; reflexivity).
  assert (Hown : "curl" ∉ Object_prototype_names)
    by (apply (bool_decide_unpack _); vm_compute; exact I).
  split; [exact Hs | split; [exact I | split; [exact Hown |]]].
  apply (checkAPIPrivilege_unlisted _ _ _ Hs I Hown). vm_compute. reflexivity.
Defined.



Lemma registerAPIMethod_keeps (handler : PrivilegeChecks) (instance : Tables)
    (fn : string) (fref : method) (k : string) :
  (is_Some (api instance !! k) ->
   is_Some (api (registerAPIMethod handler instance fn fref) !! k))
  /\ vfs (registerAPIMethod handler instance fn fref) = vfs instance
  /\ (fn ∉ Object_prototype_names ->
      is_Some (api (registerAPIMethod handler instance fn fref) !! fn)).
Proof.
  rewrite registerAPIMethod_cases.
  destruct (api instance !! fn) as [m|] eqn:E.
  - rewrite E. repeat split; [tauto | eexists; reflexivity].
  - destruct (bool_decide (fn ∈ Object_prototype_names)) eqn:Enames.
    { repeat split; [tauto |]. intros Hown.
      apply bool_decide_eq_true_1 in Enames. contradiction. }
    destruct (list_indexOf ignorePrivilegesAPI fn 0 <? 0); cbn [api vfs];
      (repeat split;
       [intros [m Hm]; destruct (decide (fn = k)) as [->|Hne];
        [rewrite lookup_insert_eq; eexists; reflexivity
        |rewrite lookup_insert_ne by exact Hne; rewrite Hm; eexists; reflexivity]
       |intros _; rewrite lookup_insert_eq; eexists; reflexivity]).
Qed.

Lemma registerVFSMethod_keeps (handler : PrivilegeChecks) (instance : Tables)
    (fn : string) (fref : method) (k : string) :
  (is_Some (vfs instance !! k) ->
   is_Some (vfs (registerVFSMethod handler instance fn fref) !! k))
  /\ api (registerVFSMethod handler instance fn fref) = api instance
  /\ (fn ∉ Object_prototype_names ->
      is_Some (vfs (registerVFSMethod handler instance fn fref) !! fn)).
Proof.
  rewrite registerVFSMethod_cases.
  destruct (vfs instance !! fn) as [m|] eqn:E.
  - rewrite E. repeat split; [tauto | eexists; reflexivity].
  - destruct (bool_decide (fn ∈ Object_prototype_names)) eqn:Enames.
    { repeat split; [tauto |]. intros Hown.
      apply bool_decide_eq_true_1 in Enames. contradiction. }
    destruct (list_indexOf ignorePrivilegesVFS fn 0 <? 0); cbn [api vfs];
      (repeat split;
       [intros [m Hm]; destruct (decide (fn = k)) as [->|Hne];
        [rewrite lookup_insert_eq; eexists; reflexivity
        |rewrite lookup_insert_ne by exact Hne; rewrite Hm; eexists; reflexivity]
       |intros _; rewrite lookup_insert_eq; eexists; reflexivity]).
Qed.

Lemma register_api_all_keeps (handler : PrivilegeChecks)
    (methods : list (string * method)) (instance : Tables) (k : string) :
  is_Some (api instance !! k) ->
  is_Some (api (fold_left (fun inst kv => registerAPIMethod handler inst (fst kv) (snd kv))
                  methods instance) !! k).
Proof.
  revert instance. induction methods as [|[fn f] rest IH]; intros instance H.
  - exact H.
  - cbn [fold_left fst snd]. apply IH.
    apply (registerAPIMethod_keeps handler instance fn f k). exact H.
Qed.

Lemma register_api_all_present (handler : PrivilegeChecks)
    (methods : list (string * method)) (instance : Tables) (k : string) :
  k ∈ map fst methods ->
  k ∉ Object_prototype_names ->
  is_Some (api (fold_left (fun inst kv => registerAPIMethod handler inst (fst kv) (snd kv))
                  methods instance) !! k).
Proof.
  revert instance. induction methods as [|[fn f] rest IH]; intros instance Hin Hown.
  - cbn [map] in Hin. apply elem_of_nil in Hin. destruct Hin.
  - cbn [map fst] in Hin. cbn [fold_left fst snd].
    apply elem_of_cons in Hin. destruct Hin as [-> | Hin].
    + apply register_api_all_keeps.
      apply (registerAPIMethod_keeps handler instance fn f fn). exact Hown.
    + apply IH; assumption.
Qed.

Lemma register_api_all_noop (handler : PrivilegeChecks)
    (methods : list (string * method)) (instance : Tables) :
  (forall k, k ∈ map fst methods ->
             k ∉ Object_prototype_names -> is_Some (api instance !! k)) ->
  fold_left (fun inst kv => registerAPIMethod handler inst (fst kv) (snd kv))
    methods instance = instance.
Proof.
  induction methods as [|[fn f] rest IH]; intros H.
  - reflexivity.
  - cbn [fold_left fst snd].
    assert (Hskip : registerAPIMethod handler instance fn f = instance).
    { destruct (decide (fn ∈ Object_prototype_names)) as [Hin | Hown].
      - apply registerAPIMethod_inherited. exact Hin.
      - apply registerAPIMethod_present. apply H; [| exact Hown].
        cbn [map fst]. apply list_elem_of_here. }
    rewrite Hskip.
    apply IH. intros k Hk. apply H. cbn [map fst]. apply list_elem_of_further. exact Hk.
Qed.

Lemma register_api_all_vfs (handler : PrivilegeChecks)
    (methods : list (string * method)) (instance : Tables) :
  vfs (fold_left (fun inst kv => registerAPIMethod handler inst (fst kv) (snd kv))
         methods instance) = vfs instance.
Proof.
  revert instance. induction methods as [|[fn f] rest IH]; intros instance.
  - reflexivity.
  - cbn [fold_left fst snd]. rewrite IH.
    apply (registerAPIMethod_keeps handler instance fn f fn).
Qed.

Lemma register_vfs_all_keeps (handler : PrivilegeChecks)
    (methods : list (string * method)) (instance : Tables) (k : string) :
  is_Some (vfs instance !! k) ->
  is_Some (vfs (fold_left (fun inst kv => registerVFSMethod handler inst (fst kv) (snd kv))
                  methods instance) !! k).
Proof.
  revert instance. induction methods as [|[fn f] rest IH]; intros instance H.
  - exact H.
  - cbn [fold_left fst snd]. apply IH.
    apply (registerVFSMethod_keeps handler instance fn f k). exact H.
Qed.

Lemma register_vfs_all_present (handler : PrivilegeChecks)
    (methods : list (string * method)) (instance : Tables) (k : string) :
  k ∈ map fst methods ->
  k ∉ Object_prototype_names ->
  is_Some (vfs (fold_left (fun inst kv => registerVFSMethod handler inst (fst kv) (snd kv))
                  methods instance) !! k).
Proof.
  revert instance. induction methods as [|[fn f] rest IH]; intros instance Hin Hown.
  - cbn [map] in Hin. apply elem_of_nil in Hin. destruct Hin.
  - cbn [map fst] in Hin. cbn [fold_left fst snd].
    apply elem_of_cons in Hin. destruct Hin as [-> | Hin].
    + apply register_vfs_all_keeps.
      apply (registerVFSMethod_keeps handler instance fn f fn). exact Hown.
    + apply IH; assumption.
Qed.

Lemma register_vfs_all_noop (handler : PrivilegeChecks)
    (methods : list (string * method)) (instance : Tables) :
  (forall k, k ∈ map fst methods ->
             k ∉ Object_prototype_names -> is_Some (vfs instance !! k)) ->
  fold_left (fun inst kv => registerVFSMethod handler inst (fst kv) (snd kv))
    methods instance = instance.
Proof.
  induction methods as [|[fn f] rest IH]; intros H.
  - reflexivity.
  - cbn [fold_left fst snd].
    assert (Hskip : registerVFSMethod handler instance fn f = instance).
    { destruct (decide (fn ∈ Object_prototype_names)) as [Hin | Hown].
      - apply registerVFSMethod_inherited. exact Hin.
      - apply registerVFSMethod_present. apply H; [| exact Hown].
        cbn [map fst]. apply list_elem_of_here. }
    rewrite Hskip.
    apply IH. intros k Hk. apply H. cbn [map fst]. apply list_elem_of_further. exact Hk.
Qed.

(** X4.  Running [registerMethods] again, as the start-up does, with
    method lists whose names were all in the first run, leaves the tables
    as the first run left them, whatever handlers the second lists carry
    and whichever handler object asks. *)
Theorem registerMethods_again (handler handler' : PrivilegeChecks) (instance : Tables)
    (api_methods vfs_methods api_again vfs_again : list (string * method)) :
  (forall k, k ∈ map fst api_again -> k ∈ map fst api_methods) ->
  (forall k, k ∈ map fst vfs_again -> k ∈ map fst vfs_methods) ->
  registerMethods handler'
    (registerMethods handler instance api_methods vfs_methods) api_again vfs_again
  = registerMethods handler instance api_methods vfs_methods.
Proof.
  intros Hapi Hvfs. unfold registerMethods.
  rewrite (register_vfs_all_noop handler' vfs_again).
  - apply register_api_all_noop. intros k Hk Hown.
    apply register_api_all_present; [apply Hapi; exact Hk | exact Hown].
  - intros k Hk Hown. rewrite register_api_all_vfs.
    apply register_vfs_all_present; [apply Hvfs; exact Hk | exact Hown].
Qed.

Lemma registerMethods_again_witness :
  registerMethods probe
    (registerMethods probe no_methods [("login", echo); ("logout", echo)]
       [("read", echo)])
    [("logout", fun _ callback => callback (JStr "second") JUndefined)]
    [("read", echo)]
  = registerMethods probe no_methods [("login", echo); ("logout", echo)] [("read", echo)].
Proof.
  apply registerMethods_again.
  - intros k Hk. cbn [map fst] in *. apply list_elem_of_further. exact Hk.
  - intros k Hk. exact Hk.
Defined.

(** ** The group check on sessions without a group list *)






(** X6.  The group check reads the user's groups before it looks at the
    requirement: on a session whose groups entry is JSON text for anything
    but a list or a string (null, a number, a boolean, an object), every
    group check throws a TypeError and calls nobody back, also a check
    with no requirement at all.  This is the session [setUserData] leaves
    for a user record whose groups field is [null]. *)
Theorem checkHasGroup_corrupt_groups (this : Handler) (w : world) (v : jsval) :
  JSON_parse (stored w "groups") = Some v ->
  (forall items, v <> JArr items) ->
  (forall s, v <> JStr s) ->
  (forall required callback,
      _checkHasGroup this required callback w = Throw TypeError w)
  /\ (forall userData s events,
         lookup_prop userData "groups" = JNull ->
         JSON_parse (stored (World (with_user userData s) events) "groups")
         = Some JNull).
Proof.
  intros Hparse Harr Hstr. split.
  2: { intros userData s events Hgroups. unfold stored, with_user. cbn [session].
       rewrite lookup_insert_eq. cbn [default]. rewrite Hgroups. reflexivity. }
  intros required callback. unfold _checkHasGroup.
  rewrite groupnames_normal.
  change (negb (String.eqb (typeof (JArr (required_items required))) "boolean"))
    with true.
  cbv iota. rewrite bind_assoc.
  assert (Hg : getUserGroups this w = Ret v w)
    by (rewrite getUserGroups_run, Hparse; reflexivity).
  rewrite (bind_run _ _ _ _ _ Hg).
  destruct v as [ | | b | z | s | items | props | m | c];
    try reflexivity.
  - exfalso. exact (Hstr s eq_refl).
  - exfalso. exact (Harr items eq_refl).
Qed.

Lemma checkHasGroup_corrupt_groups_witness :
  JSON_parse (stored (World {[ "username" := JStr "alice"; "groups" := JStr "{}" ]} [])
                "groups") = Some (JObj [])
  /\ _checkHasGroup (DefaultHandler plain_server) JUndefined record
       (World {[ "username" := JStr "alice"; "groups" := JStr "{}" ]} [])
     = Throw TypeError (World {[ "username" := JStr "alice"; "groups" := JStr "{}" ]} []).
Proof.
  split; [vm_compute; reflexivity |].
  refine (proj1 (checkHasGroup_corrupt_groups (DefaultHandler plain_server)
                   (World {[ "username" := JStr "alice"; "groups" := JStr "{}" ]} [])
                   (JObj []) eq_refl _ _) JUndefined record).
  - intros items. discriminate.
  - intros s. discriminate.
Defined.

Lemma forEach_missing_string (g : string) (items : list jsval) (allowed : bool)
    (w : world) :
  forEach_missing (JStr g) items allowed w
  = Ret (allowed && forallb (fun p => contains g (ToString p)) items) w.
Proof.
  revert allowed. induction items as [|p rest IH]; intros allowed.
  - cbn [forEach_missing forallb]. rewrite andb_true_r. reflexivity.
  - cbn [forEach_missing forallb indexOf]. rewrite bind_ret. rewrite IH.
    unfold contains. rewrite Z.ltb_antisym.
    destruct (0 <=? String_indexOf g (ToString p)), allowed; reflexivity.
Qed.

Lemma append_nil_r (s : string) : s +:+ "" = s.
Proof.
  induction s as [|c s IH]; [reflexivity |].
  change (String c (s +:+ "") = String c s). rewrite IH. reflexivity.
Qed.

(** A string survives [JSON.stringify] followed by [JSON.parse]. *)
Lemma JSON_parse_stringify_string (g : string) :
  JSON_parse (JSON_stringify (JStr g)) = Some (JStr g).
Proof.
  unfold JSON_stringify, JSON_parse. cbn [stringify_value ToString].
  unfold JSON_parse_text.
  rewrite <- (append_nil_r (quote g)) at 2.
  rewrite parse_value_quote. reflexivity.
Qed.

(** X7.  A session whose groups entry holds one string instead of a list,
    as [setUserData] stores it for a user record with a string in its
    groups field, is matched by substring: the user passes a requirement
    when each required name occurs somewhere in the string, and passes
    every requirement when admin occurs in it. *)
Theorem checkHasGroup_string_groups (this : Handler) (w : world) (g : string) :
  JSON_parse (stored w "groups") = Some (JStr g) ->
  (forall required callback,
      _checkHasGroup this required callback w
      = callback JFalse (JBool (string_groups_decision g required)) w)
  /\ (contains g "admin" = true ->
      forall required, string_groups_decision g required = true)
  /\ (forall userData s events,
         lookup_prop userData "groups" = JStr g ->
         JSON_parse (stored (World (with_user userData s) events) "groups")
         = Some (JStr g)).
Proof.
  intros Hparse. split; [| split].
  - intros required callback. unfold _checkHasGroup.
    rewrite groupnames_normal.
    change (negb (String.eqb (typeof (JArr (required_items required))) "boolean"))
      with true.
    cbv iota. rewrite bind_assoc.
    assert (Hg : getUserGroups this w = Ret (JStr g) w)
      by (rewrite getUserGroups_run, Hparse; reflexivity).
    rewrite (bind_run _ _ _ _ _ Hg).
    rewrite bind_assoc. unfold indexOf at 1. rewrite bind_ret.
    unfold string_groups_decision, contains at 1. cbn [ToString].
    rewrite Z.ltb_antisym.
    destruct (0 <=? String_indexOf g "admin"); cbn [negb orb].
    + reflexivity.
    + unfold mbind, M_bind. rewrite forEach_missing_string. reflexivity.
  - intros Hadmin required. unfold string_groups_decision. rewrite Hadmin.
    reflexivity.
  - intros userData s events Hgroups. unfold stored, with_user. cbn [session].
    rewrite lookup_insert_eq. cbn [default]. rewrite Hgroups.
    apply JSON_parse_stringify_string.
Qed.

Lemma checkHasGroup_string_groups_witness :
  JSON_parse
    (stored (World (with_user (JObj [("username", JStr "eve");
                                     ("groups", JStr "administrators")]) ∅) [])
       "groups")
  = Some (JStr "administrators")
  /\ _checkHasGroup (DefaultHandler plain_server) (JArr [JStr "staff"; JStr "wheel"])
       record
       (World (with_user (JObj [("username", JStr "eve");
                                ("groups", JStr "administrators")]) ∅) [])
     = Ret tt
         (World (with_user (JObj [("username", JStr "eve");
                                  ("groups", JStr "administrators")]) ∅)
            [Callback JFalse JTrue]).
Proof.
  split; [vm_compute; reflexivity |].
  exact (proj1 (checkHasGroup_string_groups (DefaultHandler plain_server)
                  (World (with_user (JObj [("username", JStr "eve");
                                           ("groups", JStr "administrators")]) ∅) [])
                  "administrators" eq_refl)
           (JArr [JStr "staff"; JStr "wheel"]) record).
Defined.

(** ** What a login hands back *)

Lemma assoc_get_own_settings (props : list (string * jsval)) :
  assoc_get "userSettings" (with_settings props)
  = Some (js_or (default JUndefined (assoc_get "userSettings" props)) (JObj [])).
Proof. unfold with_settings. rewrite assoc_get_set. reflexivity. Qed.

(** X8.  A login with a user record, on a backend whose blacklist lookup
    does not fail, calls back once, with success and the login data: the
    user record as given, the user settings as given or an empty object,
    and the blacklist as given or else as the backend answers, an empty
    list where it answers none.  The session holds the user from then on. *)
Theorem onLogin_record (inst : Instance) (error blacklist : jsval)
    (props : list (string * jsval)) (userData : jsval) (w : world) :
  assoc_get "userData" props = Some userData ->
  userData <> JUndefined -> userData <> JNull ->
  truthy error = false ->
  exists data,
    onLogin (Backend inst error blacklist) (JObj props) record w
    = Ret tt (World (with_user userData (session w))
                (trace w ++ [Callback JFalse (JObj data)]))
    /\ assoc_get "userData" data = Some userData
    /\ assoc_get "userSettings" data
       = Some (js_or (default JUndefined (assoc_get "userSettings" props)) (JObj []))
    /\ assoc_get "blacklistedPackages" data
       = Some (if truthy (default JUndefined (assoc_get "blacklistedPackages" props))
               then default JUndefined (assoc_get "blacklistedPackages" props)
               else js_or blacklist (JArr []))
    /\ truthy (default JUndefined (assoc_get "userSettings" data)) = true
    /\ truthy (default JUndefined (assoc_get "blacklistedPackages" data)) = true.
Proof.
  intros Hdata Hu Hn Herr.
  assert (Hsettings : forall v, truthy (js_or v (JObj [])) = true).
  { intros v. unfold js_or. destruct (truthy v) eqn:E; [exact E | reflexivity]. }
  rewrite (onLogin_run _ _ _ _ _ userData) by assumption. cbv zeta.
  destruct (truthy (default JUndefined (assoc_get "blacklistedPackages" props)))
    eqn:Ebl.
  - exists (with_settings props). split; [reflexivity |].
    rewrite (assoc_get_with_settings "userData") by reflexivity.
    rewrite (assoc_get_with_settings "blacklistedPackages") by reflexivity.
    rewrite assoc_get_own_settings. cbn [default id]. rewrite Hsettings.
    destruct (assoc_get "blacklistedPackages" props) as [v|] eqn:Eget;
      [| discriminate Ebl].
    repeat split; assumption.
  - rewrite Herr.
    exists (assoc_set "blacklistedPackages" (js_or blacklist (JArr []))
              (with_settings props)).
    split; [reflexivity |].
    rewrite !assoc_get_set. cbn [String.eqb Ascii.eqb Bool.eqb].
    rewrite (assoc_get_with_settings "userData") by reflexivity.
    rewrite assoc_get_own_settings. cbn [default id].
    rewrite Hsettings, js_or_array_truthy.
    repeat split; assumption.
Qed.

Lemma onLogin_record_witness :
  exists data,
    onLogin (DefaultHandler plain_server)
      (JObj [("userData", JObj [("username", JStr "alice");
                                ("groups", JArr [JStr "users"])])])
      record (World ∅ [])
    = Ret tt (World (with_user (JObj [("username", JStr "alice");
                                      ("groups", JArr [JStr "users"])]) ∅)
                ([] ++ [Callback JFalse (JObj data)]))
    /\ assoc_get "userSettings" data = Some (JObj [])
    /\ assoc_get "blacklistedPackages" data = Some (JArr []).
Proof.
  destruct (onLogin_record plain_server JFalse (JArr [])
              [("userData", JObj [("username", JStr "alice");
                                  ("groups", JArr [JStr "users"])])]
              (JObj [("username", JStr "alice"); ("groups", JArr [JStr "users"])])
              (World ∅ []) eq_refl ltac:(discriminate) ltac:(discriminate) eq_refl)
    as (data & Hrun & _ & Hsettings & Hblacklist & _).
  exists data. split; [exact Hrun | split; [exact Hsettings | exact Hblacklist]].
Defined.

(** X9.  When the blacklist lookup of the backend fails during a login
    that brings no blacklist of its own, the caller's callback is called
    twice: first with the error, then with success and the login data,
    which then carries no blacklist.  The session holds the user all the
    same. *)
Theorem onLogin_lookup_fails (inst : Instance) (error blacklist : jsval)
    (props : list (string * jsval)) (userData : jsval) (w : world) :
  assoc_get "userData" props = Some userData ->
  userData <> JUndefined -> userData <> JNull ->
  truthy (default JUndefined (assoc_get "blacklistedPackages" props)) = false ->
  truthy error = true ->
  onLogin (Backend inst error blacklist) (JObj props) record w
  = Ret tt (World (with_user userData (session w))
              (trace w ++ [Callback error JUndefined;
                           Callback JFalse (JObj (with_settings props))]))
  /\ truthy (default JUndefined
               (assoc_get "blacklistedPackages" (with_settings props))) = false.
Proof.
  intros Hdata Hu Hn Hbl Herr. split.
  - rewrite (onLogin_run _ _ _ _ _ userData) by assumption. cbv zeta.
    rewrite Hbl, Herr. run. unfold emit. simpl. rewrite <- app_assoc. reflexivity.
  - rewrite assoc_get_with_settings by reflexivity. exact Hbl.
Qed.

Lemma onLogin_lookup_fails_witness :
  onLogin (Backend plain_server (JStr "database down") JUndefined)
    (JObj [("userData", JObj [("username", JStr "alice"); ("groups", JArr [])])])
    record (World ∅ [])
  = Ret tt
      (World (with_user (JObj [("username", JStr "alice"); ("groups", JArr [])]) ∅)
         ([] ++ [Callback (JStr "database down") JUndefined;
                 Callback JFalse
                   (JObj (with_settings
                            [("userData", JObj [("username", JStr "alice");
                                                ("groups", JArr [])])]))])).
Proof.
  exact (proj1 (onLogin_lookup_fails plain_server (JStr "database down") JUndefined
                  [("userData", JObj [("username", JStr "alice"); ("groups", JArr [])])]
                  (JObj [("username", JStr "alice"); ("groups", JArr [])])
                  (World ∅ []) eq_refl ltac:(discriminate) ltac:(discriminate)
                  eq_refl eq_refl)).
Defined.

(** X10.  A login whose data carries no user record throws a TypeError
    before anything is stored or reported: the session is as before and
    the callback is not called.  A login whose user record is [null] is a
    logout that reports a successful login: it clears both session entries
    and calls back with success and the login data. *)
Theorem onLogin_without_user (props : list (string * jsval)) (w : world) :
  (default JUndefined (assoc_get "userData" props) = JUndefined ->
   forall this callback, onLogin this (JObj props) callback w = Throw TypeError w)
  /\ (assoc_get "userData" props = Some JNull ->
      forall inst blacklist,
      exists data,
        onLogin (Backend inst JFalse blacklist) (JObj props) record w
        = Ret tt (World (cleared (session w))
                    (trace w ++ [Callback JFalse (JObj data)]))
        /\ assoc_get "userData" data = Some JNull).
Proof.
  split.
  - intros Hdata this callback. unfold onLogin. cbn [get_prop set_prop].
    rewrite !bind_ret. fold (with_settings props).
    cbn [get_prop]. rewrite bind_ret.
    rewrite assoc_get_with_settings by reflexivity.
    rewrite Hdata. reflexivity.
  - intros Hdata inst blacklist. unfold onLogin. cbn [get_prop set_prop].
    rewrite !bind_ret. fold (with_settings props).
    cbn [get_prop]. rewrite bind_ret.
    rewrite assoc_get_with_settings by reflexivity.
    rewrite Hdata. cbn [default].
    rewrite setUserData_null. rewrite bind_ret.
    rewrite assoc_get_with_settings by reflexivity.
    fold (cleared (session w)).
    destruct (truthy (default JUndefined (assoc_get "blacklistedPackages" props))).
    + exists (with_settings props). split; [reflexivity |].
      rewrite assoc_get_with_settings by reflexivity. exact Hdata.
    + exists (assoc_set "blacklistedPackages" (js_or blacklist (JArr []))
                (with_settings props)).
      split; [reflexivity |].
      rewrite assoc_get_set. cbn [String.eqb Ascii.eqb Bool.eqb].
      rewrite assoc_get_with_settings by reflexivity. exact Hdata.
Qed.

Lemma onLogin_without_user_witness :
  onLogin (DefaultHandler plain_server) (JObj [("username", JStr "alice")]) record
    (logged_in "bob" ["users"])
  = Throw TypeError (logged_in "bob" ["users"]).
Proof.
  exact (proj1 (onLogin_without_user [("username", JStr "alice")]
                  (logged_in "bob" ["users"]))
           eq_refl (DefaultHandler plain_server) record).
Defined.

(** ** The session gate after login and after logout *)

Lemma stored_with_user (userData : jsval) (s : gmap string jsval)
    (events : list event) :
  stored (World (with_user userData s) events) "username"
  = lookup_prop userData "username".
Proof.
  unfold stored, with_user. cbn [session].
  rewrite lookup_insert_ne by discriminate. rewrite lookup_insert_eq. reflexivity.
Qed.

Lemma stored_cleared (s : gmap string jsval) (events : list event) :
  stored (World (cleared s) events) "username" = JNull
  /\ stored (World (cleared s) events) "groups" = JNull.
Proof.
  unfold stored, cleared. cbn [session]. split.
  - rewrite lookup_insert_ne by discriminate. rewrite lookup_insert_eq. reflexivity.
  - rewrite lookup_insert_eq. reflexivity.
Qed.

Lemma _checkHasSession_decision (this : Handler) (callback : callback) (w : world) :
  _checkHasSession this callback w
  = if setup_nw (instance this) || truthy (stored w "username")
    then callback JFalse JTrue w
    else callback (JStr no_session) JUndefined w.
Proof.
  destruct (setup_nw (instance this)) eqn:E.
  - apply _checkHasSession_trusted. exact E.
  - apply _checkHasSession_run. exact E.
Qed.

(** X11.  A login opens the session gate exactly when the username of its
    user record is truthy: after a login whose user record has no
    username, or an empty one, a server outside trusted mode still answers
    every later request as one without a session. *)
Theorem login_opens_session (inst : Instance) (error blacklist : jsval)
    (props : list (string * jsval)) (userData : jsval) (w : world) :
  assoc_get "userData" props = Some userData ->
  userData <> JUndefined -> userData <> JNull ->
  exists w1,
    onLogin (Backend inst error blacklist) (JObj props) record w = Ret tt w1
    /\ forall this callback,
         _checkHasSession this callback w1
         = if setup_nw (instance this) || truthy (lookup_prop userData "username")
           then callback JFalse JTrue w1
           else callback (JStr no_session) JUndefined w1.
Proof.
  intros Hdata Hu Hn.
  destruct (onLogin_returns inst error blacklist props userData w Hdata Hu Hn)
    as [calls Hrun].
  eexists. split; [exact Hrun |].
  intros this callback. rewrite _checkHasSession_decision.
  rewrite stored_with_user. reflexivity.
Qed.

Lemma login_opens_session_witness :
  exists w1,
    onLogin (DefaultHandler plain_server)
      (JObj [("userData", JObj [("username", JStr ""); ("groups", JArr [JStr "admin"])])])
      record (World ∅ []) = Ret tt w1
    /\ _checkHasSession (DefaultHandler plain_server) record w1
       = Ret tt (World (session w1) (trace w1 ++ [Callback (JStr no_session) JUndefined])).
Proof.
  destruct (login_opens_session plain_server JFalse (JArr [])
              [("userData", JObj [("username", JStr ""); ("groups", JArr [JStr "admin"])])]
              (JObj [("username", JStr ""); ("groups", JArr [JStr "admin"])])
              (World ∅ []) eq_refl ltac:(discriminate) ltac:(discriminate))
    as (w1 & Hrun & Hgate).
  exists w1. split; [exact Hrun |].
  exact (Hgate (DefaultHandler plain_server) record).
Defined.

(** X12.  A logout closes the session gate: whatever the session held,
    after [onLogout] every API, VFS and package privilege check of a
    handler outside trusted mode is answered with the no-session error,
    and nothing else of the check runs. *)
Theorem logout_closes_session (this : Handler) (w : world) :
  exists w',
    onLogout this record w = Ret tt w'
    /\ session w' = cleared (session w)
    /\ trace w' = (trace w ++ [Callback JFalse JTrue])%list
    /\ forall (that : Handler) (callback : callback),
         setup_nw (instance that) = false ->
         (forall privilege,
             checkAPIPrivilege that privilege callback w'
             = callback (JStr no_session) JUndefined w')
         /\ (forall method args,
                checkVFSPrivilege that method args callback w'
                = callback (JStr no_session) JUndefined w')
         /\ (forall packageName,
                checkPackagePrivilege that packageName callback w'
                = callback (JStr no_session) JUndefined w').
Proof.
  exists (World (cleared (session w)) (trace w ++ [Callback JFalse JTrue])).
  split; [reflexivity | split; [reflexivity | split; [reflexivity |]]].
  intros that callback Hthat.
  repeat split; intros;
    unfold checkAPIPrivilege, checkVFSPrivilege, checkPackagePrivilege;
    rewrite _checkHasSession_run by exact Hthat;
    rewrite (proj1 (stored_cleared _ _)); reflexivity.
Qed.

Lemma logout_closes_session_witness :
  exists w',
    onLogout (DefaultHandler plain_server) record (logged_in "root" ["admin"])
    = Ret tt w'
    /\ checkAPIPrivilege (DefaultHandler plain_server) (JStr "fs") record w'
       = Ret tt (World (session w')
                   (trace w' ++ [Callback (JStr no_session) JUndefined])).
Proof.
  destruct (logout_closes_session (DefaultHandler plain_server)
              (logged_in "root" ["admin"]))
    as (w' & Hrun & _ & _ & Hgate).
  exists w'. split; [exact Hrun |].
  exact (proj1 (Hgate (DefaultHandler plain_server) record eq_refl) (JStr "fs")).
Defined.

(** ** Calling a registered method *)

Lemma _checkHasAPIPrivilege_unlisted (this : Handler) (w : world) (privilege : jsval)
    (callback : callback) :
  truthy (api_requirement (config_api_groups (instance this)) privilege) = false ->
  _checkHasAPIPrivilege this privilege callback w = callback JFalse JTrue w.
Proof.
  intros Hreq. unfold _checkHasAPIPrivilege. unfold api_requirement in Hreq.
  destruct (truthy (config_api_groups (instance this))) eqn:Em.
  - destruct (truthy privilege) eqn:Ep.
    + rewrite (bind_run _ _ _ _ _ (get_prop_truthy _ _ w Em)).
      rewrite Hreq. reflexivity.
    + rewrite bind_ret, Ep. reflexivity.
  - rewrite bind_ret, Em. reflexivity.
Qed.

Lemma checkAPIPrivilege_anonymous (this : Handler) (w : world) (privilege : jsval)
    (callback : callback) :
  setup_nw (instance this) = false ->
  truthy (stored w "username") = false ->
  checkAPIPrivilege this privilege callback w = callback (JStr no_session) JUndefined w.
Proof.
  intros Hnw Hname. unfold checkAPIPrivilege.
  rewrite _checkHasSession_run by exact Hnw. rewrite Hname. reflexivity.
Qed.

Lemma checkAPIPrivilege_listed (this : Handler) (w : world) (gs : list string)
    (privilege : jsval) (callback : callback) :
  has_session this w ->
  user_groups w gs ->
  truthy (api_requirement (config_api_groups (instance this)) privilege) = true ->
  checkAPIPrivilege this privilege callback w
  = if GroupEvaluator gs privilege then callback JFalse JTrue w
    else callback (JStr api_denied) JFalse w.
Proof.
  intros Hs Hg Hreq. unfold checkAPIPrivilege.
  rewrite _checkHasSession_passes by exact Hs. cbn [truthy JFalse].
  rewrite (_checkHasAPIPrivilege_run this w gs) by exact Hg.
  rewrite Hreq. reflexivity.
Qed.

Lemma checkAPIPrivilege_open (this : Handler) (w : world) (privilege : jsval)
    (callback : callback) :
  has_session this w ->
  truthy (api_requirement (config_api_groups (instance this)) privilege) = false ->
  checkAPIPrivilege this privilege callback w = callback JFalse JTrue w.
Proof.
  intros Hs Hreq. unfold checkAPIPrivilege.
  rewrite _checkHasSession_passes by exact Hs. cbn [truthy JFalse].
  apply _checkHasAPIPrivilege_unlisted. exact Hreq.
Qed.

Lemma registered_api_entry (handler : PrivilegeChecks) (t : Tables) (fn : string)
    (fref : method) :
  api t !! fn = None -> fn ∉ Object_prototype_names -> fn ∉ ignorePrivilegesAPI ->
  api (registerAPIMethod handler t fn fref) !! fn = Some (wrap_api handler fn fref).
Proof.
  intros Hfree Hown Hignore. rewrite registerAPIMethod_entry by assumption.
  rewrite bool_decide_eq_false_2 by exact Hignore. reflexivity.
Qed.

Lemma registered_vfs_entry (handler : PrivilegeChecks) (t : Tables) (fn : string)
    (fref : method) :
  vfs t !! fn = None -> fn ∉ Object_prototype_names -> fn ∉ ignorePrivilegesVFS ->
  vfs (registerVFSMethod handler t fn fref) !! fn = Some (wrap_vfs handler fn fref).
Proof.
  intros Hfree Hown Hignore. rewrite registerVFSMethod_entry by assumption.
  rewrite bool_decide_eq_false_2 by exact Hignore. reflexivity.
Qed.

(** X13.  An API method registered under a free name, one that is
    neither on the ignore list nor the name of a member every object
    inherits, is reachable only through the privilege check of the
    handler: a request without a session gets the no-session error; a
    request with a session runs the method itself, on the caller's
    arguments and callback, when the API table (a plain object, or
    missing) does not list the name, and otherwise when the user holds the
    group named like the method (or admin); a denied request gets the API
    message and the method does not run. *)
Theorem registered_api_method (this : Handler) (t : Tables) (fn : string)
    (fref : method) (args : jsval) (callback : callback) (w : world) :
  api t !! fn = None ->
  fn ∉ Object_prototype_names ->
  fn ∉ ignorePrivilegesAPI ->
  let table := api (registerAPIMethod (checks_of this) t fn fref) in
  (setup_nw (instance this) = false -> truthy (stored w "username") = false ->
   invoke table fn args callback w = callback (JStr no_session) JUndefined w)
  /\ (has_session this w ->
      plain_table (config_api_groups (instance this)) ->
      truthy (api_requirement (config_api_groups (instance this)) (JStr fn)) = false ->
      invoke table fn args callback w = fref args callback w)
  /\ (forall gs,
         has_session this w -> user_groups w gs ->
         truthy (api_requirement (config_api_groups (instance this)) (JStr fn)) = true ->
         invoke table fn args callback w
         = if GroupEvaluator gs (JStr fn) then fref args callback w
           else callback (JStr api_denied) JUndefined w).
Proof.
  intros Hfree Hown Hignore table.
  assert (Hcall : invoke table fn args callback w
                  = wrap_api (checks_of this) fn fref args callback w).
  { apply invoke_entry. apply registered_api_entry; assumption. }
  rewrite Hcall. unfold wrap_api. cbn [call_checkAPIPrivilege checks_of].
  split; [| split].
  - intros Hnw Hname. rewrite checkAPIPrivilege_anonymous by assumption. reflexivity.
  - intros Hs _ Hreq. rewrite checkAPIPrivilege_open by assumption. reflexivity.
  - intros gs Hs Hg Hreq. rewrite (checkAPIPrivilege_listed this w gs) by assumption.
    destruct (GroupEvaluator gs (JStr fn)); reflexivity.
Qed.

Lemma registered_api_method_witness :
  api no_methods !! "curl" = None
  /\ ("curl" ∉ Object_prototype_names)
  /\ ("curl" ∉ ignorePrivilegesAPI)
  /\ invoke (api (registerAPIMethod (checks_of (DefaultHandler plain_server))
                    no_methods "curl" echo))
       "curl" (JStr "ping") record (World ∅ [])
     = Ret tt (World ∅ [Callback (JStr no_session) JUndefined]).
Proof.
  assert (Hown : "curl" ∉ Object_prototype_names)
    by (apply (bool_decide_unpack _); vm_compute; exact I).
  assert (Hignore : "curl" ∉ ignorePrivilegesAPI)
    by (apply (bool_decide_unpack _); vm_compute; exact I).
  split; [reflexivity | split; [exact Hown | split; [exact Hignore |]]].
  exact (proj1 (registered_api_method (DefaultHandler plain_server) no_methods "curl"
                  echo (JStr "ping") record (World ∅ []) eq_refl Hown Hignore)
           eq_refl eq_refl).
Defined.

Lemma checkVFSPrivilege_decision (this : Handler) (w : world) (gs : list string)
    (method : string) (args mount : jsval) (callback : callback) :
  has_session this w ->
  user_groups w gs ->
  args <> JUndefined -> args <> JNull ->
  vfs_getRealPath (instance this) (vfs_target args) w = Ret mount w ->
  checkVFSPrivilege this method args callback w
  = if truthy (vfs_requirement (config_vfs_groups (instance this)) mount)
       && negb (GroupEvaluator gs (vfs_requirement (config_vfs_groups (instance this))
                                     mount))
    then callback (JStr vfs_denied) JFalse w
    else callback JFalse JTrue w.
Proof.
  intros Hs Hg Hu Hn Hmount. unfold checkVFSPrivilege.
  rewrite _checkHasSession_passes by exact Hs. cbn [truthy JFalse].
  rewrite (_checkHasVFSPrivilege_run this w method args mount) by assumption.
  destruct (truthy (vfs_requirement _ mount)); [| reflexivity].
  rewrite (_checkHasGroup_run this w gs) by exact Hg.
  destruct (GroupEvaluator gs _); reflexivity.
Qed.

(** X14.  A VFS method registered under a free name, one that is
    neither on the ignore list nor the name of a member every object
    inherits, stands behind two checks.  A request without a session gets
    the no-session error.  A request whose user fails the API check for
    the method fs gets the API message, whatever its arguments are and
    without the path resolver being asked.  A request that passes it is
    decided by the mount of its path, the VFS table being a plain object
    or missing and the mount's protocol no inherited name: the method
    itself runs, on the caller's arguments and callback, unless the table
    lists the mount's protocol with a requirement the user fails, which
    gets the VFS message. *)
Theorem registered_vfs_method (this : Handler) (t : Tables) (fn : string)
    (fref : method) (args : jsval) (callback : callback) (w : world) :
  vfs t !! fn = None ->
  fn ∉ Object_prototype_names ->
  fn ∉ ignorePrivilegesVFS ->
  let table := vfs (registerVFSMethod (checks_of this) t fn fref) in
  let fs := api_requirement (config_api_groups (instance this)) (JStr "fs") in
  (setup_nw (instance this) = false -> truthy (stored w "username") = false ->
   invoke table fn args callback w = callback (JStr no_session) JUndefined w)
  /\ (forall gs,
         has_session this w -> user_groups w gs ->
         truthy fs = true -> GroupEvaluator gs (JStr "fs") = false ->
         invoke table fn args callback w = callback (JStr api_denied) JUndefined w)
  /\ (forall gs mount,
         has_session this w -> user_groups w gs ->
         truthy fs = false \/ GroupEvaluator gs (JStr "fs") = true ->
         args <> JUndefined -> args <> JNull ->
         plain_table (config_vfs_groups (instance this)) ->
         vfs_getRealPath (instance this) (vfs_target args) w = Ret mount w ->
         own_protocol mount ->
         invoke table fn args callback w
         = if truthy (vfs_requirement (config_vfs_groups (instance this)) mount)
              && negb (GroupEvaluator gs
                         (vfs_requirement (config_vfs_groups (instance this)) mount))
           then callback (JStr vfs_denied) JUndefined w
           else fref args callback w).
Proof.
  intros Hfree Hown Hignore table fs.
  assert (Hcall : invoke table fn args callback w
                  = wrap_vfs (checks_of this) fn fref args callback w).
  { apply invoke_entry. apply registered_vfs_entry; assumption. }
  rewrite Hcall. unfold wrap_vfs.
  cbn [call_checkAPIPrivilege call_checkVFSPrivilege checks_of].
  split; [| split].
  - intros Hnw Hname. rewrite checkAPIPrivilege_anonymous by assumption. reflexivity.
  - intros gs Hs Hg Hreq Hfail.
    rewrite (checkAPIPrivilege_listed this w gs) by assumption.
    rewrite Hfail. reflexivity.
  - intros gs mount Hs Hg Hfs Hu Hn _ Hmount _.
    assert (Hpass : forall k : jsval -> jsval -> M unit,
               checkAPIPrivilege this (JStr "fs") k w = k JFalse JTrue w).
    { intros k. destruct (truthy fs) eqn:Efs.
      - destruct Hfs as [Hfs | Hfs]; [discriminate Hfs |].
        rewrite (checkAPIPrivilege_listed this w gs) by assumption.
        rewrite Hfs. reflexivity.
      - apply checkAPIPrivilege_open; assumption. }
    rewrite Hpass. cbn [truthy JFalse].
    rewrite (checkVFSPrivilege_decision this w gs fn args mount) by assumption.
    destruct (truthy (vfs_requirement _ mount) && negb (GroupEvaluator gs _));
      reflexivity.
Qed.

Lemma registered_vfs_method_witness :
  vfs no_methods !! "write" = None
  /\ ("write" ∉ Object_prototype_names)
  /\ ("write" ∉ ignorePrivilegesVFS)
  /\ invoke (vfs (registerVFSMethod (checks_of (DefaultHandler fs_for_users_server))
                    no_methods "write" echo))
       "write" JUndefined record (logged_in "alice" ["users"])
     = Ret tt (World (session (logged_in "alice" ["users"]))
                 [Callback (JStr api_denied) JUndefined]).
Proof.
  assert (Hown : "write" ∉ Object_prototype_names)
    by (apply (bool_decide_unpack _); vm_compute; exact I).
  assert (Hignore : "write" ∉ ignorePrivilegesVFS)
    by (apply (bool_decide_unpack _); vm_compute; exact I).
  split; [reflexivity | split; [exact Hown | split; [exact Hignore |]]].
  refine (proj1 (proj2 (registered_vfs_method (DefaultHandler fs_for_users_server)
                          no_methods "write" echo JUndefined record
                          (logged_in "alice" ["users"]) eq_refl Hown Hignore))
            ["users"] _ (user_groups_logged_in "alice" ["users"]) eq_refl eq_refl).
  right. vm_compute. reflexivity.
Defined.

(** ** The tables after registration *)

Lemma registerAPIMethod_lookup (handler : PrivilegeChecks) (t : Tables)
    (fn : string) (fref : method) (k : string) :
  (forall m, api t !! k = Some m ->
             api (registerAPIMethod handler t fn fref) !! k = Some m)
  /\ (k <> fn -> api (registerAPIMethod handler t fn fref) !! k = api t !! k).
Proof.
  rewrite registerAPIMethod_cases.
  destruct (api t !! fn) as [m0|] eqn:E.
  - split; [intros m H; exact H | reflexivity].
  - destruct (bool_decide (fn ∈ Object_prototype_names)).
    { split; [intros m H; exact H | reflexivity]. }
    destruct (list_indexOf ignorePrivilegesAPI fn 0 <? 0); cbn [api]; split.
    + intros m H. rewrite lookup_insert_ne; [exact H | congruence].
    + intros Hne. apply lookup_insert_ne. congruence.
    + intros m H. rewrite lookup_insert_ne; [exact H | congruence].
    + intros Hne. apply lookup_insert_ne. congruence.
Qed.

Lemma registerVFSMethod_lookup (handler : PrivilegeChecks) (t : Tables)
    (fn : string) (fref : method) (k : string) :
  (forall m, vfs t !! k = Some m ->
             vfs (registerVFSMethod handler t fn fref) !! k = Some m)
  /\ (k <> fn -> vfs (registerVFSMethod handler t fn fref) !! k = vfs t !! k).
Proof.
  rewrite registerVFSMethod_cases.
  destruct (vfs t !! fn) as [m0|] eqn:E.
  - split; [intros m H; exact H | reflexivity].
  - destruct (bool_decide (fn ∈ Object_prototype_names)).
    { split; [intros m H; exact H | reflexivity]. }
    destruct (list_indexOf ignorePrivilegesVFS fn 0 <? 0); cbn [vfs]; split.
    + intros m H. rewrite lookup_insert_ne; [exact H | congruence].
    + intros Hne. apply lookup_insert_ne. congruence.
    + intros m H. rewrite lookup_insert_ne; [exact H | congruence].
    + intros Hne. apply lookup_insert_ne. congruence.
Qed.

Lemma register_api_all_lookup (handler : PrivilegeChecks)
    (methods : list (string * method)) (t : Tables) (k : string) :
  (forall m, api t !! k = Some m ->
     api (fold_left (fun inst kv => registerAPIMethod handler inst (fst kv) (snd kv))
            methods t) !! k = Some m)
  /\ (k ∉ map fst methods ->
      api (fold_left (fun inst kv => registerAPIMethod handler inst (fst kv) (snd kv))
             methods t) !! k = api t !! k).
Proof.
  revert t. induction methods as [|[fn f] rest IH]; intros t.
  - split; [intros m H; exact H | reflexivity].
  - cbn [fold_left fst snd map]. split.
    + intros m H. apply (proj1 (IH _)).
      apply (proj1 (registerAPIMethod_lookup handler t fn f k)). exact H.
    + intros Hk. rewrite (proj2 (IH _)).
      * apply (proj2 (registerAPIMethod_lookup handler t fn f k)).
        intros ->. apply Hk. apply list_elem_of_here.
      * intros Hin. apply Hk. apply list_elem_of_further. exact Hin.
Qed.

Lemma register_vfs_all_lookup (handler : PrivilegeChecks)
    (methods : list (string * method)) (t : Tables) (k : string) :
  (forall m, vfs t !! k = Some m ->
     vfs (fold_left (fun inst kv => registerVFSMethod handler inst (fst kv) (snd kv))
            methods t) !! k = Some m)
  /\ (k ∉ map fst methods ->
      vfs (fold_left (fun inst kv => registerVFSMethod handler inst (fst kv) (snd kv))
             methods t) !! k = vfs t !! k).
Proof.
  revert t. induction methods as [|[fn f] rest IH]; intros t.
  - split; [intros m H; exact H | reflexivity].
  - cbn [fold_left fst snd map]. split.
    + intros m H. apply (proj1 (IH _)).
      apply (proj1 (registerVFSMethod_lookup handler t fn f k)). exact H.
    + intros Hk. rewrite (proj2 (IH _)).
      * apply (proj2 (registerVFSMethod_lookup handler t fn f k)).
        intros ->. apply Hk. apply list_elem_of_here.
      * intros Hin. apply Hk. apply list_elem_of_further. exact Hin.
Qed.

Lemma register_api_all_inherited (handler : PrivilegeChecks)
    (methods : list (string * method)) (t : Tables) (k : string) :
  k ∈ Object_prototype_names ->
  api (fold_left (fun inst kv => registerAPIMethod handler inst (fst kv) (snd kv))
         methods t) !! k = api t !! k.
Proof.
  intros Hk. revert t. induction methods as [|[fn f] rest IH]; intros t.
  - reflexivity.
  - cbn [fold_left fst snd]. rewrite IH.
    destruct (decide (k = fn)) as [-> | Hne].
    + rewrite registerAPIMethod_inherited by exact Hk. reflexivity.
    + apply (proj2 (registerAPIMethod_lookup handler t fn f k)). exact Hne.
Qed.

Lemma register_vfs_all_inherited (handler : PrivilegeChecks)
    (methods : list (string * method)) (t : Tables) (k : string) :
  k ∈ Object_prototype_names ->
  vfs (fold_left (fun inst kv => registerVFSMethod handler inst (fst kv) (snd kv))
         methods t) !! k = vfs t !! k.
Proof.
  intros Hk. revert t. induction methods as [|[fn f] rest IH]; intros t.
  - reflexivity.
  - cbn [fold_left fst snd]. rewrite IH.
    destruct (decide (k = fn)) as [-> | Hne].
    + rewrite registerVFSMethod_inherited by exact Hk. reflexivity.
    + apply (proj2 (registerVFSMethod_lookup handler t fn f k)). exact Hne.
Qed.

Lemma register_vfs_all_api (handler : PrivilegeChecks)
    (methods : list (string * method)) (t : Tables) :
  api (fold_left (fun inst kv => registerVFSMethod handler inst (fst kv) (snd kv))
         methods t) = api t.
Proof.
  revert t. induction methods as [|[fn f] rest IH]; intros t.
  - reflexivity.
  - cbn [fold_left fst snd]. rewrite IH.
    apply (registerVFSMethod_keeps handler t fn f fn).
Qed.

Lemma register_api_all_entry (handler : PrivilegeChecks)
    (methods : list (string * method)) (t : Tables) (fn : string) (f : method) :
  NoDup (map fst methods) ->
  (fn, f) ∈ methods ->
  api t !! fn = None ->
  fn ∉ Object_prototype_names ->
  api (fold_left (fun inst kv => registerAPIMethod handler inst (fst kv) (snd kv))
         methods t) !! fn
  = Some (if bool_decide (fn ∈ ignorePrivilegesAPI) then f else wrap_api handler fn f).
Proof.
  revert t. induction methods as [|[fn0 f0] rest IH]; intros t Hnodup Hin Hfree Hown.
  - apply elem_of_nil in Hin. destruct Hin.
  - cbn [map fst] in Hnodup. apply NoDup_cons in Hnodup.
    destruct Hnodup as [Hfresh Hnodup].
    cbn [fold_left fst snd].
    apply elem_of_cons in Hin. destruct Hin as [Heq | Hin].
    + injection Heq as <- <-.
      apply (proj1 (register_api_all_lookup handler rest _ fn)).
      apply registerAPIMethod_entry; assumption.
    + apply IH; [exact Hnodup | exact Hin | | exact Hown].
      rewrite (proj2 (registerAPIMethod_lookup handler t fn0 f0 fn)); [exact Hfree |].
      intros ->. apply Hfresh.
      apply (list_elem_of_fmap_2 fst) in Hin. exact Hin.
Qed.

Lemma register_vfs_all_entry (handler : PrivilegeChecks)
    (methods : list (string * method)) (t : Tables) (fn : string) (f : method) :
  NoDup (map fst methods) ->
  (fn, f) ∈ methods ->
  vfs t !! fn = None ->
  fn ∉ Object_prototype_names ->
  vfs (fold_left (fun inst kv => registerVFSMethod handler inst (fst kv) (snd kv))
         methods t) !! fn
  = Some (if bool_decide (fn ∈ ignorePrivilegesVFS) then f else wrap_vfs handler fn f).
Proof.
  revert t. induction methods as [|[fn0 f0] rest IH]; intros t Hnodup Hin Hfree Hown.
  - apply elem_of_nil in Hin. destruct Hin.
  - cbn [map fst] in Hnodup. apply NoDup_cons in Hnodup.
    destruct Hnodup as [Hfresh Hnodup].
    cbn [fold_left fst snd].
    apply elem_of_cons in Hin. destruct Hin as [Heq | Hin].
    + injection Heq as <- <-.
      apply (proj1 (register_vfs_all_lookup handler rest _ fn)).
      apply registerVFSMethod_entry; assumption.
    + apply IH; [exact Hnodup | exact Hin | | exact Hown].
      rewrite (proj2 (registerVFSMethod_lookup handler t fn0 f0 fn)); [exact Hfree |].
      intros ->. apply Hfresh.
      apply (list_elem_of_fmap_2 fst) in Hin. exact Hin.
Qed.

(** X15.  [registerMethods] only adds.  A method that a table holds
    already stays as it is, whatever the lists offer under its name; a name
    outside the lists is not touched; a name of a member every object
    inherits is never entered; and each other listed method under a free
    name is entered behind the privilege wrapper of the handler, or as it
    is when its name is on the ignore list.  The names of a list being the
    keys of an object, no name comes twice. *)
Theorem registerMethods_entries (handler : PrivilegeChecks) (t : Tables)
    (api_methods vfs_methods : list (string * method)) :
  NoDup (map fst api_methods) ->
  NoDup (map fst vfs_methods) ->
  let t' := registerMethods handler t api_methods vfs_methods in
  (forall k m, api t !! k = Some m -> api t' !! k = Some m)
  /\ (forall k m, vfs t !! k = Some m -> vfs t' !! k = Some m)
  /\ (forall k, k ∉ map fst api_methods -> api t' !! k = api t !! k)
  /\ (forall k, k ∉ map fst vfs_methods -> vfs t' !! k = vfs t !! k)
  /\ (forall k, k ∈ Object_prototype_names ->
        api t' !! k = api t !! k /\ vfs t' !! k = vfs t !! k)
  /\ (forall fn f, (fn, f) ∈ api_methods -> api t !! fn = None ->
        fn ∉ Object_prototype_names ->
        api t' !! fn
        = Some (if bool_decide (fn ∈ ignorePrivilegesAPI) then f
                else wrap_api handler fn f))
  /\ (forall fn f, (fn, f) ∈ vfs_methods -> vfs t !! fn = None ->
        fn ∉ Object_prototype_names ->
        vfs t' !! fn
        = Some (if bool_decide (fn ∈ ignorePrivilegesVFS) then f
                else wrap_vfs handler fn f)).
Proof.
  intros Hapi Hvfs t'. unfold t', registerMethods.
  split; [| split; [| split; [| split; [| split; [| split]]]]].
  - intros k m H. apply (proj1 (register_api_all_lookup handler api_methods _ k)).
    rewrite register_vfs_all_api. exact H.
  - intros k m H. rewrite register_api_all_vfs.
    apply (proj1 (register_vfs_all_lookup handler vfs_methods t k)). exact H.
  - intros k H. rewrite (proj2 (register_api_all_lookup handler api_methods _ k)) by exact H.
    rewrite register_vfs_all_api. reflexivity.
  - intros k H. rewrite register_api_all_vfs.
    apply (proj2 (register_vfs_all_lookup handler vfs_methods t k)). exact H.
  - intros k Hk. split.
    + rewrite register_api_all_inherited by exact Hk.
      rewrite register_vfs_all_api. reflexivity.
    + rewrite register_api_all_vfs. apply register_vfs_all_inherited. exact Hk.
  - intros fn f Hin Hfree Hown.
    apply register_api_all_entry; [exact Hapi | exact Hin | | exact Hown].
    rewrite register_vfs_all_api. exact Hfree.
  - intros fn f Hin Hfree Hown. rewrite register_api_all_vfs.
    apply register_vfs_all_entry; assumption.
Qed.

Lemma registerMethods_entries_witness :
  api (registerMethods probe
         (registerMethods probe no_methods [("login", echo)] [])
         [("login", fun _ callback => callback (JStr "other") JUndefined);
          ("logout", echo)]
         [("read", echo)]) !! "login"
  = Some echo.
Proof.
  refine (proj1 (registerMethods_entries probe
                   (registerMethods probe no_methods [("login", echo)] [])
                   [("login", fun _ callback => callback (JStr "other") JUndefined);
                    ("logout", echo)]
                   [("read", echo)] _ _) "login" echo eq_refl).
  - cbn [map fst]. apply NoDup_cons. split.
    + intros H. apply elem_of_cons in H.
      destruct H as [H | H]; [discriminate H | apply elem_of_nil in H; exact H].
    + apply NoDup_cons. split; [apply not_elem_of_nil | apply NoDup_nil_2].
  - cbn [map fst]. apply NoDup_cons. split; [apply not_elem_of_nil | apply NoDup_nil_2].
Defined.

(** ** The start-up in trusted mode *)

Lemma GroupEvaluator_admin (gs : list string) (required : jsval) :
  "admin" ∈ gs -> GroupEvaluator gs required = true.
Proof. intros H. apply GroupEvaluator_true. right. left. exact H. Qed.

Lemma checkAPIPrivilege_admin (this : Handler) (w : world) (gs : list string)
    (privilege : jsval) (callback : callback) :
  has_session this w -> user_groups w gs -> "admin" ∈ gs ->
  checkAPIPrivilege this privilege callback w = callback JFalse JTrue w.
Proof.
  intros Hs Hg Hadmin.
  destruct (truthy (api_requirement (config_api_groups (instance this)) privilege))
    eqn:Ereq.
  - rewrite (checkAPIPrivilege_listed this w gs) by assumption.
    rewrite GroupEvaluator_admin by exact Hadmin. reflexivity.
  - apply checkAPIPrivilege_open; assumption.
Qed.

Lemma trusted_init_tables (inst : Instance) (t : Tables)
    (register : Tables -> PrivilegeChecks * Tables)
    (_api _vfs : list (string * method)) :
  setup_nw inst = true ->
  init inst t register _api _vfs
  = (checks_of (DefaultHandler inst),
     registerMethods (checks_of (DefaultHandler inst))
       (registerMethods (checks_of (DefaultHandler inst)) t
          [("login", NWHandler_login (DefaultHandler inst));
           ("logout", NWHandler_logout (DefaultHandler inst))] [])
       _api _vfs).
Proof. intros Hnw. unfold init. rewrite Hnw. reflexivity. Qed.

Lemma NWHandler_entries (inst : Instance) (t : Tables) :
  api t !! "login" = None ->
  api t !! "logout" = None ->
  api (snd (NWHandler inst t)) !! "login" = Some (NWHandler_login (DefaultHandler inst))
  /\ api (snd (NWHandler inst t)) !! "logout"
     = Some (wrap_api (checks_of (DefaultHandler inst)) "logout"
               (NWHandler_logout (DefaultHandler inst)))
  /\ vfs (snd (NWHandler inst t)) = vfs t.
Proof.
  intros Hlogin Hlogout.
  unfold NWHandler, DefaultHandler_new, registerMethods. cbn [snd fold_left fst].
  assert (Hin : "login" ∉ Object_prototype_names)
    by (apply (bool_decide_unpack _); vm_compute; exact I).
  assert (Hout : "logout" ∉ Object_prototype_names)
    by (apply (bool_decide_unpack _); vm_compute; exact I).
  split; [| split].
  - rewrite (proj2 (registerAPIMethod_lookup _ _ "logout" _ "login")) by discriminate.
    rewrite registerAPIMethod_entry by assumption. reflexivity.
  - rewrite registerAPIMethod_entry.
    + reflexivity.
    + rewrite (proj2 (registerAPIMethod_lookup _ _ "login" _ "logout")) by discriminate.
      exact Hlogout.
    + exact Hout.
  - rewrite (proj1 (proj2 (registerAPIMethod_keeps _ _ "logout" _ "logout"))).
    apply (registerAPIMethod_keeps _ t "login" _ "login").
Qed.

Lemma trusted_init_entries (inst : Instance) (t : Tables)
    (register : Tables -> PrivilegeChecks * Tables)
    (_api _vfs : list (string * method)) :
  setup_nw inst = true ->
  api t !! "login" = None ->
  api t !! "logout" = None ->
  api (snd (init inst t register _api _vfs)) !! "login"
  = Some (NWHandler_login (DefaultHandler inst))
  /\ api (snd (init inst t register _api _vfs)) !! "logout"
     = Some (wrap_api (checks_of (DefaultHandler inst)) "logout"
               (NWHandler_logout (DefaultHandler inst))).
Proof.
  intros Hnw Hlogin Hlogout.
  rewrite trusted_init_tables by exact Hnw. cbn [fst snd].
  destruct (NWHandler_entries inst t Hlogin Hlogout) as (Hin & Hout & _).
  unfold NWHandler, DefaultHandler_new in Hin, Hout. cbn [snd] in Hin, Hout.
  split.
  - unfold registerMethods at 1.
    apply (proj1 (register_api_all_lookup _ _api _ "login")).
    rewrite register_vfs_all_api. exact Hin.
  - unfold registerMethods at 1.
    apply (proj1 (register_api_all_lookup _ _api _ "logout")).
    rewrite register_vfs_all_api. exact Hout.
Qed.

(** X16.  The start-up in trusted mode.  On tables that hold no login and
    no logout method, [init] answers with the checks of a default handler
    and with tables in which login is the login of the trusted backend, as
    it is, and logout its logout behind the API privilege wrapper: the
    server's own methods of these names do not replace them.  Every
    method of the server's own lists is registered, those apart whose name
    is that of a member every object inherits. *)
Theorem init_trusted (inst : Instance) (t : Tables)
    (register : Tables -> PrivilegeChecks * Tables)
    (_api _vfs : list (string * method)) :
  setup_nw inst = true ->
  api t !! "login" = None ->
  api t !! "logout" = None ->
  let started := init inst t register _api _vfs in
  let this := DefaultHandler inst in
  fst started = checks_of this
  /\ api (snd started) !! "login" = Some (NWHandler_login this)
  /\ api (snd started) !! "logout"
     = Some (wrap_api (checks_of this) "logout" (NWHandler_logout this))
  /\ (forall k, k ∈ map fst _api -> k ∉ Object_prototype_names ->
                is_Some (api (snd started) !! k))
  /\ (forall k, k ∈ map fst _vfs -> k ∉ Object_prototype_names ->
                is_Some (vfs (snd started) !! k)).
Proof.
  intros Hnw Hlogin Hlogout started this. unfold started, this.
  destruct (trusted_init_entries inst t register _api _vfs Hnw Hlogin Hlogout)
    as (Hin & Hout).
  split; [| split; [exact Hin | split; [exact Hout |]]].
  - rewrite trusted_init_tables by exact Hnw. reflexivity.
  - rewrite trusted_init_tables by exact Hnw. cbn [fst snd]. split.
    + intros k Hk Hown. unfold registerMethods at 1.
      apply register_api_all_present; assumption.
    + intros k Hk Hown. unfold registerMethods at 1. rewrite register_api_all_vfs.
      apply register_vfs_all_present; assumption.
Qed.

Lemma init_trusted_witness :
  api (snd (init trusted_server no_methods (fun tables => (probe, tables))
              [("login", echo); ("settings", echo)] [("read", echo)])) !! "login"
  = Some (NWHandler_login (DefaultHandler trusted_server)).
Proof.
  exact (proj1 (proj2 (init_trusted trusted_server no_methods
                         (fun tables => (probe, tables))
                         [("login", echo); ("settings", echo)] [("read", echo)]
                         eq_refl eq_refl eq_refl))).
Defined.

(** X17.  A session of the trusted backend.  After the start-up in
    trusted mode, calling the registered login stores the user nw with the
    group admin and calls back once with success and the login data (the
    user record, empty settings, an empty blacklist).  From then on every
    API privilege check and every VFS privilege check whose path the
    resolver answers is allowed, whatever the privilege tables ask for.
    Calling the registered logout passes its privilege check, clears the
    session and calls back once with success. *)
Theorem trusted_session (inst : Instance) (t : Tables)
    (register : Tables -> PrivilegeChecks * Tables)
    (_api _vfs : list (string * method)) (args : jsval) (w : world) :
  setup_nw inst = true ->
  api t !! "login" = None ->
  api t !! "logout" = None ->
  let tables := snd (init inst t register _api _vfs) in
  let this := DefaultHandler inst in
  exists w1 w2,
    invoke (api tables) "login" args record w = Ret tt w1
    /\ session w1 = with_user nw_user (session w)
    /\ trace w1 = (trace w ++ [Callback JFalse nw_login_record])%list
    /\ (forall privilege callback,
           checkAPIPrivilege this privilege callback w1 = callback JFalse JTrue w1)
    /\ (forall method args' mount callback,
           args' <> JUndefined -> args' <> JNull ->
           vfs_getRealPath inst (vfs_target args') w1 = Ret mount w1 ->
           checkVFSPrivilege this method args' callback w1 = callback JFalse JTrue w1)
    /\ invoke (api tables) "logout" args record w1 = Ret tt w2
    /\ session w2 = cleared (session w1)
    /\ trace w2 = (trace w1 ++ [Callback JFalse JTrue])%list.
Proof.
  intros Hnw Hlogin Hlogout tables this.
  destruct (trusted_init_entries inst t register _api _vfs Hnw Hlogin Hlogout)
    as (Hin & Hout).
  fold tables this in Hin, Hout.
  set (w1 := World (with_user nw_user (session w))
               (trace w ++ [Callback JFalse nw_login_record])).
  assert (Hs : has_session this w1).
  { right. unfold w1. rewrite stored_with_user. reflexivity. }
  assert (Hg : user_groups w1 ["admin"]).
  { unfold w1. apply user_groups_with_user. reflexivity. }
  assert (Hadmin : "admin" ∈ ["admin"]) by apply list_elem_of_here.
  assert (Hcheck : forall privilege callback,
             checkAPIPrivilege this privilege callback w1 = callback JFalse JTrue w1).
  { intros privilege callback. apply (checkAPIPrivilege_admin this w1 ["admin"]);
      assumption. }
  exists w1, (World (cleared (session w1)) (trace w1 ++ [Callback JFalse JTrue])).
  split; [| split; [reflexivity | split; [reflexivity | split; [exact Hcheck | split;
    [| split; [| split; reflexivity]]]]]].
  - rewrite (invoke_entry _ _ _ _ _ _ Hin). unfold NWHandler_login.
    change this with (Backend inst JFalse (JArr [])).
    rewrite (onLogin_run _ _ _ _ _ nw_user)
      by (reflexivity || discriminate).
    reflexivity.
  - intros method args' mount callback Hu Hn Hmount.
    rewrite (checkVFSPrivilege_decision this w1 ["admin"] method args' mount)
      by assumption.
    rewrite GroupEvaluator_admin by exact Hadmin.
    rewrite andb_false_r. reflexivity.
  - rewrite (invoke_entry _ _ _ _ _ _ Hout). unfold wrap_api.
    cbn [call_checkAPIPrivilege checks_of]. rewrite Hcheck. reflexivity.
Qed.

Lemma trusted_session_witness :
  exists w1 w2,
    invoke (api (snd (init trusted_fs_server no_methods (fun tables => (probe, tables))
                        [("login", echo); ("settings", echo)] [("read", echo)])))
      "login" JUndefined record (World ∅ []) = Ret tt w1
    /\ checkAPIPrivilege (DefaultHandler trusted_fs_server) (JStr "fs") record w1
       = Ret tt (World (session w1) (trace w1 ++ [Callback JFalse JTrue]))
    /\ invoke (api (snd (init trusted_fs_server no_methods
                           (fun tables => (probe, tables))
                           [("login", echo); ("settings", echo)] [("read", echo)])))
         "logout" JUndefined record w1 = Ret tt w2
    /\ session w2 = cleared (session w1).
Proof.
  destruct (trusted_session trusted_fs_server no_methods (fun tables => (probe, tables))
              [("login", echo); ("settings", echo)] [("read", echo)] JUndefined
              (World ∅ []) eq_refl eq_refl eq_refl)
    as (w1 & w2 & Hin & _ & _ & Hcheck & _ & Hout & Hsession & _).
  exists w1, w2.
  split; [exact Hin | split; [apply Hcheck | split; [exact Hout | exact Hsession]]].
Defined.

(** ** Packages and a failing blacklist lookup *)

Lemma package_groups_run (packages : jsval) (packageName : jsval) (w : world) :
  (if truthy packages
   then package ← get_prop packages (ToString packageName);
        if truthy package then get_prop package "groups" else mret package
   else mret packages) w
  = Ret (package_requirement packages packageName) w.
Proof.
  unfold package_requirement.
  destruct (truthy packages) eqn:Ep; [| reflexivity].
  rewrite (bind_run _ _ _ _ _ (get_prop_truthy packages _ w Ep)).
  destruct (truthy (lookup_prop packages (ToString packageName))) eqn:El;
    [| reflexivity].
  apply get_prop_truthy. exact El.
Qed.

Lemma _checkHasPackagePrivilege_groups (this : Handler) (w : world) (gs : list string)
    (packageName : jsval) (callback : callback) :
  user_groups w gs ->
  _checkHasPackagePrivilege this packageName callback w
  = let required := package_requirement (metadata (instance this)) packageName in
    if truthy required then
      if GroupEvaluator gs required then
        _checkHasBlacklistedPackage this packageName (fun err res =>
          if truthy err || negb (truthy res)
          then callback (js_or err (JStr package_denied)) JUndefined
          else callback JFalse JTrue) w
      else callback (JStr package_denied) JUndefined w
    else callback JFalse JTrue w.
Proof.
  intros Hg. unfold _checkHasPackagePrivilege. cbv zeta.
  rewrite (bind_run _ _ _ _ _ (package_groups_run _ packageName w)).
  destruct (truthy (package_requirement _ packageName)); [| reflexivity].
  rewrite (_checkHasGroup_run _ w gs) by exact Hg.
  cbn [truthy JFalse].
  destruct (GroupEvaluator gs _); reflexivity.
Qed.

(** X18.  The blacklist is asked last and its failure is the reason of the
    denial.  For a package whose metadata has a groups requirement: a user
    who fails the requirement is denied with the package message and the
    blacklist lookup of the backend does not run, whatever backend it is;
    for a user who meets it, a lookup that fails denies the package with
    the error of the lookup in place of the package message. *)
Theorem checkPackagePrivilege_lookup (w : world) (gs : list string)
    (packageName : jsval) (callback : callback) :
  user_groups w gs ->
  (forall this,
      has_session this w ->
      truthy (package_requirement (metadata (instance this)) packageName) = true ->
      GroupEvaluator gs (package_requirement (metadata (instance this)) packageName)
      = false ->
      checkPackagePrivilege this packageName callback w
      = callback (JStr package_denied) JUndefined w)
  /\ (forall inst error blacklist,
         has_session (Backend inst error blacklist) w ->
         truthy (package_requirement (metadata inst) packageName) = true ->
         GroupEvaluator gs (package_requirement (metadata inst) packageName) = true ->
         truthy error = true ->
         checkPackagePrivilege (Backend inst error blacklist) packageName callback w
         = callback error JUndefined w).
Proof.
  intros Hg. split.
  - intros this Hs Hreq Hfail. unfold checkPackagePrivilege.
    rewrite _checkHasSession_passes by exact Hs. cbn [truthy JFalse].
    rewrite (_checkHasPackagePrivilege_groups this w gs) by exact Hg.
    cbv zeta. rewrite Hreq, Hfail. reflexivity.
  - intros inst error blacklist Hs Hreq Hpass Herr. unfold checkPackagePrivilege.
    rewrite _checkHasSession_passes by exact Hs. cbn [truthy JFalse].
    rewrite (_checkHasPackagePrivilege_groups _ w gs) by exact Hg.
    cbv zeta. cbn [instance Backend]. rewrite Hreq, Hpass.
    unfold _checkHasBlacklistedPackage. cbn [getUserBlacklistedPackages Backend].
    unfold answering. rewrite Herr. cbn [orb]. unfold js_or. rewrite Herr.
    reflexivity.
Qed.

Lemma checkPackagePrivilege_lookup_witness :
  user_groups (logged_in "alice" ["editors"]) ["editors"]
  /\ checkPackagePrivilege
       (Backend editors_package_server (JStr "database down") JUndefined)
       (JStr "foo/bar") record (logged_in "alice" ["editors"])
     = Ret tt (World (session (logged_in "alice" ["editors"]))
                 [Callback (JStr "database down") JUndefined]).
Proof.
  split; [apply user_groups_logged_in |].
  refine (proj2 (checkPackagePrivilege_lookup (logged_in "alice" ["editors"])
                   ["editors"] (JStr "foo/bar") record
                   (user_groups_logged_in "alice" ["editors"]))
            editors_package_server (JStr "database down") JUndefined
            _ eq_refl eq_refl eq_refl).
  right. vm_compute. reflexivity.
Defined.

(** ** A VFS request without arguments *)

(** X19.  A VFS privilege check on a request that passes the session gate
    but brings no argument object ([undefined] or [null]) throws a
    TypeError: the path resolver is not asked and the callback is not
    called. *)
Theorem checkVFSPrivilege_without_args (this : Handler) (w : world) (method : string)
    (args : jsval) (callback : callback) :
  has_session this w ->
  nullish args ->
  checkVFSPrivilege this method args callback w = Throw TypeError w.
Proof.
  intros Hs Hargs. unfold checkVFSPrivilege.
  rewrite _checkHasSession_passes by exact Hs. cbn [truthy JFalse].
  unfold _checkHasVFSPrivilege. destruct Hargs as [-> | ->]; reflexivity.
Qed.

Lemma checkVFSPrivilege_without_args_witness :
  has_session (DefaultHandler home_for_trusted_server) (logged_in "root" ["admin"])
  /\ nullish JUndefined
  /\ checkVFSPrivilege (DefaultHandler home_for_trusted_server) "read" JUndefined record
       (logged_in "root" ["admin"])
     = Throw TypeError (logged_in "root" ["admin"]).
Proof.
  assert (Hs : has_session (DefaultHandler home_for_trusted_server)
                 (logged_in "root" ["admin"]))
    by (right; vm_compute; reflexivity).
  assert (Hn : nullish JUndefined) by (left; reflexivity).
  split; [exact Hs | split; [exact Hn |]].
  exact (checkVFSPrivilege_without_args _ _ "read" JUndefined record Hs Hn).
Defined.

(** ** The protocol of a mount *)

Lemma substring_append_take (p s : string) :
  String.substring 0 (String.length p) (p +:+ s) = p.
Proof.
  induction p as [|c p IH].
  - destruct s; reflexivity.
  - change (String c (String.substring 0 (String.length p) (p +:+ s)) = String c p).
    rewrite IH. reflexivity.
Qed.

Lemma substring_append_skip (p s : string) (n : nat) :
  String.substring (String.length p) n (p +:+ s) = String.substring 0 n s.
Proof.
  induction p as [|c p IH]; [reflexivity |].
  change (String.substring (String.length p) n (p +:+ s) = String.substring 0 n s).
  exact IH.
Qed.

Lemma strip_protocol_suffix_name (p : string) :
  strip_protocol_suffix (p +:+ "://") = p.
Proof.
  unfold strip_protocol_suffix. cbv zeta.
  rewrite append_length. change (String.length "://") with 3%nat.
  replace (String.length p + 3 - 3)%nat with (String.length p) by lia.
  replace (3 <=? String.length p + 3)%nat with true
    by (symmetry; apply Nat.leb_le; lia).
  rewrite substring_append_skip.
  change (String.substring 0 3 "://") with "://".
  change (String.eqb "://" "://") with true. cbn [andb].
  apply substring_append_take.
Qed.

(** X20.  The VFS privilege table is keyed by the bare protocol name: for
    a mount whose protocol is a name followed by colon-slash-slash, the
    name being none of those every object inherits, the requirement the
    check runs against is the table's entry under the name, and the check
    allows or denies by the group evaluation of that entry. *)
Theorem checkVFSPrivilege_protocol (this : Handler) (w : world) (gs : list string)
    (method name : string) (args : jsval) (table : list (string * jsval))
    (callback : callback) :
  has_session this w ->
  user_groups w gs ->
  args <> JUndefined -> args <> JNull ->
  config_vfs_groups (instance this) = JObj table ->
  name ∉ Object_prototype_names ->
  vfs_getRealPath (instance this) (vfs_target args) w
  = Ret (JObj [("protocol", JStr (name +:+ "://"))]) w ->
  let entry := default JUndefined (assoc_get name table) in
  checkVFSPrivilege this method args callback w
  = if truthy entry && negb (GroupEvaluator gs entry)
    then callback (JStr vfs_denied) JFalse w
    else callback JFalse JTrue w.
Proof.
  intros Hs Hg Hu Hn Htable _ Hmount entry.
  rewrite (checkVFSPrivilege_decision this w gs method args _ callback Hs Hg Hu Hn Hmount).
  rewrite Htable. unfold vfs_requirement.
  cbn [assoc_get String.eqb Ascii.eqb Bool.eqb default id lookup_prop].
  rewrite strip_protocol_suffix_name. reflexivity.
Qed.

Lemma checkVFSPrivilege_protocol_witness :
  checkVFSPrivilege (DefaultHandler home_for_trusted_server) "read"
    (JObj [("path", JStr "home:///notes.txt")]) record (logged_in "alice" ["trusted"])
  = Ret tt (World (session (logged_in "alice" ["trusted"])) [Callback JFalse JTrue]).
Proof.
  refine (checkVFSPrivilege_protocol (DefaultHandler home_for_trusted_server)
            (logged_in "alice" ["trusted"]) ["trusted"] "read" "home"
            (JObj [("path", JStr "home:///notes.txt")])
            [("home", JArr [JStr "trusted"])] record
            _ (user_groups_logged_in "alice" ["trusted"])
            ltac:(discriminate) ltac:(discriminate) eq_refl _ eq_refl).
  - right. vm_compute. reflexivity.
  - apply (bool_decide_unpack _). vm_compute. exact I.
Defined.

(** ** System login and the checks that follow *)

(** X21.  The groups registry decides what a system login may do.  For a
    username that is not the name of a member every object inherits, on a
    disk whose three files are within the model: when the registry file
    gives the user the list of names [gs] (the empty list when the file is
    missing, is not JSON or has no entry for the user), then after
    [onSystemLogin] the session holds the username and every group check
    is decided by [gs]. *)
Theorem system_login_groups (_fs : FileSystem) (this : Handler)
    (cfg : SystemConfig) (username : string) (uid : jsval)
    (gs : list string) (w : world) :
  username ∉ Object_prototype_names ->
  system_files _fs cfg username ->
  system_groups _fs cfg username = JArr (map JStr gs) ->
  exists w1,
    onSystemLogin _fs this cfg username (fun cb => cb uid) record w = Ret tt w1
    /\ stored w1 "username" = JStr username
    /\ (forall that required callback,
           _checkHasGroup that required callback w1
           = callback JFalse (JBool (GroupEvaluator gs required)) w1)
    /\ (unreadable (readFile_result _fs (cfg_groups cfg)) -> gs = []).
Proof.
  intros _ Hfiles Hgroups.
  exists (World (with_user (system_user uid username (system_groups _fs cfg username))
                   (session w))
            (trace w ++
             [Callback JFalse
                (JObj [("userData",
                        system_user uid username (system_groups _fs cfg username));
                       ("userSettings",
                        js_or (system_settings _fs cfg username) (JObj []));
                       ("blacklistedPackages", system_blacklist _fs cfg username)])])).
  split; [| split; [| split]].
  - rewrite onSystemLogin_run by (apply (system_files_groups _fs cfg username Hfiles)).
    reflexivity.
  - rewrite stored_with_user. reflexivity.
  - intros that required callback. apply _checkHasGroup_run.
    apply user_groups_with_user. exact Hgroups.
  - intros Hfile. unfold system_groups in Hgroups.
    rewrite parsed_or_unreadable in Hgroups by exact Hfile.
    destruct gs as [|g gs]; [reflexivity | discriminate Hgroups].
Qed.

Lemma system_login_groups_witness :
  ("alice" ∉ Object_prototype_names)
  /\ system_files users_registry_disk home_config "alice"
  /\ exists w1,
      onSystemLogin users_registry_disk (DefaultHandler plain_server) home_config "alice"
        (fun cb => cb (JNum 1000)) record (World ∅ []) = Ret tt w1
      /\ stored w1 "username" = JStr "alice"
      /\ _checkHasGroup (DefaultHandler plain_server) (JStr "users") record w1
         = Ret tt (World (session w1) (trace w1 ++ [Callback JFalse JTrue])).
Proof.
  assert (Hown : "alice" ∉ Object_prototype_names)
    by (apply (bool_decide_unpack _); vm_compute; exact I).
  assert (Hfiles : system_files users_registry_disk home_config "alice").
  { split; [exact I | split; [| split; exact I]].
    split; [vm_compute; reflexivity |].
    intros v H. vm_compute in H. injection H as <-. eexists. reflexivity. }
  split; [exact Hown | split; [exact Hfiles |]].
  destruct (system_login_groups users_registry_disk (DefaultHandler plain_server)
              home_config "alice" (JNum 1000) ["users"] (World ∅ []) Hown Hfiles eq_refl)
    as (w1 & Hrun & Hname & Hcheck & _).
  exists w1. split; [exact Hrun | split; [exact Hname |]].
  exact (Hcheck (DefaultHandler plain_server) (JStr "users") record).
Defined.

(** ** Where the settings go *)

Lemma onSystemSettings_run (_path_dirname : string -> string) (_fs : FileSystem)
    (this : Handler) (cfg : SystemConfig) (settings : jsval) (w : world) :
  onSystemSettings _path_dirname _fs this cfg settings record w
  = Ret tt
      (World (session w)
         (trace w ++
          [Mkdir (_path_dirname (getSettingsPath cfg (stored w "username")));
           WriteFile (getSettingsPath cfg (stored w "username"))
             (JSON_stringify settings);
           write_report
             (writeFile_result _fs (getSettingsPath cfg (stored w "username"))
                (JSON_stringify settings))])).
Proof.
  unfold onSystemSettings, getUserName, mkdir, writeFile, write_report. run.
  fold (stored w "username").
  destruct (writeFile_result _fs _ _); unfold emit; simpl;
    rewrite <- !app_assoc; reflexivity.
Qed.

(** X22.  The settings are written where the login reads them.  For a
    username that is not the name of a member every object inherits, on a
    disk whose three files are within the model: the record a system
    login hands to its caller holds as user settings what the file at the
    settings path of the user holds (the empty object where that is falsy,
    where the file cannot be read and where it is not JSON), and
    [onSystemSettings], called after the login, writes the settings to
    that same path. *)
Theorem settings_written_where_read (_fs : FileSystem) (this : Handler)
    (cfg : SystemConfig) (username : string) (uid : jsval) (w : world) :
  username ∉ Object_prototype_names ->
  system_files _fs cfg username ->
  let spath := getSettingsPath cfg (JStr username) in
  exists w1 data,
    onSystemLogin _fs this cfg username (fun cb => cb uid) record w = Ret tt w1
    /\ trace w1 = (trace w ++ [Callback JFalse (JObj data)])%list
    /\ (forall content v,
           readFile_result _fs spath = ReadData content ->
           JSON_parse_text content = Some v ->
           assoc_get "userSettings" data = Some (js_or v (JObj [])))
    /\ (unreadable (readFile_result _fs spath) ->
        assoc_get "userSettings" data = Some (JObj []))
    /\ (forall _path_dirname disk that settings,
           onSystemSettings _path_dirname disk that cfg settings record w1
           = Ret tt
               (World (session w1)
                  (trace w1 ++
                   [Mkdir (_path_dirname spath);
                    WriteFile spath (JSON_stringify settings);
                    write_report
                      (writeFile_result disk spath (JSON_stringify settings))]))).
Proof.
  intros _ Hfiles spath.
  exists (World (with_user (system_user uid username (system_groups _fs cfg username))
                   (session w))
            (trace w ++
             [Callback JFalse
                (JObj [("userData",
                        system_user uid username (system_groups _fs cfg username));
                       ("userSettings",
                        js_or (system_settings _fs cfg username) (JObj []));
                       ("blacklistedPackages", system_blacklist _fs cfg username)])])).
  exists [("userData", system_user uid username (system_groups _fs cfg username));
          ("userSettings", js_or (system_settings _fs cfg username) (JObj []));
          ("blacklistedPackages", system_blacklist _fs cfg username)].
  split; [| split; [reflexivity | split; [| split]]].
  - rewrite onSystemLogin_run by (apply (system_files_groups _fs cfg username Hfiles)).
    reflexivity.
  - intros content v Hfile Hparse. unfold system_settings. fold spath.
    rewrite Hfile. cbn [parsed_or]. rewrite Hparse. reflexivity.
  - intros Hfile. unfold system_settings. fold spath.
    rewrite parsed_or_unreadable by exact Hfile. reflexivity.
  - intros _path_dirname disk that settings.
    rewrite onSystemSettings_run. rewrite stored_with_user. reflexivity.
Qed.

Lemma settings_written_where_read_witness :
  ("alice" ∉ Object_prototype_names)
  /\ system_files empty_disk home_config "alice"
  /\ exists w1 data,
      onSystemLogin empty_disk (DefaultHandler plain_server) home_config "alice"
        (fun cb => cb (JNum 1000)) record (World ∅ []) = Ret tt w1
      /\ trace w1 = ([] ++ [Callback JFalse (JObj data)])%list
      /\ assoc_get "userSettings" data = Some (JObj [])
      /\ onSystemSettings dirname_of empty_disk (DefaultHandler plain_server) home_config
           (JObj []) record w1
         = Ret tt
             (World (session w1)
                (trace w1 ++
                 [Mkdir "/home/alice/.osjs";
                  WriteFile "/home/alice/.osjs/settings.json" (JStr "{}");
                  Callback JFalse JFalse])).
Proof.
  assert (Hown : "alice" ∉ Object_prototype_names)
    by (apply (bool_decide_unpack _); vm_compute; exact I).
  assert (Hfiles : system_files empty_disk home_config "alice")
    by (repeat split).
  split; [exact Hown | split; [exact Hfiles |]].
  destruct (settings_written_where_read empty_disk (DefaultHandler plain_server)
              home_config "alice" (JNum 1000) (World ∅ []) Hown Hfiles)
    as (w1 & data & Hrun & Htrace & _ & Hmissing & Hwrite).
  exists w1, data.
  split; [exact Hrun | split; [exact Htrace | split; [exact (Hmissing I) |]]].
  exact (Hwrite dirname_of empty_disk (DefaultHandler plain_server) (JObj [])).
Defined.

(** X23.  [onSystemSettings] asks for no session.  On a session without a
    username, an absent entry or the [null] a logout leaves, it writes the
    settings all the same: to the path the template gives for the text
    undefined or null in the place of the username. *)
Theorem settings_without_session (_path_dirname : string -> string) (_fs : FileSystem)
    (this : Handler) (cfg : SystemConfig) (settings : jsval) (w : world) :
  nullish (stored w "username") ->
  let name := ToString (stored w "username") in
  let spath := replace_first (cfg_settings cfg) "%USERNAME%" name in
  (name = "undefined" \/ name = "null")
  /\ onSystemSettings _path_dirname _fs this cfg settings record w
     = Ret tt
         (World (session w)
            (trace w ++
             [Mkdir (_path_dirname spath);
              WriteFile spath (JSON_stringify settings);
              write_report (writeFile_result _fs spath (JSON_stringify settings))])).
Proof.
  intros Hname name spath.
  assert (Hpath : getSettingsPath cfg (stored w "username") = spath).
  { unfold spath, name, getSettingsPath.
    destruct Hname as [-> | ->]; cbn [strict_eq ToString];
      apply String_replace_dollar_free; reflexivity. }
  split.
  - unfold name. destruct Hname as [-> | ->]; [left | right]; reflexivity.
  - rewrite onSystemSettings_run, Hpath. reflexivity.
Qed.

Lemma settings_without_session_witness :
  nullish (stored (World logged_out []) "username")
  /\ onSystemSettings dirname_of empty_disk (DefaultHandler plain_server) home_config
       (JObj []) record (World logged_out [])
     = Ret tt
         (World logged_out
            [Mkdir "/home/null/.osjs";
             WriteFile "/home/null/.osjs/settings.json" (JStr "{}");
             Callback JFalse JFalse]).
Proof.
  assert (Hn : nullish (stored (World logged_out []) "username"))
    by (right; reflexivity).
  split; [exact Hn |].
  exact (proj2 (settings_without_session dirname_of empty_disk
                  (DefaultHandler plain_server) home_config (JObj [])
                  (World logged_out []) Hn)).
Defined.

(** ** The start-up with a backend *)

(** X24.  The start-up outside trusted mode.  The handler [init] answers
    with is the one the backend module built.  The server's own methods
    are registered after the backend's: a method the backend has
    registered stays as it is, and each of the server's methods under a
    free name that no object inherits is entered behind the privilege
    wrapper that asks the backend's handler, or as it is when its name is
    on the ignore list. *)
Theorem init_backend (inst : Instance) (t : Tables)
    (register : Tables -> PrivilegeChecks * Tables)
    (_api _vfs : list (string * method)) :
  setup_nw inst = false ->
  NoDup (map fst _api) ->
  NoDup (map fst _vfs) ->
  let handler := fst (register t) in
  let built := snd (register t) in
  let started := init inst t register _api _vfs in
  fst started = handler
  /\ (forall k m, api built !! k = Some m -> api (snd started) !! k = Some m)
  /\ (forall k m, vfs built !! k = Some m -> vfs (snd started) !! k = Some m)
  /\ (forall fn f, (fn, f) ∈ _api -> api built !! fn = None ->
        fn ∉ Object_prototype_names ->
        api (snd started) !! fn
        = Some (if bool_decide (fn ∈ ignorePrivilegesAPI) then f
                else wrap_api handler fn f))
  /\ (forall fn f, (fn, f) ∈ _vfs -> vfs built !! fn = None ->
        fn ∉ Object_prototype_names ->
        vfs (snd started) !! fn
        = Some (if bool_decide (fn ∈ ignorePrivilegesVFS) then f
                else wrap_vfs handler fn f)).
Proof.
  intros Hnw Hapi Hvfs handler built started.
  unfold started, init. rewrite Hnw. cbv zeta. cbn [fst snd].
  fold handler built. unfold registerMethods.
  split; [reflexivity | split; [| split; [| split]]].
  - intros k m H. apply (proj1 (register_api_all_lookup handler _api _ k)).
    rewrite register_vfs_all_api. exact H.
  - intros k m H. rewrite register_api_all_vfs.
    apply (proj1 (register_vfs_all_lookup handler _vfs built k)). exact H.
  - intros fn f Hin Hfree Hown.
    apply register_api_all_entry; [exact Hapi | exact Hin | | exact Hown].
    rewrite register_vfs_all_api. exact Hfree.
  - intros fn f Hin Hfree Hown. rewrite register_api_all_vfs.
    apply register_vfs_all_entry; assumption.
Qed.

Lemma init_backend_witness :
  api (snd (init plain_server no_methods
              (fun tables => (probe, registerAPIMethod probe tables "settings" echo))
              [("settings", fun _ callback => callback (JStr "other") JUndefined)]
              [])) !! "settings"
  = Some (wrap_api probe "settings" echo).
Proof.
  refine (proj1 (proj2 (init_backend plain_server no_methods
                          (fun tables =>
                             (probe, registerAPIMethod probe tables "settings" echo))
                          [("settings",
                            fun _ callback => callback (JStr "other") JUndefined)]
                          [] eq_refl _ _))
            "settings" (wrap_api probe "settings" echo) eq_refl).
  - cbn [map fst]. apply NoDup_cons. split; [apply not_elem_of_nil | apply NoDup_nil_2].
  - apply NoDup_nil_2.
Defined.

(** ** More groups, more access *)

Lemma GroupEvaluator_more_groups (gs gs' : list string) (required : jsval) :
  gs ⊆ gs' -> GroupEvaluator gs required = true -> GroupEvaluator gs' required = true.
Proof.
  intros Hsub. rewrite !GroupEvaluator_true. intros [H | [H | H]].
  - left. exact H.
  - right. left. apply Hsub. exact H.
  - right. right. intros p Hp. destruct (H p Hp) as (s & -> & Hs).
    exists s. split; [reflexivity | apply Hsub; exact Hs].
Qed.

Lemma GroupEvaluator_fewer_required (gs : list string) (items items' : list jsval) :
  items' ⊆ items ->
  GroupEvaluator gs (JArr items) = true -> GroupEvaluator gs (JArr items') = true.
Proof.
  intros Hsub. rewrite !GroupEvaluator_true. intros [H | [H | H]].
  - discriminate H.
  - right. left. exact H.
  - right. right. intros p Hp. apply H. cbn [required_set] in *. apply Hsub. exact Hp.
Qed.

Lemma allows_checkHasGroup (this : Handler) (w : world) (gs : list string)
    (required : jsval) :
  user_groups w gs ->
  allows (_checkHasGroup this required) w <-> GroupEvaluator gs required = true.
Proof.
  intros Hg. unfold allows. rewrite (_checkHasGroup_run this w gs) by exact Hg.
  split.
  - intros H. change (record JFalse (JBool (GroupEvaluator gs required)) w
                      = record JFalse JTrue w) in H.
    apply record_inj in H. destruct H as [_ H]. injection H as H. exact H.
  - intros ->. reflexivity.
Qed.

(** X25.  The group check is monotone.  A requirement that a user passes
    is passed by every user who holds these groups and more; and a user
    who passes a list of required groups passes every list made of some of
    them. *)
Theorem more_groups_more_access (this : Handler) (w w' : world) (gs gs' : list string) :
  user_groups w gs ->
  user_groups w' gs' ->
  gs ⊆ gs' ->
  (forall required,
      allows (_checkHasGroup this required) w ->
      allows (_checkHasGroup this required) w')
  /\ (forall items items',
         items' ⊆ items ->
         allows (_checkHasGroup this (JArr items)) w ->
         allows (_checkHasGroup this (JArr items')) w).
Proof.
  intros Hg Hg' Hsub. split.
  - intros required.
    rewrite (allows_checkHasGroup this w gs) by exact Hg.
    rewrite (allows_checkHasGroup this w' gs') by exact Hg'.
    apply GroupEvaluator_more_groups. exact Hsub.
  - intros items items' Hitems.
    rewrite !(allows_checkHasGroup this w gs) by exact Hg.
    apply GroupEvaluator_fewer_required. exact Hitems.
Qed.

Lemma more_groups_more_access_witness :
  user_groups (logged_in "alice" ["users"]) ["users"]
  /\ user_groups (logged_in "bob" ["staff"; "users"]) ["staff"; "users"]
  /\ (allows (_checkHasGroup (DefaultHandler plain_server) (JStr "users"))
        (logged_in "alice" ["users"]) ->
      allows (_checkHasGroup (DefaultHandler plain_server) (JStr "users"))
        (logged_in "bob" ["staff"; "users"])).
Proof.
  split; [apply user_groups_logged_in | split; [apply user_groups_logged_in |]].
  refine (proj1 (more_groups_more_access (DefaultHandler plain_server)
                   (logged_in "alice" ["users"]) (logged_in "bob" ["staff"; "users"])
                   ["users"] ["staff"; "users"]
                   (user_groups_logged_in "alice" ["users"])
                   (user_groups_logged_in "bob" ["staff"; "users"]) _) (JStr "users")).
  intros g Hg. apply list_elem_of_further. exact Hg.
Defined.

(** ** A check answers once *)

Lemma forEach_missing_outcome (groups : jsval) (items : list jsval) (allowed : bool)
    (w : world) :
  (exists b, forEach_missing groups items allowed w = Ret b w)
  \/ forEach_missing groups items allowed w = Throw TypeError w.
Proof.
  revert allowed. induction items as [|p rest IH]; intros allowed.
  - left. exists allowed. reflexivity.
  - cbn [forEach_missing].
    destruct groups as [ | | b | z | s | gitems | props | m | c];
      try (right; reflexivity).
    + cbn [indexOf]. rewrite bind_ret. apply IH.
    + cbn [indexOf]. rewrite bind_ret. apply IH.
Qed.

Lemma _checkHasGroup_outcome (this : Handler) (required : jsval) (w : world) :
  (exists b, forall callback,
      _checkHasGroup this required callback w = callback JFalse (JBool b) w)
  \/ throws (_checkHasGroup this required) TypeError w.
Proof.
  unfold throws, _checkHasGroup. rewrite groupnames_normal.
  change (negb (String.eqb (typeof (JArr (required_items required))) "boolean"))
    with true.
  cbv iota.
  destruct (getUserGroups_total this w) as [v Hv].
  assert (Hstep : forall (k : jsval -> M bool) (callback : callback),
             ((groups ← getUserGroups this; k groups) ≫=
                (fun allowed => callback JFalse (JBool allowed))) w
             = (k v ≫= (fun allowed => callback JFalse (JBool allowed))) w).
  { intros k callback. rewrite bind_assoc. rewrite (bind_run _ _ _ _ _ Hv).
    reflexivity. }
  assert (Hloop : forall groups,
             (exists b, forall callback : callback,
                 (forEach_missing groups (required_items required) true ≫=
                    (fun allowed => callback JFalse (JBool allowed))) w
                 = callback JFalse (JBool b) w)
             \/ (forall callback : callback,
                    (forEach_missing groups (required_items required) true ≫=
                       (fun allowed => callback JFalse (JBool allowed))) w
                    = Throw TypeError w)).
  { intros groups.
    destruct (forEach_missing_outcome groups (required_items required) true w)
      as [[b Hb] | Hthrow].
    - left. exists b. intros callback. rewrite (bind_run _ _ _ _ _ Hb). reflexivity.
    - right. intros callback. unfold mbind, M_bind. rewrite Hthrow. reflexivity. }
  destruct v as [ | | b | z | s | gitems | props | m | c];
    try (right; intros callback; rewrite Hstep; reflexivity).
  - destruct (String_indexOf s "admin" <? 0) eqn:Ei.
    + destruct (Hloop (JStr s)) as [[b Hb] | Hthrow].
      * left. exists b. intros callback. rewrite Hstep. cbn [indexOf ToString].
        rewrite bind_assoc, bind_ret, Ei. apply Hb.
      * right. intros callback. rewrite Hstep. cbn [indexOf ToString].
        rewrite bind_assoc, bind_ret, Ei. apply Hthrow.
    + left. exists true. intros callback. rewrite Hstep. cbn [indexOf ToString].
      rewrite bind_assoc, bind_ret, Ei. reflexivity.
  - destruct (Array_indexOf gitems (JStr "admin") 0 <? 0) eqn:Ei.
    + destruct (Hloop (JArr gitems)) as [[b Hb] | Hthrow].
      * left. exists b. intros callback. rewrite Hstep. cbn [indexOf].
        rewrite bind_assoc, bind_ret, Ei. apply Hb.
      * right. intros callback. rewrite Hstep. cbn [indexOf].
        rewrite bind_assoc, bind_ret, Ei. apply Hthrow.
    + left. exists true. intros callback. rewrite Hstep. cbn [indexOf].
      rewrite bind_assoc, bind_ret, Ei. reflexivity.
Qed.

Lemma after_group_check (this : Handler) (required : jsval) (w : world)
    (k : callback -> callback) :
  (forall b,
      (exists err res, forall callback, k callback JFalse (JBool b) w = callback err res w)
      \/ (forall callback, k callback JFalse (JBool b) w = Throw TypeError w)) ->
  answers_once (fun callback => _checkHasGroup this required (k callback)) w
  \/ throws (fun callback => _checkHasGroup this required (k callback)) TypeError w.
Proof.
  intros Hk. unfold answers_once, throws.
  destruct (_checkHasGroup_outcome this required w) as [[b Hb] | Hthrow].
  - destruct (Hk b) as [(err & res & Hcall) | Hfail].
    + left. exists err, res. intros callback. rewrite Hb. apply Hcall.
    + right. intros callback. rewrite Hb. apply Hfail.
  - right. intros callback. apply Hthrow.
Qed.

Lemma api_requirement_run (map privilege : jsval) (w : world) :
  (if truthy map
   then if truthy privilege then get_prop map (ToString privilege) else mret privilege
   else mret map) w
  = Ret (api_requirement map privilege) w.
Proof.
  unfold api_requirement.
  destruct (truthy map) eqn:Em; [| reflexivity].
  destruct (truthy privilege); [| reflexivity].
  apply get_prop_truthy. exact Em.
Qed.

Lemma _checkHasAPIPrivilege_outcome (this : Handler) (privilege : jsval) (w : world) :
  answers_once (_checkHasAPIPrivilege this privilege) w
  \/ throws (_checkHasAPIPrivilege this privilege) TypeError w.
Proof.
  destruct (truthy (api_requirement (config_api_groups (instance this)) privilege))
    eqn:Ereq.
  - destruct (after_group_check this privilege w
                (fun callback err res =>
                   callback (if negb (truthy res) && negb (truthy err)
                             then JStr "You are not allowed to use this API function!"
                             else err) res)) as [(err & res & H) | H].
    + intros b. left. eexists. eexists. intros callback. reflexivity.
    + left. exists err, res. intros callback. unfold _checkHasAPIPrivilege.
      rewrite (bind_run _ _ _ _ _ (api_requirement_run _ privilege w)).
      rewrite Ereq. apply H.
    + right. intros callback. unfold _checkHasAPIPrivilege.
      rewrite (bind_run _ _ _ _ _ (api_requirement_run _ privilege w)).
      rewrite Ereq. apply H.
  - left. exists JFalse, JTrue. intros callback.
    apply _checkHasAPIPrivilege_unlisted. exact Ereq.
Qed.

Lemma _checkHasVFSPrivilege_outcome (this : Handler) (method : string)
    (args mount : jsval) (w : world) :
  args <> JUndefined -> args <> JNull ->
  vfs_getRealPath (instance this) (vfs_target args) w = Ret mount w ->
  answers_once (_checkHasVFSPrivilege this method args) w
  \/ throws (_checkHasVFSPrivilege this method args) TypeError w.
Proof.
  intros Hu Hn Hmount.
  destruct (truthy (vfs_requirement (config_vfs_groups (instance this)) mount))
    eqn:Ereq.
  - destruct (after_group_check this
                (vfs_requirement (config_vfs_groups (instance this)) mount) w
                (fun callback err res =>
                   callback (if negb (truthy res) && negb (truthy err)
                             then JStr vfs_denied else err) res))
      as [(err & res & H) | H].
    + intros b. left. eexists. eexists. intros callback. reflexivity.
    + left. exists err, res. intros callback.
      rewrite (_checkHasVFSPrivilege_run this w method args mount) by assumption.
      rewrite Ereq. apply H.
    + right. intros callback.
      rewrite (_checkHasVFSPrivilege_run this w method args mount) by assumption.
      rewrite Ereq. apply H.
  - left. exists JFalse, JTrue. intros callback.
    rewrite (_checkHasVFSPrivilege_run this w method args mount) by assumption.
    rewrite Ereq. reflexivity.
Qed.

Lemma _checkHasBlacklistedPackage_outcome (this : Handler) (packageName : jsval)
    (w : world) (k : callback -> callback) :
  answers_once (getUserBlacklistedPackages this) w ->
  (forall err res,
      exists err' res', forall callback, k callback err res w = callback err' res' w) ->
  answers_once (fun callback => _checkHasBlacklistedPackage this packageName (k callback)) w
  \/ throws (fun callback => _checkHasBlacklistedPackage this packageName (k callback))
       TypeError w.
Proof.
  intros (error & blacklist & Hlookup) Hk. unfold answers_once, throws.
  unfold _checkHasBlacklistedPackage.
  destruct (truthy error) eqn:Eerr.
  - destruct (Hk error JFalse) as (err' & res' & H).
    left. exists err', res'. intros callback. rewrite Hlookup, Eerr. apply H.
  - destruct (js_or blacklist (JArr [])) as [ | | b | z | s | items | props | m | c] eqn:El;
      try (right; intros callback; rewrite Hlookup, Eerr, El; reflexivity).
    + destruct (Hk JFalse (JBool (0 <=? String_indexOf s (ToString packageName))))
        as (err' & res' & H).
      left. exists err', res'. intros callback. rewrite Hlookup, Eerr, El.
      cbn [indexOf]. rewrite bind_ret. apply H.
    + destruct (Hk JFalse (JBool (0 <=? Array_indexOf items packageName 0)))
        as (err' & res' & H).
      left. exists err', res'. intros callback. rewrite Hlookup, Eerr, El.
      cbn [indexOf]. rewrite bind_ret. apply H.
Qed.

Lemma _checkHasPackagePrivilege_outcome (this : Handler) (packageName : jsval)
    (w : world) :
  answers_once (getUserBlacklistedPackages this) w ->
  answers_once (_checkHasPackagePrivilege this packageName) w
  \/ throws (_checkHasPackagePrivilege this packageName) TypeError w.
Proof.
  intros Hlookup.
  set (required := package_requirement (metadata (instance this)) packageName).
  assert (Hrun : forall callback,
             _checkHasPackagePrivilege this packageName callback w
             = if truthy required then
                 _checkHasGroup this required (fun err res =>
                   if truthy err
                   then callback (js_or err (JStr "You are not allowed to load this Package"))
                          JUndefined
                   else if truthy res then
                     _checkHasBlacklistedPackage this packageName (fun err res =>
                       if truthy err || negb (truthy res)
                       then callback
                              (js_or err (JStr "You are not allowed to load this Package"))
                              JUndefined
                       else callback JFalse JTrue)
                   else callback
                          (js_or JUndefined (JStr "You are not allowed to load this Package"))
                          JUndefined) w
               else callback JFalse JTrue w).
  { intros callback. unfold _checkHasPackagePrivilege. cbv zeta.
    rewrite (bind_run _ _ _ _ _ (package_groups_run _ packageName w)).
    fold required. destruct (truthy required); reflexivity. }
  destruct (truthy required) eqn:Ereq.
  - destruct (after_group_check this required w
                (fun callback err res =>
                   if truthy err
                   then callback (js_or err (JStr "You are not allowed to load this Package"))
                          JUndefined
                   else if truthy res then
                     _checkHasBlacklistedPackage this packageName (fun err res =>
                       if truthy err || negb (truthy res)
                       then callback
                              (js_or err (JStr "You are not allowed to load this Package"))
                              JUndefined
                       else callback JFalse JTrue)
                   else callback
                          (js_or JUndefined (JStr "You are not allowed to load this Package"))
                          JUndefined)) as [(err & res & H) | H].
    + intros [|]; cbn [truthy JFalse].
      * apply (_checkHasBlacklistedPackage_outcome this packageName w
                 (fun callback err res =>
                    if truthy err || negb (truthy res)
                    then callback
                           (js_or err (JStr "You are not allowed to load this Package"))
                           JUndefined
                    else callback JFalse JTrue) Hlookup).
        intros err res. destruct (truthy err || negb (truthy res));
          eexists; eexists; intros callback; reflexivity.
      * left. eexists. eexists. intros callback. reflexivity.
    + left. exists err, res. intros callback. rewrite Hrun. apply H.
    + right. intros callback. rewrite Hrun. apply H.
  - left. exists JFalse, JTrue. intros callback. rewrite Hrun. reflexivity.
Qed.

Lemma behind_session_gate (this : Handler) (w : world) (check : callback -> M unit) :
  answers_once check w \/ throws check TypeError w ->
  answers_once (fun callback =>
     _checkHasSession this (fun err _ =>
       if truthy err then callback err JUndefined else check callback)) w
  \/ throws (fun callback =>
       _checkHasSession this (fun err _ =>
         if truthy err then callback err JUndefined else check callback)) TypeError w.
Proof.
  intros Hcheck. unfold answers_once, throws.
  destruct (setup_nw (instance this) || truthy (stored w "username")) eqn:Egate.
  - destruct Hcheck as [(err & res & H) | H].
    + left. exists err, res. intros callback.
      rewrite _checkHasSession_decision, Egate. apply H.
    + right. intros callback. rewrite _checkHasSession_decision, Egate. apply H.
  - left. exists (JStr no_session), JUndefined. intros callback.
    rewrite _checkHasSession_decision, Egate. reflexivity.
Qed.

(** X26.  A privilege check answers once.  On every session, whatever it
    holds, each check either calls the caller's callback exactly once and
    does nothing else, the session being left as it was, or throws a
    TypeError without calling back: the group check, the API check, the
    VFS check on a request with arguments whose path the resolver
    answers, and the package check on a handler whose blacklist lookup
    answers once.  The group check never answers with an error. *)
Theorem privilege_checks_answer_once (this : Handler) (w : world) :
  (forall required,
      (exists b, forall callback,
          _checkHasGroup this required callback w = callback JFalse (JBool b) w)
      \/ throws (_checkHasGroup this required) TypeError w)
  /\ (forall privilege,
         answers_once (checkAPIPrivilege this privilege) w
         \/ throws (checkAPIPrivilege this privilege) TypeError w)
  /\ (forall method args mount,
         args <> JUndefined -> args <> JNull ->
         vfs_getRealPath (instance this) (vfs_target args) w = Ret mount w ->
         answers_once (checkVFSPrivilege this method args) w
         \/ throws (checkVFSPrivilege this method args) TypeError w)
  /\ (forall packageName,
         answers_once (getUserBlacklistedPackages this) w ->
         answers_once (checkPackagePrivilege this packageName) w
         \/ throws (checkPackagePrivilege this packageName) TypeError w).
Proof.
  split; [| split; [| split]].
  - intros required. apply _checkHasGroup_outcome.
  - intros privilege.
    apply (behind_session_gate this w (_checkHasAPIPrivilege this privilege)).
    apply _checkHasAPIPrivilege_outcome.
  - intros method args mount Hu Hn Hmount.
    apply (behind_session_gate this w (_checkHasVFSPrivilege this method args)).
    apply (_checkHasVFSPrivilege_outcome this method args mount); assumption.
  - intros packageName Hlookup.
    apply (behind_session_gate this w (_checkHasPackagePrivilege this packageName)).
    apply _checkHasPackagePrivilege_outcome. exact Hlookup.
Qed.

Lemma privilege_checks_answer_once_witness :
  answers_once (getUserBlacklistedPackages (DefaultHandler editors_package_server))
    (World logged_out [])
  /\ (answers_once (checkPackagePrivilege (DefaultHandler editors_package_server)
                      (JStr "foo/bar")) (World logged_out [])
      \/ throws (checkPackagePrivilege (DefaultHandler editors_package_server)
                   (JStr "foo/bar")) TypeError (World logged_out [])).
Proof.
  assert (Hlookup : answers_once
                      (getUserBlacklistedPackages (DefaultHandler editors_package_server))
                      (World logged_out [])).
  { exists JFalse, (JArr []). intros callback. reflexivity. }
  split; [exact Hlookup |].
  exact (proj2 (proj2 (proj2 (privilege_checks_answer_once
                                (DefaultHandler editors_package_server)
                                (World logged_out []))))
           (JStr "foo/bar") Hlookup).
Defined.

(** ** A login replaces the user *)

Lemma with_user_again (first second : jsval) (s : gmap string jsval) :
  with_user second (with_user first s) = with_user second s.
Proof.
  unfold with_user.
  rewrite (insert_insert_ne _ "username" "groups") by discriminate.
  rewrite !insert_insert_eq. reflexivity.
Qed.

(** X27.  A login replaces the user of the session entirely.  After the
    login of one user and then of another, the session is the one the
    second login alone leaves: neither the username nor the groups of the
    first user remain, also when the second user record has no groups
    field. *)
Theorem login_replaces_user (inst : Instance) (error blacklist : jsval)
    (first second : list (string * jsval)) (user1 user2 : jsval) (w : world) :
  assoc_get "userData" first = Some user1 ->
  user1 <> JUndefined -> user1 <> JNull ->
  assoc_get "userData" second = Some user2 ->
  user2 <> JUndefined -> user2 <> JNull ->
  exists w1 w2 w2',
    onLogin (Backend inst error blacklist) (JObj first) record w = Ret tt w1
    /\ onLogin (Backend inst error blacklist) (JObj second) record w1 = Ret tt w2
    /\ onLogin (Backend inst error blacklist) (JObj second) record w = Ret tt w2'
    /\ session w2 = session w2'
    /\ stored w2 "username" = lookup_prop user2 "username"
    /\ stored w2 "groups" = JSON_stringify (lookup_prop user2 "groups").
Proof.
  intros Hfirst Hu1 Hn1 Hsecond Hu2 Hn2.
  destruct (onLogin_returns inst error blacklist first user1 w Hfirst Hu1 Hn1)
    as [calls1 Hrun1].
  destruct (onLogin_returns inst error blacklist second user2
              (World (with_user user1 (session w)) (trace w ++ calls1))
              Hsecond Hu2 Hn2) as [calls2 Hrun2].
  destruct (onLogin_returns inst error blacklist second user2 w Hsecond Hu2 Hn2)
    as [calls2' Hrun2'].
  eexists. eexists. eexists.
  split; [exact Hrun1 | split; [exact Hrun2 | split; [exact Hrun2' |]]].
  cbn [session trace]. split; [apply with_user_again | split].
  - apply stored_with_user.
  - unfold stored, with_user. cbn [session]. rewrite lookup_insert_eq. reflexivity.
Qed.

Lemma login_replaces_user_witness :
  exists w1 w2 w2',
    onLogin (DefaultHandler plain_server)
      (JObj [("userData", JObj [("username", JStr "root");
                                ("groups", JArr [JStr "admin"])])])
      record (World ∅ []) = Ret tt w1
    /\ onLogin (DefaultHandler plain_server)
         (JObj [("userData", JObj [("username", JStr "guest")])]) record w1 = Ret tt w2
    /\ onLogin (DefaultHandler plain_server)
         (JObj [("userData", JObj [("username", JStr "guest")])]) record (World ∅ [])
       = Ret tt w2'
    /\ session w2 = session w2'
    /\ stored w2 "groups" = JUndefined.
Proof.
  destruct (login_replaces_user plain_server JFalse (JArr [])
              [("userData", JObj [("username", JStr "root");
                                  ("groups", JArr [JStr "admin"])])]
              [("userData", JObj [("username", JStr "guest")])]
              (JObj [("username", JStr "root"); ("groups", JArr [JStr "admin"])])
              (JObj [("username", JStr "guest")])
              (World ∅ []) eq_refl ltac:(discriminate) ltac:(discriminate)
              eq_refl ltac:(discriminate) ltac:(discriminate))
    as (w1 & w2 & w2' & H1 & H2 & H2' & Hsame & _ & Hgroups).
  exists w1, w2, w2'.
  split; [exact H1 | split; [exact H2 | split; [exact H2' | split; [exact Hsame |]]]].
  exact Hgroups.
Defined.

(** ** One settings file for each user *)

Lemma append_cancel_l (a x y : string) : a +:+ x = a +:+ y -> x = y.
Proof.
  induction a as [|c a IH]; intros H; [exact H |].
  change (String c (a +:+ x) = String c (a +:+ y)) in H.
  injection H as H. apply IH. exact H.
Qed.

Lemma append_cancel_r (x y b : string) : x +:+ b = y +:+ b -> x = y.
Proof.
  revert y. induction x as [|c x IH]; intros y H.
  - destruct y as [|d y]; [reflexivity |].
    apply (f_equal String.length) in H.
    change ("" +:+ b) with b in H. rewrite append_length in H.
    cbn [String.length] in H. lia.
  - destruct y as [|d y].
    + apply (f_equal String.length) in H.
      change ("" +:+ b) with b in H. rewrite append_length in H.
      cbn [String.length] in H. lia.
    + change (String c (x +:+ b) = String d (y +:+ b)) in H.
      injection H as Hc H. rewrite Hc. f_equal. apply IH. exact H.
Qed.

Lemma getSettingsPath_user (cfg : SystemConfig) (username : string) :
  username <> "root" -> dollar_free username = true ->
  getSettingsPath cfg (JStr username)
  = replace_first (cfg_settings cfg) "%USERNAME%" username.
Proof.
  intros Hne Hfree. unfold getSettingsPath. cbn [strict_eq ToString].
  destruct (String.eqb username "root") eqn:E.
  - apply String.eqb_eq in E. congruence.
  - apply String_replace_dollar_free. exact Hfree.
Qed.

(** X28.  The settings files of two users are separate exactly when the
    path template holds the username placeholder.  With the placeholder,
    two users other than root whose names hold no dollar sign and whose
    settings paths are equal are the same user; without it, every user
    other than root gets the template itself as the path. *)
Theorem settings_paths_separate (cfg : SystemConfig) :
  (forall i user1 user2,
      String.index 0 "%USERNAME%" (cfg_settings cfg) = Some i ->
      user1 <> "root" -> user2 <> "root" ->
      dollar_free user1 = true -> dollar_free user2 = true ->
      getSettingsPath cfg (JStr user1) = getSettingsPath cfg (JStr user2) ->
      user1 = user2)
  /\ (String.index 0 "%USERNAME%" (cfg_settings cfg) = None ->
      forall user, user <> "root" ->
                   getSettingsPath cfg (JStr user) = cfg_settings cfg).
Proof.
  split.
  - intros i user1 user2 Hi Hr1 Hr2 Hf1 Hf2 Hsame.
    rewrite !getSettingsPath_user in Hsame by assumption.
    unfold replace_first in Hsame. rewrite Hi in Hsame.
    apply append_cancel_l in Hsame. apply append_cancel_r in Hsame. exact Hsame.
  - intros Hnone user Hroot. unfold getSettingsPath. cbn [strict_eq ToString].
    destruct (String.eqb user "root") eqn:E.
    + apply String.eqb_eq in E. congruence.
    + unfold String_replace. rewrite Hnone. reflexivity.
Qed.

Lemma settings_paths_separate_witness :
  String.index 0 "%USERNAME%" (cfg_settings home_config) = Some 6%nat
  /\ getSettingsPath home_config (JStr "alice") <> getSettingsPath home_config (JStr "bob").
Proof.
  split; [reflexivity |].
  intros Hsame.
  pose proof (proj1 (settings_paths_separate home_config) 6%nat "alice" "bob" eq_refl
                ltac:(discriminate) ltac:(discriminate) eq_refl eq_refl Hsame) as H.
  discriminate H.
Defined.
